(** * PowerDNS-Operator: the RRset reconciler

    A shallow embedding of [internal/controller/rrset_controller.go] and the
    properties of a reconcile invocation: finalizer protocol, duplicate
    check, synchronisation with the PowerDNS server, status reporting, and
    what a second invocation does after a first one.

    The reconciler talks to two collaborators through Go interfaces: the
    Kubernetes [client.Client] and the [PdnsClienter].  Both are kept
    abstract here, as records of operations over a world [W]; every call the
    reconciler makes is appended, with its arguments and its answer, to a
    trace, so that a property of an invocation is a property of its trace
    and of the value it returns. *)

From Stdlib Require Import String List ZArith Bool Lia.
Import ListNotations.
Local Open Scope string_scope.
Local Open Scope list_scope.

(* ===================================================================== *)
(** ** Data model *)
(* ===================================================================== *)

(** k8s.io/apimachinery/pkg/apis/meta/v1 *)
Module metav1.

(** An instant ([metav1.Time] wraps [time.Time]), counted from Go's zero
    [time.Time], so that [0] is the instant for which [IsZero] holds. *)
Definition Time := Z.

(** [IsZero] on a pointer to a [metav1.Time]: true on a nil pointer and
    on the zero instant. *)
Definition IsZero (t : option Time) : bool :=
  match t with
  | None => true
  | Some t => Z.eqb t 0
  end.

Record OwnerReference := {
  Kind : string;
  OwnerName : string;
  Controller : bool
}.

Record ObjectMeta := {
  Name : string;
  Namespace : string;
  DeletionTimestamp : option Time;
  Finalizers : list string;
  OwnerReferences : list OwnerReference
}.

End metav1.

(** k8s.io/apimachinery/pkg/api/errors, and the [error] values of Go.  Only
    the status reason and the text of an error are ever looked at. *)
Module errors.

Inductive StatusReason :=
| StatusReasonNotFound
| StatusReasonConflict
| StatusReasonUnknown.

Record error := { Reason : StatusReason; Error : string }.

Definition IsNotFound (err : error) : bool :=
  match Reason err with StatusReasonNotFound => true | _ => false end.

Definition IsConflict (err : error) : bool :=
  match Reason err with StatusReasonConflict => true | _ => false end.

End errors.
Export errors (error).

(** github.com/orange-opensource/powerdns-operator/api/v1alpha1, restricted
    to the fields the controller reads or writes. *)
Module dnsv1alpha1.

Record ZoneRef := { ZoneRefName : string }.

Record RRsetSpec := {
  Type_ : string;
  TTL : Z;
  Records : list string;
  Comment : option string;
  ZoneRef_ : ZoneRef
}.

Record RRsetStatus := {
  LastUpdateTime : option metav1.Time;
  DnsEntryName : option string;
  SyncStatus : option string;
  SyncErrorDescription : option string
}.

Record RRset := {
  ObjectMeta : metav1.ObjectMeta;
  Spec : RRsetSpec;
  Status : RRsetStatus
}.

Record Zone := { ZoneObjectMeta : metav1.ObjectMeta }.

(** Field assignments on the (pointer to the) object. *)
Definition setFinalizers (f : list string) (o : RRset) : RRset :=
  {| ObjectMeta :=
       {| metav1.Name := metav1.Name (ObjectMeta o);
          metav1.Namespace := metav1.Namespace (ObjectMeta o);
          metav1.DeletionTimestamp := metav1.DeletionTimestamp (ObjectMeta o);
          metav1.Finalizers := f;
          metav1.OwnerReferences := metav1.OwnerReferences (ObjectMeta o) |};
     Spec := Spec o;
     Status := Status o |}.

Definition setStatus (s : RRsetStatus) (o : RRset) : RRset :=
  {| ObjectMeta := ObjectMeta o; Spec := Spec o; Status := s |}.

Definition setLastUpdateTime (t : option metav1.Time) (o : RRset) : RRset :=
  setStatus {| LastUpdateTime := t;
               DnsEntryName := DnsEntryName (Status o);
               SyncStatus := SyncStatus (Status o);
               SyncErrorDescription := SyncErrorDescription (Status o) |} o.

Definition setDnsEntryName (n : option string) (o : RRset) : RRset :=
  setStatus {| LastUpdateTime := LastUpdateTime (Status o);
               DnsEntryName := n;
               SyncStatus := SyncStatus (Status o);
               SyncErrorDescription := SyncErrorDescription (Status o) |} o.

Definition setSyncStatus (st : option string) (o : RRset) : RRset :=
  setStatus {| LastUpdateTime := LastUpdateTime (Status o);
               DnsEntryName := DnsEntryName (Status o);
               SyncStatus := st;
               SyncErrorDescription := SyncErrorDescription (Status o) |} o.

Definition setSyncErrorDescription (d : option string) (o : RRset) : RRset :=
  setStatus {| LastUpdateTime := LastUpdateTime (Status o);
               DnsEntryName := DnsEntryName (Status o);
               SyncStatus := SyncStatus (Status o);
               SyncErrorDescription := d |} o.

End dnsv1alpha1.

(** github.com/joeig/go-powerdns/v3 *)
Module powerdns.

Record Record_ := { RecordContent : string; Disabled : bool }.

Record Comment := { Content : option string; Account : option string }.

(** A record-set as the server answers it; every field but the two lists
    is a pointer. *)
Record RRset := {
  Name : option string;
  Type_ : option string;
  TTL : option Z;
  Records : list Record_;
  Comments : list Comment
}.

(** The functional options [Records.Change] is called with: the empty
    option (a function that leaves the record-set as it is) or
    [powerdns.WithComments]. *)
Inductive RRsetOption :=
| NoOption
| WithComments (c : Comment).

(** The zero value of the struct. *)
Definition zeroRRset : RRset :=
  {| Name := None; Type_ := None; TTL := None; Records := []; Comments := [] |}.

End powerdns.

(** sigs.k8s.io/controller-runtime *)
Module ctrl.

(** [RequeueAfter] is a [time.Duration], in nanoseconds. *)
Record Result := { Requeue : bool; RequeueAfter : Z }.

Definition noResult : Result := {| Requeue := false; RequeueAfter := 0 |}.

End ctrl.

Module time.
Definition Second : Z := 1000000000.
End time.

Module client.

Record ObjectKey := { Namespace : string; Name : string }.

(** [client.IgnoreNotFound] *)
Definition IgnoreNotFound (err : error) : option error :=
  if errors.IsNotFound err then None else Some err.

End client.

(** sigs.k8s.io/controller-runtime/pkg/controller/controllerutil *)
Module controllerutil.
Import dnsv1alpha1.

Definition ContainsFinalizer (o : RRset) (finalizer : string) : bool :=
  existsb (String.eqb finalizer) (metav1.Finalizers (ObjectMeta o)).

(** Appends the finalizer unless the object carries it already. *)
Definition AddFinalizer (o : RRset) (finalizer : string) : RRset :=
  if ContainsFinalizer o finalizer then o
  else setFinalizers (metav1.Finalizers (ObjectMeta o) ++ [finalizer]) o.

(** Drops every occurrence of the finalizer. *)
Definition RemoveFinalizer (o : RRset) (finalizer : string) : RRset :=
  setFinalizers
    (filter (fun f => negb (String.eqb f finalizer))
            (metav1.Finalizers (ObjectMeta o))) o.

End controllerutil.

Definition FAILED_STATUS : string := "Failed".
Definition SUCCEEDED_STATUS : string := "Succeeded".

(* ===================================================================== *)
(** ** Calls, traces and the monad of one invocation *)
(* ===================================================================== *)

(** One entry per call the reconciler makes to a collaborator, with the
    arguments it passes and the answer it gets.  Logging is left out. *)
Inductive Event :=
| EvGet (key : client.ObjectKey) (res : error + dnsv1alpha1.RRset)
| EvGetZone (key : client.ObjectKey) (res : error + dnsv1alpha1.Zone)
| EvUpdate (obj : dnsv1alpha1.RRset) (res : option error)
| EvList (field value : string) (res : error + list dnsv1alpha1.RRset)
| EvStatusPatch (obj original : dnsv1alpha1.RRset) (res : option error)
| EvRecordsGet (zone name rrtype : string)
               (res : list powerdns.RRset * option error)
| EvRecordsChange (zone name rrtype : string) (ttl : Z)
                  (records : list string) (opt : powerdns.RRsetOption)
                  (res : option error)
| EvRecordsDelete (zone name rrtype : string) (res : option error)
| EvSetControllerReference (owner : dnsv1alpha1.Zone)
                           (obj : dnsv1alpha1.RRset)
                           (res : error + dnsv1alpha1.RRset)
| EvUpdateRrsetsMetrics (fqdn rrtype status name namespace : string)
| EvRemoveRrsetMetrics (name namespace : string).

Definition Trace := list Event.

(** How a Go call ends: it returns, or it panics (here: on the dereference
    of a nil pointer). *)
Inductive outcome (A : Type) :=
| Returned (a : A)
| Panicked.
Arguments Returned {A} a.
Arguments Panicked {A}.

Section Monad.
Variable W : Type.

(** A computation over the world of the collaborators and the trace of
    the calls made so far. *)
Definition M (A : Type) : Type := W * Trace -> outcome A * (W * Trace).

Definition ret {A} (a : A) : M A := fun s => (Returned a, s).

Definition bind {A B} (m : M A) (k : A -> M B) : M B :=
  fun s =>
    match m s with
    | (Returned a, s') => k a s'
    | (Panicked, s') => (Panicked, s')
    end.

Definition panic {A} : M A := fun s => (Panicked, s).

(** [call op ev]: run the collaborator's operation on the world and
    record the call. *)
Definition call {A} (op : W -> A * W) (ev : A -> Event) : M A :=
  fun s =>
    let '(a, w') := op (fst s) in
    (Returned a, (w', snd s ++ [ev a])).

(** A side effect with nothing to answer (the metrics registry). *)
Definition emit (e : Event) : M unit :=
  fun s => (Returned tt, (fst s, snd s ++ [e])).

(** An operation of the world that is not recorded (the clock). *)
Definition lift {A} (op : W -> A * W) : M A :=
  fun s => let '(a, w') := op (fst s) in (Returned a, (w', snd s)).

(** A computation that touches neither the world nor the trace. *)
Definition pure {A} (o : outcome A) : M A := fun s => (o, s).

(** Dereference of a pointer. *)
Definition deref {A} (p : option A) : M A :=
  match p with
  | Some a => ret a
  | None => panic
  end.

End Monad.

Arguments ret {W A} a.
Arguments bind {W A B} m k.
Arguments panic {W A}.
Arguments call {W A} op ev.
Arguments emit {W} e.
Arguments lift {W A} op.
Arguments deref {W A} p.
Arguments pure {W A} o.

Declare Scope go_scope.
Delimit Scope go_scope with go.
Notation "x <- m ;; k" := (bind m (fun x => k))
  (at level 61, m at next level, right associativity) : go_scope.
Notation "m ;;; k" := (bind m (fun _ => k))
  (at level 61, right associativity) : go_scope.

(* ===================================================================== *)
(** ** The controller *)
(* ===================================================================== *)

Section Controller.
Import dnsv1alpha1.
Local Open Scope go_scope.

Variable W : Type.

(** The methods of [client.Client] the reconciler calls.  [Get] is used
    at two types; [StatusPatch obj original] is
    [Status().Patch(ctx, obj, client.MergeFrom(original))].  The object a
    write sends is taken to come back with the fields read afterwards
    unchanged. *)
Record Client := {
  Get : client.ObjectKey -> W -> (error + RRset) * W;
  GetZone : client.ObjectKey -> W -> (error + Zone) * W;
  Update : RRset -> W -> option error * W;
  List : string -> string -> W -> (error + list RRset) * W;
  StatusPatch : RRset -> RRset -> W -> option error * W
}.

(** [PdnsClienter], the [Records] part. *)
Record PdnsClienter := {
  RecordsGet : string -> string -> string ->
               W -> (list powerdns.RRset * option error) * W;
  RecordsChange : string -> string -> string -> Z -> list string ->
                  powerdns.RRsetOption -> W -> option error * W;
  RecordsDelete : string -> string -> string -> W -> option error * W
}.

Variable Scheme_ : Type.

Record RRsetReconciler := {
  Client_ : Client;
  Scheme : Scheme_;
  PDNSClient : PdnsClienter
}.

(** Declared elsewhere in the package or in libraries, and kept abstract:
    the name of the finalizer, the helpers of the package on names and
    record-sets, [ctrl.SetControllerReference] and the clock. *)
Variable FINALIZER_NAME : string.
Variable getRRsetName : RRset -> string.
Variable makeCanonical : string -> string.
Variable rrsetIsIdenticalToExternalRRset : RRset -> powerdns.RRset -> bool.
Variable SetControllerReference : Zone -> RRset -> Scheme_ -> error + RRset.
Variable Now : W -> metav1.Time * W.

Variable r : RRsetReconciler.

(** The two functions of the package on the metrics registry; what they
    do to the registry is not looked into, the call is recorded. *)
Definition removeRrsetMetrics (name namespace : string) : M W unit :=
  emit (EvRemoveRrsetMetrics name namespace).

Definition updateRrsetsMetrics (fqdn rrtype status name namespace : string)
  : M W unit :=
  emit (EvUpdateRrsetsMetrics fqdn rrtype status name namespace).

Definition deleteExternalResources (zone : Zone) (rrset : RRset)
  : M W (option error) :=
  let zoneName := metav1.Name (ZoneObjectMeta zone) in
  let name := getRRsetName rrset in
  let rrType := Type_ (Spec rrset) in
  err <- call (RecordsDelete (PDNSClient r) zoneName name rrType)
              (EvRecordsDelete zoneName name rrType) ;;
  match err with
  | Some e => ret (Some e)
  | None => ret None
  end.

(** The loop that keeps the first record-set of the answer named as the
    one asked for; the dereference of [fr.Name] panics on a record-set
    without a name. *)
Fixpoint filterRecords (records : list powerdns.RRset) (canonical : string)
                       (filteredRecord : powerdns.RRset)
  : outcome powerdns.RRset :=
  match records with
  | [] => Returned filteredRecord
  | fr :: rest =>
      match powerdns.Name fr with
      | None => Panicked
      | Some frName =>
          if String.eqb frName canonical then Returned fr
          else filterRecords rest canonical filteredRecord
      end
  end.

Definition isNil {A} (p : option A) : bool :=
  match p with None => true | Some _ => false end.

Definition operatorAccount : string := "powerdns-operator".

(** Creates or updates the record-set on the server if necessary; the
    boolean tells whether it changed. *)
Definition createOrUpdateExternalResources (zone : Zone) (rrset : RRset)
  : M W (bool * option error) :=
  let zoneName := metav1.Name (ZoneObjectMeta zone) in
  let name := getRRsetName rrset in
  let rrType := Type_ (Spec rrset) in
  got <- call (RecordsGet (PDNSClient r) zoneName name rrType)
              (EvRecordsGet zoneName name rrType) ;;
  let '(records, err) := got in
  if match err with
     | Some e => negb (errors.IsNotFound e)
     | None => false
     end
  then ret (false, err)
  else
    filteredRecord <-
      pure (filterRecords records (makeCanonical name) powerdns.zeroRRset) ;;
    if negb (isNil (powerdns.Name filteredRecord))
       && rrsetIsIdenticalToExternalRRset rrset filteredRecord
    then ret (false, None)
    else
      let comments :=
        match Comment (Spec rrset) with
        | Some c =>
            powerdns.WithComments
              {| powerdns.Content := Some c;
                 powerdns.Account := Some operatorAccount |}
        | None => powerdns.NoOption
        end in
      err <- call (RecordsChange (PDNSClient r) zoneName name rrType
                     (TTL (Spec rrset)) (Records (Spec rrset)) comments)
                  (EvRecordsChange zoneName name rrType
                     (TTL (Spec rrset)) (Records (Spec rrset)) comments) ;;
      match err with
      | Some e => ret (false, Some e)
      | None => ret (true, None)
      end.

(** Sets the owner reference on the record-set; the object comes back as
    the call left it. *)
Definition ownObject (zone : Zone) (rrset : RRset)
  : M W (option error * RRset) :=
  let res := SetControllerReference zone rrset (Scheme r) in
  emit (EvSetControllerReference zone rrset res) ;;;
  match res with
  | inl e => ret (Some e, rrset)
  | inr rrset =>
      err <- call (Update (Client_ r) rrset) (EvUpdate rrset) ;;
      ret (err, rrset)
  end.

Definition duplicateDiagnostic : string :=
  "Already existing RRset with the same FQDN".

(** [Reconcile], from the test on the failed status (line 141) to its
    end: the object is not being deleted and carries the finalizer. *)
Definition reconcileSync (zone : Zone) (rrset : RRset)
           (isInFailedStatus : bool) (lastUpdateTime : metav1.Time)
  : M W (ctrl.Result * option error) :=
  if isInFailedStatus then
    status <- deref (SyncStatus (Status rrset)) ;;
    updateRrsetsMetrics (getRRsetName rrset) (Type_ (Spec rrset)) status
      (metav1.Name (ObjectMeta rrset))
      (metav1.Namespace (ObjectMeta rrset)) ;;;
    ret (ctrl.noResult, None)
  else
    existingRRsets <-
      call (List (Client_ r) "DNS.Entry.Name"
              (getRRsetName rrset ++ "/" ++ Type_ (Spec rrset))%string)
           (EvList "DNS.Entry.Name"
              (getRRsetName rrset ++ "/" ++ Type_ (Spec rrset))%string) ;;
    match existingRRsets with
    | inl err => ret (ctrl.noResult, Some err)
    | inr existingRRsets =>
        if (1 <? length existingRRsets)%nat then
          let original := rrset in
          let rrset := setLastUpdateTime (Some lastUpdateTime) rrset in
          let name := getRRsetName rrset in
          let rrset := setDnsEntryName (Some name) rrset in
          let rrset := setSyncStatus (Some FAILED_STATUS) rrset in
          let rrset :=
            setSyncErrorDescription (Some duplicateDiagnostic) rrset in
          err <- call (StatusPatch (Client_ r) rrset original)
                      (EvStatusPatch rrset original) ;;
          match err with
          | Some err => ret (ctrl.noResult, Some err)
          | None =>
              status <- deref (SyncStatus (Status rrset)) ;;
              updateRrsetsMetrics (getRRsetName rrset) (Type_ (Spec rrset))
                status (metav1.Name (ObjectMeta rrset))
                (metav1.Namespace (ObjectMeta rrset)) ;;;
              ret (ctrl.noResult, None)
          end
        else
          res <- createOrUpdateExternalResources zone rrset ;;
          let '(changed, err) := res in
          let syncStatus :=
            match err with
            | Some _ => Some FAILED_STATUS
            | None => None
            end in
          let syncErrorDescription :=
            match err with
            | Some err => Some (errors.Error err)
            | None => None
            end in
          lastUpdateTime <-
            (if changed then lift Now else ret lastUpdateTime) ;;
          owned <- ownObject zone rrset ;;
          let '(err, rrset) := owned in
          match err with
          | Some err =>
              if errors.IsConflict err
              then ret ({| ctrl.Requeue := true; ctrl.RequeueAfter := 0 |},
                        None)
              else ret (ctrl.noResult, Some err)
          | None =>
              let original := rrset in
              let syncStatus :=
                match syncStatus with
                | None => Some SUCCEEDED_STATUS
                | Some _ => syncStatus
                end in
              let rrset := setLastUpdateTime (Some lastUpdateTime) rrset in
              let rrset :=
                setDnsEntryName (Some (getRRsetName rrset)) rrset in
              let rrset := setSyncStatus syncStatus rrset in
              let rrset :=
                match syncErrorDescription with
                | Some _ => setSyncErrorDescription syncErrorDescription rrset
                | None => rrset
                end in
              err <- call (StatusPatch (Client_ r) rrset original)
                          (EvStatusPatch rrset original) ;;
              match err with
              | Some err => ret (ctrl.noResult, Some err)
              | None =>
                  status <- deref (SyncStatus (Status rrset)) ;;
                  updateRrsetsMetrics (getRRsetName rrset)
                    (Type_ (Spec rrset)) status
                    (metav1.Name (ObjectMeta rrset))
                    (metav1.Namespace (ObjectMeta rrset)) ;;;
                  ret (ctrl.noResult, None)
              end
          end
    end.

(** [Reconcile], the branch of an object under deletion (lines 112-139). *)
Definition reconcileDelete (zone : Zone) (rrset : RRset)
           (isInFailedStatus : bool)
  : M W (ctrl.Result * option error) :=
  if controllerutil.ContainsFinalizer rrset FINALIZER_NAME then
    err <- (if negb isInFailedStatus
            then deleteExternalResources zone rrset
            else ret None) ;;
    match err with
    | Some err => ret (ctrl.noResult, Some err)
    | None =>
        let rrset := controllerutil.RemoveFinalizer rrset FINALIZER_NAME in
        err <- call (Update (Client_ r) rrset) (EvUpdate rrset) ;;
        match err with
        | Some err => ret (ctrl.noResult, Some err)
        | None =>
            removeRrsetMetrics (metav1.Name (ObjectMeta rrset))
              (metav1.Namespace (ObjectMeta rrset)) ;;;
            _ <- lift Now ;;
            ret (ctrl.noResult, None)
        end
    end
  else ret (ctrl.noResult, None).

(** [Reconcile], when the zone of the record-set is not found
    (lines 79-92). *)
Definition reconcileZoneNotFound (rrset : RRset)
  : M W (ctrl.Result * option error) :=
  let requeue :=
    {| ctrl.Requeue := false; ctrl.RequeueAfter := 2 * time.Second |} in
  if controllerutil.ContainsFinalizer rrset FINALIZER_NAME then
    let rrset := controllerutil.RemoveFinalizer rrset FINALIZER_NAME in
    err <- call (Update (Client_ r) rrset) (EvUpdate rrset) ;;
    match err with
    | Some err => ret (ctrl.noResult, Some err)
    | None =>
        removeRrsetMetrics (metav1.Name (ObjectMeta rrset))
          (metav1.Namespace (ObjectMeta rrset)) ;;;
        ret (requeue, None)
    end
  else ret (requeue, None).

(** [rrset.Status.SyncStatus != nil && *rrset.Status.SyncStatus == FAILED_STATUS] *)
Definition isInFailedStatus (rrset : RRset) : bool :=
  match SyncStatus (Status rrset) with
  | Some s => String.eqb s FAILED_STATUS
  | None => false
  end.

Definition Reconcile (req : client.ObjectKey)
  : M W (ctrl.Result * option error) :=
  got <- call (Get (Client_ r) req) (EvGet req) ;;
  match got with
  | inl err => ret (ctrl.noResult, client.IgnoreNotFound err)
  | inr rrset =>
      let isInFailedStatus := isInFailedStatus rrset in
      now <- lift Now ;;
      let lastUpdateTime :=
        match LastUpdateTime (Status rrset) with
        | Some t => t
        | None => now
        end in
      let zoneKey :=
        {| client.Namespace := metav1.Namespace (ObjectMeta rrset);
           client.Name := ZoneRefName (ZoneRef_ (Spec rrset)) |} in
      gotZone <- call (GetZone (Client_ r) zoneKey) (EvGetZone zoneKey) ;;
      match gotZone with
      | inl err =>
          if errors.IsNotFound err then reconcileZoneNotFound rrset
          else ret (ctrl.noResult, Some err)
      | inr zone =>
          if metav1.IsZero (metav1.DeletionTimestamp (ObjectMeta rrset)) then
            if negb (controllerutil.ContainsFinalizer rrset FINALIZER_NAME)
            then
              let rrset := controllerutil.AddFinalizer rrset FINALIZER_NAME in
              lastUpdateTime <- lift Now ;;
              err <- call (Update (Client_ r) rrset) (EvUpdate rrset) ;;
              match err with
              | Some err => ret (ctrl.noResult, Some err)
              | None =>
                  reconcileSync zone rrset isInFailedStatus lastUpdateTime
              end
            else reconcileSync zone rrset isInFailedStatus lastUpdateTime
          else reconcileDelete zone rrset isInFailedStatus
      end
  end.

(** The field indexer registered by [SetupWithManager] under
    ["DNS.Entry.Name"]. *)
Definition indexDNSEntryName (rawObj : RRset) : list string :=
  let RRsetName :=
    if match SyncStatus (Status rawObj) with
       | None => true
       | Some s => String.eqb s SUCCEEDED_STATUS
       end
    then (getRRsetName rawObj ++ "/" ++ Type_ (Spec rawObj))%string
    else ""%string in
  [RRsetName].

(** One invocation, started on a world with an empty trace. *)
Definition run (req : client.ObjectKey) (w : W)
  : outcome (ctrl.Result * option error) * (W * Trace) :=
  Reconcile req (w, []).

End Controller.

Arguments Get {W} c key w.
Arguments GetZone {W} c key w.
Arguments Update {W} c obj w.
Arguments List {W} c field value w.
Arguments StatusPatch {W} c obj original w.
Arguments RecordsGet {W} p zone name rrtype w.
Arguments RecordsChange {W} p zone name rrtype ttl records opt w.
Arguments RecordsDelete {W} p zone name rrtype w.
Arguments Client_ {W Scheme_} r.
Arguments Scheme {W Scheme_} r.
Arguments PDNSClient {W Scheme_} r.

(** What the finalization logic may do: read the object and its zone,
    delete the record-set on the server, send the object without the
    finalizer, retract its metrics. *)
Definition finalizationEvent (finalizer : string) (e : Event) : bool :=
  match e with
  | EvGet _ _ | EvGetZone _ _ | EvRecordsDelete _ _ _ _
  | EvRemoveRrsetMetrics _ _ => true
  | EvUpdate obj _ => negb (controllerutil.ContainsFinalizer obj finalizer)
  | _ => false
  end.

(* ===================================================================== *)
(** ** A reference world *)
(* ===================================================================== *)

(** An API server and a PowerDNS server held in memory, in the manner of
    the test doubles a controller is exercised with, and a schedule of
    injected failures.  It gives the collaborators a concrete behaviour when
    several invocations follow each other, and concrete runs to evaluate. *)
Module Ref.
Import dnsv1alpha1.

(** The failure, if any, each call of the coming invocation answers with.
    [Update] is called up to twice in an invocation: its failures are
    consumed in order. *)
Record Faults := {
  onGet : option error;
  onGetZone : option error;
  onUpdate : list (option error);
  onList : option error;
  onStatusPatch : option error;
  onRecordsGet : option error;
  onRecordsChange : option error;
  onRecordsDelete : option error
}.

Definition noFaults : Faults :=
  {| onGet := None; onGetZone := None; onUpdate := []; onList := None;
     onStatusPatch := None; onRecordsGet := None; onRecordsChange := None;
     onRecordsDelete := None |}.

(** The object the requests are about, the other record-sets the index
    of the API server knows, the zones, the record-sets of the PowerDNS
    server (each with the name of its zone), the clock and the failures to
    come. *)
Record World := {
  object : option RRset;
  siblings : list RRset;
  zones : list Zone;
  pdns : list (string * powerdns.RRset);
  clock : metav1.Time;
  faults : Faults
}.

Definition setObject (o : option RRset) (w : World) : World :=
  {| object := o; siblings := siblings w; zones := zones w; pdns := pdns w;
     clock := clock w; faults := faults w |}.

Definition setPdns (l : list (string * powerdns.RRset)) (w : World) : World :=
  {| object := object w; siblings := siblings w; zones := zones w; pdns := l;
     clock := clock w; faults := faults w |}.

Definition setFaults (f : Faults) (w : World) : World :=
  {| object := object w; siblings := siblings w; zones := zones w;
     pdns := pdns w; clock := clock w; faults := f |}.

Definition notFound : error :=
  {| errors.Reason := errors.StatusReasonNotFound;
     errors.Error := "not found" |}.

Definition hasKey (key : client.ObjectKey) (m : metav1.ObjectMeta) : bool :=
  String.eqb (metav1.Namespace m) (client.Namespace key)
  && String.eqb (metav1.Name m) (client.Name key).

Definition keyOf (m : metav1.ObjectMeta) : client.ObjectKey :=
  {| client.Namespace := metav1.Namespace m; client.Name := metav1.Name m |}.

Definition optionEqb {A} (eqb : A -> A -> bool) (a b : option A) : bool :=
  match a, b with
  | Some x, Some y => eqb x y
  | None, None => true
  | _, _ => false
  end.

Section Servers.
(** The helpers of the package the servers depend on: the index of the
    API server is the one [SetupWithManager] registers, the PowerDNS
    server stores names in canonical form. *)
Variable getRRsetName : RRset -> string.
Variable makeCanonical : string -> string.

Definition refGet (key : client.ObjectKey) (w : World)
  : (error + RRset) * World :=
  match onGet (faults w) with
  | Some e => (inl e, w)
  | None =>
      match object w with
      | Some o =>
          if hasKey key (ObjectMeta o) then (inr o, w) else (inl notFound, w)
      | None => (inl notFound, w)
      end
  end.

Definition refGetZone (key : client.ObjectKey) (w : World)
  : (error + Zone) * World :=
  match onGetZone (faults w) with
  | Some e => (inl e, w)
  | None =>
      match find (fun z => hasKey key (ZoneObjectMeta z)) (zones w) with
      | Some z => (inr z, w)
      | None => (inl notFound, w)
      end
  end.

(** What the store holds after an update of [obj]: metadata and spec are
    replaced, the status is not (it is a subresource); an object under
    deletion is gone once its last finalizer is. *)
Definition stored (obj held : RRset) : option RRset :=
  if negb (metav1.IsZero (metav1.DeletionTimestamp (ObjectMeta obj)))
     && match metav1.Finalizers (ObjectMeta obj) with
        | [] => true
        | _ => false
        end
  then None
  else Some {| ObjectMeta := ObjectMeta obj; Spec := Spec obj;
               Status := Status held |}.

Definition popFault (w : World) : option error * World :=
  match onUpdate (faults w) with
  | [] => (None, w)
  | f :: rest =>
      (f, setFaults
            {| onGet := onGet (faults w);
               onGetZone := onGetZone (faults w);
               onUpdate := rest;
               onList := onList (faults w);
               onStatusPatch := onStatusPatch (faults w);
               onRecordsGet := onRecordsGet (faults w);
               onRecordsChange := onRecordsChange (faults w);
               onRecordsDelete := onRecordsDelete (faults w) |} w)
  end.

Definition refUpdate (obj : RRset) (w : World) : option error * World :=
  let '(f, w) := popFault w in
  match f with
  | Some e => (Some e, w)
  | None =>
      match object w with
      | Some held =>
          if hasKey (keyOf (ObjectMeta obj)) (ObjectMeta held)
          then (None, setObject (stored obj held) w)
          else (Some notFound, w)
      | None => (Some notFound, w)
      end
  end.

Definition known (w : World) : list RRset :=
  match object w with
  | Some o => o :: siblings w
  | None => siblings w
  end.

Definition refList (field value : string) (w : World)
  : (error + list RRset) * World :=
  match onList (faults w) with
  | Some e => (inl e, w)
  | None =>
      (inr (filter (fun o =>
                      existsb (String.eqb value)
                        (indexDNSEntryName getRRsetName o))
                   (known w)), w)
  end.

(** The merge patch from [original] to [obj], applied to the status
    the store holds: a field changes if and only if the two differ
    on it. *)
Definition mergeStatus (obj original held : RRsetStatus) : RRsetStatus :=
  {| LastUpdateTime :=
       if optionEqb Z.eqb (LastUpdateTime obj) (LastUpdateTime original)
       then LastUpdateTime held else LastUpdateTime obj;
     DnsEntryName :=
       if optionEqb String.eqb (DnsEntryName obj) (DnsEntryName original)
       then DnsEntryName held else DnsEntryName obj;
     SyncStatus :=
       if optionEqb String.eqb (SyncStatus obj) (SyncStatus original)
       then SyncStatus held else SyncStatus obj;
     SyncErrorDescription :=
       if optionEqb String.eqb (SyncErrorDescription obj)
                    (SyncErrorDescription original)
       then SyncErrorDescription held else SyncErrorDescription obj |}.

Definition refStatusPatch (obj original : RRset) (w : World)
  : option error * World :=
  match onStatusPatch (faults w) with
  | Some e => (Some e, w)
  | None =>
      match object w with
      | Some held =>
          if hasKey (keyOf (ObjectMeta obj)) (ObjectMeta held)
          then
            (None,
             setObject
               (Some (setStatus (mergeStatus (Status obj) (Status original)
                                   (Status held)) held)) w)
          else (Some notFound, w)
      | None => (Some notFound, w)
      end
  end.

Definition refClient : Client World :=
  {| Get := refGet; GetZone := refGetZone; Update := refUpdate;
     List := refList; StatusPatch := refStatusPatch |}.

(** The record-set of [zone] named [name] (in canonical form) of type
    [rrtype]. *)
Definition isRecord (zone name rrtype : string)
           (e : string * powerdns.RRset) : bool :=
  String.eqb (fst e) zone
  && optionEqb String.eqb (powerdns.Name (snd e)) (Some (makeCanonical name))
  && optionEqb String.eqb (powerdns.Type_ (snd e)) (Some rrtype).

Definition refRecordsGet (zone name rrtype : string) (w : World)
  : (list powerdns.RRset * option error) * World :=
  match onRecordsGet (faults w) with
  | Some e => (([], Some e), w)
  | None =>
      ((map snd (filter (isRecord zone name rrtype) (pdns w)), None), w)
  end.

(** The record-set the server holds after a change: the comments are
    replaced when the call carries some and kept otherwise. *)
Definition changed (name rrtype : string) (ttl : Z) (records : list string)
           (opt : powerdns.RRsetOption) (held : list powerdns.Comment)
  : powerdns.RRset :=
  {| powerdns.Name := Some (makeCanonical name);
     powerdns.Type_ := Some rrtype;
     powerdns.TTL := Some ttl;
     powerdns.Records :=
       map (fun c => {| powerdns.RecordContent := c;
                        powerdns.Disabled := false |}) records;
     powerdns.Comments :=
       match opt with
       | powerdns.WithComments c => [c]
       | powerdns.NoOption => held
       end |}.

Definition heldComments (zone name rrtype : string)
           (l : list (string * powerdns.RRset)) : list powerdns.Comment :=
  match find (isRecord zone name rrtype) l with
  | Some e => powerdns.Comments (snd e)
  | None => []
  end.

Definition refRecordsChange (zone name rrtype : string) (ttl : Z)
           (records : list string) (opt : powerdns.RRsetOption) (w : World)
  : option error * World :=
  match onRecordsChange (faults w) with
  | Some e => (Some e, w)
  | None =>
      (None,
       setPdns
         ((zone, changed name rrtype ttl records opt
                   (heldComments zone name rrtype (pdns w)))
            :: filter (fun e => negb (isRecord zone name rrtype e)) (pdns w))
         w)
  end.

Definition refRecordsDelete (zone name rrtype : string) (w : World)
  : option error * World :=
  match onRecordsDelete (faults w) with
  | Some e => (Some e, w)
  | None =>
      (None,
       setPdns (filter (fun e => negb (isRecord zone name rrtype e)) (pdns w))
               w)
  end.

Definition refPdns : PdnsClienter World :=
  {| RecordsGet := refRecordsGet; RecordsChange := refRecordsChange;
     RecordsDelete := refRecordsDelete |}.

Definition reconciler : RRsetReconciler World unit :=
  {| Client_ := refClient; Scheme := tt; PDNSClient := refPdns |}.

End Servers.

(** The clock moves on each time it is read. *)
Definition refNow (w : World) : metav1.Time * World :=
  (clock w,
   {| object := object w; siblings := siblings w; zones := zones w;
      pdns := pdns w; clock := (clock w + 1)%Z; faults := faults w |}).

Definition alreadyOwned : error :=
  {| errors.Reason := errors.StatusReasonUnknown;
     errors.Error := "Object is already owned by another controller" |}.

Definition crossNamespace : error :=
  {| errors.Reason := errors.StatusReasonUnknown;
     errors.Error := "cross-namespace owner references are disallowed" |}.

Definition sameOwner (a b : metav1.OwnerReference) : bool :=
  String.eqb (metav1.Kind a) (metav1.Kind b)
  && String.eqb (metav1.OwnerName a) (metav1.OwnerName b).

(** [ctrl.SetControllerReference]: the owner must live in the namespace
    of the object, which must not be controlled by another owner; the
    reference replaces the one to the same owner, if any. *)
Definition refSetControllerReference (zone : Zone) (o : RRset) (_ : unit)
  : error + RRset :=
  let ref := {| metav1.Kind := "Zone";
                metav1.OwnerName := metav1.Name (ZoneObjectMeta zone);
                metav1.Controller := true |} in
  let refs := metav1.OwnerReferences (ObjectMeta o) in
  if negb (String.eqb (metav1.Namespace (ZoneObjectMeta zone))
                      (metav1.Namespace (ObjectMeta o)))
  then inl crossNamespace
  else if existsb (fun e => metav1.Controller e && negb (sameOwner e ref)) refs
  then inl alreadyOwned
  else
    inr {| ObjectMeta :=
             {| metav1.Name := metav1.Name (ObjectMeta o);
                metav1.Namespace := metav1.Namespace (ObjectMeta o);
                metav1.DeletionTimestamp :=
                  metav1.DeletionTimestamp (ObjectMeta o);
                metav1.Finalizers := metav1.Finalizers (ObjectMeta o);
                metav1.OwnerReferences :=
                  filter (fun e => negb (sameOwner e ref)) refs ++ [ref] |};
           Spec := Spec o;
           Status := Status o |}.

(** One choice of the helpers of the package, for concrete runs: the
    name of the object qualified by its zone, names closed by a dot, and
    a comparison on type, TTL, contents and, when the object has one, the
    comment. *)
Definition FINALIZER_NAME : string := "dns.cav.enablers.ob/finalizer".

Definition makeCanonical (name : string) : string :=
  if String.eqb (substring (String.length name - 1) 1 name) "."
  then name else (name ++ ".")%string.

Definition getRRsetName (o : RRset) : string :=
  (metav1.Name (ObjectMeta o) ++ "."
     ++ ZoneRefName (ZoneRef_ (Spec o)) ++ ".")%string.

Definition listEqb {A} (eqb : A -> A -> bool) : list A -> list A -> bool :=
  fix go (a b : list A) : bool :=
    match a, b with
    | [], [] => true
    | x :: a, y :: b => eqb x y && go a b
    | _, _ => false
    end.

Definition rrsetIsIdenticalToExternalRRset (o : RRset) (e : powerdns.RRset)
  : bool :=
  optionEqb String.eqb (powerdns.Type_ e) (Some (Type_ (Spec o)))
  && optionEqb Z.eqb (powerdns.TTL e) (Some (TTL (Spec o)))
  && listEqb String.eqb (map powerdns.RecordContent (powerdns.Records e))
                        (Records (Spec o))
  && match Comment (Spec o) with
     | None => true
     | Some c =>
         listEqb (optionEqb String.eqb)
                 (map powerdns.Content (powerdns.Comments e)) [Some c]
     end.

(** An invocation in the reference world, with the failures [f], for
    given helpers of the package. *)
Definition reconcileWith (finalizer : string) (getName : RRset -> string)
           (canonical : string -> string)
           (identical : RRset -> powerdns.RRset -> bool)
           (f : Faults) (req : client.ObjectKey) (w : World)
  : outcome (ctrl.Result * option error) * (World * Trace) :=
  run World unit finalizer getName canonical identical
      refSetControllerReference refNow (reconciler getName canonical)
      req (setFaults f w).

(** The lastUpdateTime of the stored object, if there is one. *)
Definition lastUpdateTimeOf (w : World) : option (option metav1.Time) :=
  option_map (fun o => LastUpdateTime (Status o)) (object w).

Definition isChange (e : Event) : bool :=
  match e with EvRecordsChange _ _ _ _ _ _ _ => true | _ => false end.

Definition reconcile : Faults -> client.ObjectKey -> World ->
                       outcome (ctrl.Result * option error) * (World * Trace) :=
  reconcileWith FINALIZER_NAME getRRsetName makeCanonical
                rrsetIsIdenticalToExternalRRset.

End Ref.
(** The calls to the PowerDNS server. *)
Definition pdnsEvent (e : Event) : bool :=
  match e with
  | EvRecordsGet _ _ _ _ | EvRecordsChange _ _ _ _ _ _ _
  | EvRecordsDelete _ _ _ _ => true
  | _ => false
  end.

(** The error of a failed synchronisation step, as
    [createOrUpdateExternalResources] returns it: a fetch that fails
    with anything but NotFound, or an apply that fails. *)
Definition syncFailure (e : Event) : option error :=
  match e with
  | EvRecordsGet _ _ _ (_, Some err) =>
      if errors.IsNotFound err then None else Some err
  | EvRecordsChange _ _ _ _ _ _ (Some err) => Some err
  | _ => None
  end.

(** The error of a failed write to the API server. *)
Definition writeFailure (e : Event) : option error :=
  match e with
  | EvUpdate _ (Some err) | EvStatusPatch _ _ (Some err) => Some err
  | _ => None
  end.

Definition isUpdate (e : Event) : bool :=
  match e with EvUpdate _ _ => true | _ => false end.

Definition isStatusPatch (e : Event) : bool :=
  match e with EvStatusPatch _ _ _ => true | _ => false end.

(** The trace ends with the call that sets the owner reference: the
    update that follows it is the one of [ownObject]. *)
Fixpoint endsWithSetControllerReference (t : Trace) : bool :=
  match t with
  | [] => false
  | [EvSetControllerReference _ _ _] => true
  | _ :: rest => endsWithSetControllerReference rest
  end.

Definition isList (e : Event) : bool :=
  match e with EvList _ _ _ => true | _ => false end.

Definition isDelete (e : Event) : bool :=
  match e with EvRecordsDelete _ _ _ _ => true | _ => false end.

Definition isPublish (e : Event) : bool :=
  match e with EvUpdateRrsetsMetrics _ _ _ _ _ => true | _ => false end.

(** The error a call answers, for the calls whose error [Reconcile] hands
    back to its caller: the reads of the object and of its zone (NotFound
    apart), the writes, the duplicate check, the external delete and the
    setting of the owner reference. *)
Definition reported (e : Event) : option error :=
  match e with
  | EvGet _ (inl err) | EvGetZone _ (inl err) =>
      if errors.IsNotFound err then None else Some err
  | EvUpdate _ (Some err) | EvStatusPatch _ _ (Some err)
  | EvList _ _ (inl err) | EvRecordsDelete _ _ _ (Some err)
  | EvSetControllerReference _ _ (inl err) => Some err
  | _ => None
  end.

Definition isFetch (e : Event) : bool :=
  match e with EvRecordsGet _ _ _ _ => true | _ => false end.

(** The lookup of the zone, answered with the zone. *)
Definition isZoneFound (e : Event) : bool :=
  match e with EvGetZone _ (inr _) => true | _ => false end.

(** The two reads that open an invocation. *)
Definition isRead (e : Event) : bool :=
  match e with EvGet _ _ | EvGetZone _ _ => true | _ => false end.

(* ===================================================================== *)
(** ** The registration of the controller *)
(* ===================================================================== *)

Section Setup.
Import dnsv1alpha1.

(** The state of the manager. *)
Variable M : Type.

(** The calls [SetupWithManager] makes to the manager, with their
    answers: the registration of a field index with the function that
    extracts the keys of an object, and the construction of the controller
    ([ctrl.NewControllerManagedBy(mgr).For(&RRset{}).Complete(r)]). *)
Inductive SetupEvent :=
| EvIndexField (field : string) (extractValue : RRset -> list string)
               (res : option error)
| EvComplete (res : option error).

(** The part of [ctrl.Manager] that is used. *)
Record Manager := {
  IndexField : string -> (RRset -> list string) -> M -> option error * M;
  Complete : M -> option error * M
}.

Variable getRRsetName : RRset -> string.

Definition SetupWithManager (mgr : Manager) (m : M)
  : option error * (M * list SetupEvent) :=
  let extractValue := indexDNSEntryName getRRsetName in
  let '(err, m) := IndexField mgr "DNS.Entry.Name" extractValue m in
  match err with
  | Some err =>
      (Some err, (m, [EvIndexField "DNS.Entry.Name" extractValue (Some err)]))
  | None =>
      let '(res, m) := Complete mgr m in
      (res, (m, [EvIndexField "DNS.Entry.Name" extractValue None;
                 EvComplete res]))
  end.

End Setup.

Arguments IndexField {M} m field extractValue s.
Arguments Complete {M} m s.

(* ===================================================================== *)
(** ** A PowerDNS server with stray entries, and the comparison *)
(* ===================================================================== *)

(** What two invocations in a row depend on besides the code under
    src/: the comparison of the object with the record-set of the server,
    and a server whose fetch shows the upstream defect the comment at
    lines 262-264 speaks of. *)
Module Upstream.
Import dnsv1alpha1.

(** The fetch is answered with record-sets, or with an error other than
    NotFound. *)
Definition fetchNotMissing (f : Ref.Faults) : bool :=
  match Ref.onRecordsGet f with
  | Some e => negb (errors.IsNotFound e)
  | None => true
  end.

Section Adapter.
Variable getRRsetName : RRset -> string.
Variable makeCanonical : string -> string.

(** The contents of the comments a server holds for a record-set that
    has the comment the object asks for, and no other. *)
Definition desiredComments (desired : RRset) : list (option string) :=
  match Comment (Spec desired) with
  | Some c => [Some c]
  | None => []
  end.

(** Modelled from the spec: the helper [rrsetIsIdenticalToExternalRRset]
    of the package is not under src/.  Section 4.3 of the spec has it as
    [diff(desired, external)], "true if TTL, record type, canonicalized
    value list, or comment differ".  The two value lists are compared in
    order, value by value in canonical form; the comment of the object is
    compared with the contents of the comments of the record-set, an object
    without a comment agreeing with a record-set without comments. *)
Definition diff (desired : RRset) (external : powerdns.RRset) : bool :=
  negb (Ref.optionEqb Z.eqb (powerdns.TTL external)
          (Some (TTL (Spec desired))))
  || negb (Ref.optionEqb String.eqb (powerdns.Type_ external)
             (Some (Type_ (Spec desired))))
  || negb (Ref.listEqb String.eqb
             (map makeCanonical
                (map powerdns.RecordContent (powerdns.Records external)))
             (map makeCanonical (Records (Spec desired))))
  || negb (Ref.listEqb (Ref.optionEqb String.eqb)
             (map powerdns.Content (powerdns.Comments external))
             (desiredComments desired)).

(** Modelled from the spec: the helper answers that nothing differs. *)
Definition rrsetIsIdenticalToExternalRRset (desired : RRset)
           (external : powerdns.RRset) : bool :=
  negb (diff desired external).

(** The stray entries a fetch of the record-set [name] of type [rrtype]
    in [zone] is answered with, given what the server holds. *)
Variable stray : string -> string -> string ->
                 list (string * powerdns.RRset) -> list powerdns.RRset.

(** The answer of the server: the record-sets asked for, and before them
    (the worst place for the loop that filters the answer) the stray
    entries. *)
Definition answer (zone name rrtype : string)
           (held : list (string * powerdns.RRset)) : list powerdns.RRset :=
  stray zone name rrtype held
    ++ map snd (filter (Ref.isRecord makeCanonical zone name rrtype) held).

Definition refRecordsGet (zone name rrtype : string) (w : Ref.World)
  : (list powerdns.RRset * option error) * Ref.World :=
  match Ref.onRecordsGet (Ref.faults w) with
  | Some e => (([], Some e), w)
  | None => ((answer zone name rrtype (Ref.pdns w), None), w)
  end.

Definition refPdns : PdnsClienter Ref.World :=
  {| RecordsGet := refRecordsGet;
     RecordsChange := Ref.refRecordsChange makeCanonical;
     RecordsDelete := Ref.refRecordsDelete makeCanonical |}.

Definition reconciler : RRsetReconciler Ref.World unit :=
  {| Client_ := Ref.refClient getRRsetName; Scheme := tt;
     PDNSClient := refPdns |}.

(** An invocation against the API server of the reference world and this
    PowerDNS server, with the failures [f]. *)
Definition reconcile (finalizer : string) (f : Ref.Faults)
           (req : client.ObjectKey) (w : Ref.World)
  : outcome (ctrl.Result * option error) * (Ref.World * Trace) :=
  run Ref.World unit finalizer getRRsetName makeCanonical
      rrsetIsIdenticalToExternalRRset Ref.refSetControllerReference
      Ref.refNow reconciler req (Ref.setFaults f w).

(** An entry of an answer that has a name, and not the one asked for. *)
Definition namedOtherwise (canonicalName : string) (fr : powerdns.RRset)
  : bool :=
  match powerdns.Name fr with
  | Some n => negb (String.eqb n canonicalName)
  | None => false
  end.

Definition noComments (e : powerdns.RRset) : bool :=
  match powerdns.Comments e with
  | [] => true
  | _ => false
  end.

(** The server holds no comment the object does not ask for: when the
    object has no comment, the record-sets of its name and type have
    none. *)
Definition noForeignComment (w : Ref.World) : bool :=
  match Ref.object w with
  | Some o =>
      match Comment (Spec o) with
      | Some _ => true
      | None =>
          forallb
            (fun e =>
               negb (Ref.optionEqb String.eqb (powerdns.Name (snd e))
                       (Some (makeCanonical (getRRsetName o)))
                     && Ref.optionEqb String.eqb (powerdns.Type_ (snd e))
                          (Some (Type_ (Spec o))))
               || noComments (snd e))
            (Ref.pdns w)
      end
  | None => true
  end.

(** The zone the object refers to, if the API server has it. *)
Definition zoneOf (o : RRset) (w : Ref.World) : option Zone :=
  find (fun z =>
          Ref.hasKey
            {| client.Namespace := metav1.Namespace (ObjectMeta o);
               client.Name := ZoneRefName (ZoneRef_ (Spec o)) |}
            (ZoneObjectMeta z))
       (Ref.zones w).

(** The loop over the answer of the server keeps a record-set, and the
    comparison finds nothing to change. *)
Definition inSync (zone : Zone) (o : RRset) (w : Ref.World) : bool :=
  match filterRecords
          (answer (metav1.Name (ZoneObjectMeta zone)) (getRRsetName o)
             (Type_ (Spec o)) (Ref.pdns w))
          (makeCanonical (getRRsetName o)) powerdns.zeroRRset
  with
  | Returned fr =>
      negb (isNil (powerdns.Name fr))
      && rrsetIsIdenticalToExternalRRset o fr
  | Panicked => false
  end.

(** The state an accepted status patch leaves: the object is stored
    under the key of the request, is not being deleted and carries the
    finalizer; its status is Failed, or it is Succeeded with a
    lastUpdateTime and the server holds what the object asks for. *)
Definition steady (finalizer : string) (req : client.ObjectKey)
           (w : Ref.World) : bool :=
  match Ref.object w with
  | Some o =>
      Ref.hasKey req (ObjectMeta o)
      && metav1.IsZero (metav1.DeletionTimestamp (ObjectMeta o))
      && controllerutil.ContainsFinalizer o finalizer
      && (isInFailedStatus o
          || (Ref.optionEqb String.eqb (SyncStatus (Status o))
                (Some SUCCEEDED_STATUS)
              && negb (isNil (LastUpdateTime (Status o)))
              && match zoneOf o w with
                 | Some zone => inSync zone o w
                 | None => true
                 end))
  | None => false
  end.

End Adapter.
End Upstream.

(* ===================================================================== *)
(** ** Worlds to run the reconciler on *)
(* ===================================================================== *)

(** A zone [example.com] and a record-set [www] of it, as the end-to-end
    scenario has them, in the states an invocation may find them in. *)
Module Example.
Import dnsv1alpha1.

Definition req : client.ObjectKey :=
  {| client.Namespace := "default"; client.Name := "www" |}.

Definition zone : Zone :=
  {| ZoneObjectMeta :=
       {| metav1.Name := "example.com"; metav1.Namespace := "default";
          metav1.DeletionTimestamp := None; metav1.Finalizers := [];
          metav1.OwnerReferences := [] |} |}.

Definition spec : RRsetSpec :=
  {| Type_ := "A"; TTL := 300; Records := ["10.0.0.1"]; Comment := None;
     ZoneRef_ := {| ZoneRefName := "example.com" |} |}.

Definition rrset (namespace : string) (deletion : option metav1.Time)
           (finalizers : list string) (status : RRsetStatus) : RRset :=
  {| ObjectMeta :=
       {| metav1.Name := "www"; metav1.Namespace := namespace;
          metav1.DeletionTimestamp := deletion;
          metav1.Finalizers := finalizers;
          metav1.OwnerReferences := [] |};
     Spec := spec;
     Status := status |}.

Definition noStatus : RRsetStatus :=
  {| LastUpdateTime := None; DnsEntryName := None; SyncStatus := None;
     SyncErrorDescription := None |}.

Definition succeeded : RRsetStatus :=
  {| LastUpdateTime := Some 5%Z; DnsEntryName := Some "www.example.com.";
     SyncStatus := Some SUCCEEDED_STATUS; SyncErrorDescription := None |}.

Definition failed : RRsetStatus :=
  {| LastUpdateTime := Some 5%Z; DnsEntryName := Some "www.example.com.";
     SyncStatus := Some FAILED_STATUS;
     SyncErrorDescription := Some "server unreachable" |}.

(** Just created: no finalizer, no status. *)
Definition created : RRset := rrset "default" None [] noStatus.

(** Synchronised before, but without the finalizer. *)
Definition detached : RRset := rrset "default" None [] succeeded.

(** Synchronised before. *)
Definition synced : RRset :=
  rrset "default" None [Ref.FINALIZER_NAME] succeeded.

(** Under deletion, after a synchronisation that succeeded or failed. *)
Definition deleting : RRset :=
  rrset "default" (Some 50%Z) [Ref.FINALIZER_NAME] succeeded.

Definition deletingFailed : RRset :=
  rrset "default" (Some 50%Z) [Ref.FINALIZER_NAME] failed.

(** A record-set of another namespace that resolves to the same name. *)
Definition twin : RRset := rrset "other" None [Ref.FINALIZER_NAME] succeeded.

(** The record-set of [spec], as the server holds it. *)
Definition held : string * powerdns.RRset :=
  ("example.com",
   Ref.changed Ref.makeCanonical "www.example.com." "A" 300 ["10.0.0.1"]
     powerdns.NoOption []).

Definition world (o : RRset) (others : list RRset) (zs : list Zone)
           (records : list (string * powerdns.RRset)) : Ref.World :=
  {| Ref.object := Some o; Ref.siblings := others; Ref.zones := zs;
     Ref.pdns := records; Ref.clock := 100%Z; Ref.faults := Ref.noFaults |}.

Definition unavailable : error :=
  {| errors.Reason := errors.StatusReasonUnknown;
     errors.Error := "503 Service Unavailable" |}.

Definition conflict : error :=
  {| errors.Reason := errors.StatusReasonConflict;
     errors.Error := "the object has been modified" |}.

(** The parts of a run. *)
Definition result {A} (run : outcome A * (Ref.World * Trace)) : outcome A :=
  fst run.

Definition after {A} (run : outcome A * (Ref.World * Trace)) : Ref.World :=
  fst (snd run).

Definition trace {A} (run : outcome A * (Ref.World * Trace)) : Trace :=
  snd (snd run).

Definition zoneKey : client.ObjectKey :=
  {| client.Namespace := "default"; client.Name := "example.com" |}.

(** The calls to the PowerDNS server for [spec], with their answers. *)
Definition fetch (answer : list powerdns.RRset) : Event :=
  EvRecordsGet "example.com" "www.example.com." "A" (answer, None).

Definition apply (answer : option error) : Event :=
  EvRecordsChange "example.com" "www.example.com." "A" 300 ["10.0.0.1"]
    powerdns.NoOption answer.

(** The object once [zone] owns it. *)
Definition owned (o : RRset) : RRset :=
  match Ref.refSetControllerReference zone o tt with
  | inr o' => o'
  | inl _ => o
  end.

(** The object as the status patch sends it after a failed apply. *)
Definition failedApply (o : RRset) (t : metav1.Time) : RRset :=
  setSyncErrorDescription (Some (errors.Error unavailable))
    (setSyncStatus (Some FAILED_STATUS)
       (setDnsEntryName (Some "www.example.com.")
          (setLastUpdateTime (Some t) o))).

Definition failing (update : list (option error))
           (patch change : option error) : Ref.Faults :=
  {| Ref.onGet := None; Ref.onGetZone := None; Ref.onUpdate := update;
     Ref.onList := None; Ref.onStatusPatch := patch;
     Ref.onRecordsGet := None; Ref.onRecordsChange := change;
     Ref.onRecordsDelete := None |}.

(** The object just created, its zone in place, nothing fails. *)
Definition runCreated :=
  Ref.reconcile Ref.noFaults req (world created [] [zone] []).

(** The apply fails, for an object with the finalizer and for one
    without. *)
Definition runApplyFails :=
  Ref.reconcile (failing [] None (Some unavailable)) req
    (world synced [] [zone] []).

Definition runApplyFailsDetached :=
  Ref.reconcile (failing [] None (Some unavailable)) req
    (world detached [] [zone] []).

(** Two claimants of the name; the status patch succeeds or fails. *)
Definition runDuplicate :=
  Ref.reconcile Ref.noFaults req (world synced [twin] [zone] [held]).

Definition runDuplicatePatchFails :=
  Ref.reconcile (failing [] (Some unavailable) None) req
    (world synced [twin] [zone] [held]).

(** The object is under deletion; its zone is there or is gone. *)
Definition runDeleting :=
  Ref.reconcile Ref.noFaults req (world deleting [] [zone] [held]).

Definition runDeletingNoZone :=
  Ref.reconcile Ref.noFaults req (world deleting [] [] [held]).

(** The zone is gone; the update that detaches the finalizer succeeds or
    fails. *)
Definition runNoZone :=
  Ref.reconcile Ref.noFaults req (world synced [] [] [held]).

Definition runNoZoneUpdateFails :=
  Ref.reconcile (failing [Some unavailable] None None) req
    (world synced [] [] [held]).

(** A conflict on the update that attaches the finalizer, on the ownership
    update, on the status patch. *)
Definition runAttachConflict :=
  Ref.reconcile (failing [Some conflict] None None) req
    (world created [] [zone] []).

Definition runOwnershipConflict :=
  Ref.reconcile (failing [Some conflict] None None) req
    (world synced [] [zone] [held]).

Definition runPatchConflict :=
  Ref.reconcile (failing [] (Some conflict) None) req
    (world synced [] [zone] [held]).

(** The object as the status patch sends it after a successful
    synchronisation. *)
Definition succeededSync (o : RRset) (t : metav1.Time) : RRset :=
  setSyncStatus (Some SUCCEEDED_STATUS)
    (setDnsEntryName (Some "www.example.com.")
       (setLastUpdateTime (Some t) o)).

(** The duplicate check fails. *)
Definition listFails : Ref.Faults :=
  {| Ref.onGet := None; Ref.onGetZone := None; Ref.onUpdate := [];
     Ref.onList := Some unavailable; Ref.onStatusPatch := None;
     Ref.onRecordsGet := None; Ref.onRecordsChange := None;
     Ref.onRecordsDelete := None |}.

Definition runListFails :=
  Ref.reconcile listFails req (world synced [] [zone] []).


(** The object of the request is gone. *)
Definition runMissing :=
  Ref.reconcile Ref.noFaults req
    (Ref.setObject None (world created [] [zone] [])).

(** The lookup of the zone fails. *)
Definition zoneFails : Ref.Faults :=
  {| Ref.onGet := None; Ref.onGetZone := Some unavailable;
     Ref.onUpdate := []; Ref.onList := None; Ref.onStatusPatch := None;
     Ref.onRecordsGet := None; Ref.onRecordsChange := None;
     Ref.onRecordsDelete := None |}.

Definition runZoneFails :=
  Ref.reconcile zoneFails req (world synced [] [zone] [held]).

(** An earlier synchronisation failed. *)
Definition failedBefore : RRset :=
  rrset "default" None [Ref.FINALIZER_NAME] failed.

Definition runFailed :=
  Ref.reconcile Ref.noFaults req (world failedBefore [] [zone] []).

(** Synchronised before, the server holding the record-set. *)
Definition runSynced :=
  Ref.reconcile Ref.noFaults req (world synced [] [zone] [held]).

(** The object is controlled by another owner. *)
Definition adopted : RRset :=
  {| ObjectMeta :=
       {| metav1.Name := "www"; metav1.Namespace := "default";
          metav1.DeletionTimestamp := None;
          metav1.Finalizers := [Ref.FINALIZER_NAME];
          metav1.OwnerReferences :=
            [{| metav1.Kind := "Deployment"; metav1.OwnerName := "web";
                metav1.Controller := true |}] |};
     Spec := spec;
     Status := succeeded |}.

Definition runAdopted :=
  Ref.reconcile Ref.noFaults req (world adopted [] [zone] [held]).

(** A PowerDNS server that answers every fetch with a record-set without
    a name. *)
Definition nameless : PdnsClienter Ref.World :=
  {| RecordsGet := fun _ _ _ w => (([powerdns.zeroRRset], None), w);
     RecordsChange := Ref.refRecordsChange Ref.makeCanonical;
     RecordsDelete := Ref.refRecordsDelete Ref.makeCanonical |}.

Definition runNameless :=
  run Ref.World unit Ref.FINALIZER_NAME Ref.getRRsetName Ref.makeCanonical
    Ref.rrsetIsIdenticalToExternalRRset Ref.refSetControllerReference
    Ref.refNow
    {| Client_ := Ref.refClient Ref.getRRsetName; Scheme := tt;
       PDNSClient := nameless |}
    req (world synced [] [zone] []).

(** Record-sets the server may hold besides [held]: one of another name,
    and one of the same name with other values. *)
Definition heldMail : powerdns.RRset :=
  Ref.changed Ref.makeCanonical "mail.example.com." "A" 300 ["10.0.0.2"]
    powerdns.NoOption [].

Definition heldStale : powerdns.RRset :=
  Ref.changed Ref.makeCanonical "www.example.com." "A" 60 ["10.0.0.9"]
    powerdns.NoOption [].

(** The synchronisation step alone, for the object synchronised before,
    when the server holds other values under its name. *)
Definition runApply :=
  createOrUpdateExternalResources Ref.World unit Ref.getRRsetName
    Ref.makeCanonical Ref.rrsetIsIdenticalToExternalRRset
    (Ref.reconciler Ref.getRRsetName Ref.makeCanonical) zone synced
    (world synced [] [zone] [("example.com", heldStale)], []).

(** A manager that accepts every registration and keeps the names of the
    indexed fields. *)
Definition manager : Manager (list string) :=
  {| IndexField := fun field _ fields => (None, field :: fields);
     Complete := fun fields => (None, fields) |}.

Definition runSetup :=
  SetupWithManager (list string) Ref.getRRsetName manager [].

(** Two invocations in a row against the PowerDNS server with stray
    entries, with the comparison of the spec. *)
Definition noStray : string -> string -> string ->
                     list (string * powerdns.RRset) -> list powerdns.RRset :=
  fun _ _ _ _ => [].

(** The server lets the record-set of [mail] into its answers about the
    other names. *)
Definition leak : string -> string -> string ->
                  list (string * powerdns.RRset) -> list powerdns.RRset :=
  fun _ name _ _ =>
    if String.eqb (Ref.makeCanonical name) "mail.example.com."
    then [] else [heldMail].

(** The server lets a record-set of the same name and another type into
    its answers. *)
Definition heldAAAA : powerdns.RRset :=
  Ref.changed Ref.makeCanonical "www.example.com." "AAAA" 300 ["::1"]
    powerdns.NoOption [].

Definition leakSameName : string -> string -> string ->
                          list (string * powerdns.RRset) ->
                          list powerdns.RRset :=
  fun _ _ _ _ => [heldAAAA].

(** The record-set of [spec] with a comment written by hand. *)
Definition heldCommented : string * powerdns.RRset :=
  ("example.com",
   Ref.changed Ref.makeCanonical "www.example.com." "A" 300 ["10.0.0.1"]
     (powerdns.WithComments
        {| powerdns.Content := Some "added by hand";
           powerdns.Account := Some "admin" |}) []).

Definition reconcileUpstream
           (stray : string -> string -> string ->
                    list (string * powerdns.RRset) -> list powerdns.RRset)
           (f : Ref.Faults) (w : Ref.World) :=
  Upstream.reconcile Ref.getRRsetName Ref.makeCanonical stray
    Ref.FINALIZER_NAME f req w.

(** The object just created is reconciled twice; the server holds the
    record-set of [mail]. *)
Definition runFirst :=
  reconcileUpstream leak Ref.noFaults
    (world created [] [zone] [("example.com", heldMail)]).

Definition runSecond := reconcileUpstream leak Ref.noFaults (after runFirst).

(** The duplicate check fails in the first invocation. *)
Definition runStopped :=
  reconcileUpstream noStray listFails (world created [] [zone] []).

Definition runAfterStopped :=
  reconcileUpstream noStray Ref.noFaults (after runStopped).

(** The server holds a comment the object does not ask for. *)
Definition runFirstCommented :=
  reconcileUpstream noStray Ref.noFaults
    (world created [] [zone] [heldCommented]).

Definition runSecondCommented :=
  reconcileUpstream noStray Ref.noFaults (after runFirstCommented).

(** The answers of the server open with a record-set of the same name. *)
Definition runFirstSameName :=
  reconcileUpstream leakSameName Ref.noFaults (world created [] [zone] []).

Definition runSecondSameName :=
  reconcileUpstream leakSameName Ref.noFaults (after runFirstSameName).

(** The fetch of the second invocation is answered with NotFound. *)
Definition fetchMissing : Ref.Faults :=
  {| Ref.onGet := None; Ref.onGetZone := None; Ref.onUpdate := [];
     Ref.onList := None; Ref.onStatusPatch := None;
     Ref.onRecordsGet := Some Ref.notFound; Ref.onRecordsChange := None;
     Ref.onRecordsDelete := None |}.

Definition runSecondMissing :=
  reconcileUpstream leak fetchMissing (after runFirst).

End Example.

(* ===================================================================== *)
(** ** Properties of one invocation *)
(* ===================================================================== *)

(** Symbolic execution of an invocation: unfold the reconciler and the
    monad, then follow the control flow, splitting on the answer of each
    call and on each test the code makes.  An answer or a test already
    known from the context is used instead of a split. *)
Ltac step_simpl H :=
  cbn beta iota zeta delta
    [fst snd app negb
     dnsv1alpha1.setStatus dnsv1alpha1.setLastUpdateTime
     dnsv1alpha1.setDnsEntryName dnsv1alpha1.setSyncStatus
     dnsv1alpha1.setSyncErrorDescription
     dnsv1alpha1.ObjectMeta dnsv1alpha1.Spec dnsv1alpha1.Status
     dnsv1alpha1.LastUpdateTime dnsv1alpha1.DnsEntryName
     dnsv1alpha1.SyncStatus dnsv1alpha1.SyncErrorDescription] in H.

Ltac unfold_reconciler H :=
  unfold run, Reconcile, reconcileSync, reconcileDelete,
    reconcileZoneNotFound, createOrUpdateExternalResources, ownObject,
    deleteExternalResources, updateRrsetsMetrics, removeRrsetMetrics,
    bind, call, emit, lift, deref, pure, ret, panic in H;
  step_simpl H.

Ltac head_match t :=
  lazymatch t with
  | match ?c with _ => _ end => constr:(c)
  | ?f _ => head_match f
  end.

Ltac control t :=
  let c := head_match t in
  match c with
  | _ => control c
  | _ => constr:(c)
  end.

Ltac split_on H c :=
  first
    [ match goal with Hc : c = _ |- _ => rewrite Hc in H end
    | let E := fresh "E" in destruct c eqn:E ].

Ltac split_match H :=
  lazymatch type of H with
  | ?lhs = _ =>
      let c := control lhs in
      lazymatch c with
      | negb ?b => split_on H b
      | _ => split_on H c
      end;
      step_simpl H
  end.

Ltac exec H :=
  unfold_reconciler H; repeat split_match H;
  injection H as <- <- <-.

(** Membership in an explicit trace, decided entry by entry. *)
Ltac trace_in H :=
  cbn [In] in H;
  repeat (destruct H as [H|H];
          [try discriminate H; try (injection H as H; subst)|]);
  try contradiction.

(** The same for an entry that is not known yet: one case per entry of
    the trace. *)
Ltac trace_pick H :=
  cbn [In] in H;
  repeat (destruct H as [H|H]; [subst|]);
  try contradiction.

(** Turns what the trace says of the two opening reads into the answers
    of the calls themselves. *)
Ltac known_reads reads H Hget Hzone :=
  let P := fresh "P" in
  let got := fresh "got" in
  let Eget := fresh "Eget" in
  let Hg := fresh "Hg" in
  let Hz := fresh "Hz" in
  pose proof H as P; apply reads in P;
  destruct P as (got & ? & Eget & Hg & Hz);
  pose proof (Hg _ _ Hget); subst got;
  try (let E := fresh "E" in
       destruct (Hz _ _ Hzone) as (? & ? & ? & ? & E & ? & ?);
       injection E as <-);
  clear Hg Hz.

(** The entries of an explicit trace that come before the entry [e]. *)
Ltac before_entry l e :=
  lazymatch l with
  | ?x :: ?tl =>
      match x with
      | _ => let _ := match goal with _ => constr_eq x e end in
             constr:(@nil Event)
      | _ => let p := before_entry tl e in constr:(x :: p)
      end
  end.

(** Splits the explicit trace of the goal at its entry [e]. *)
Ltac split_trace :=
  lazymatch goal with
  | |- exists prefix rest, ?l = prefix ++ ?e :: rest /\ _ =>
      let p := before_entry l e in
      exists p; eexists; split; [reflexivity|]
  end.

Ltac split_trace_last :=
  lazymatch goal with
  | |- exists prefix, ?l = prefix ++ [?e] /\ _ =>
      let p := before_entry l e in
      exists p; split; [reflexivity|]
  end.

(** Symbolic execution in the reference world: the calls are unfolded to
    the operations of the two servers. *)
Ltac ref_simpl H :=
  cbn beta iota zeta delta
    [fst snd app negb
     dnsv1alpha1.setStatus dnsv1alpha1.setLastUpdateTime
     dnsv1alpha1.setDnsEntryName dnsv1alpha1.setSyncStatus
     dnsv1alpha1.setSyncErrorDescription
     dnsv1alpha1.ObjectMeta dnsv1alpha1.Spec dnsv1alpha1.Status
     dnsv1alpha1.LastUpdateTime dnsv1alpha1.DnsEntryName
     dnsv1alpha1.SyncStatus dnsv1alpha1.SyncErrorDescription
     Get GetZone Update List StatusPatch RecordsGet RecordsChange
     RecordsDelete Client_ PDNSClient Scheme
     Ref.reconciler Ref.refClient Ref.refPdns
     Ref.object Ref.siblings Ref.zones Ref.pdns Ref.clock Ref.faults
     Ref.setObject Ref.setPdns Ref.setFaults
     Ref.onGet Ref.onGetZone Ref.onUpdate Ref.onList Ref.onStatusPatch
     Ref.onRecordsGet Ref.onRecordsChange Ref.onRecordsDelete] in H.

Ltac ref_split H :=
  lazymatch type of H with
  | ?lhs = _ =>
      let c := control lhs in
      lazymatch c with
      | negb ?b => split_on H b
      | _ => split_on H c
      end;
      ref_simpl H
  end.

Ltac exec_ref H :=
  unfold Ref.reconcileWith, run, Reconcile, reconcileSync, reconcileDelete,
    reconcileZoneNotFound, createOrUpdateExternalResources, ownObject,
    deleteExternalResources, updateRrsetsMetrics, removeRrsetMetrics,
    bind, call, emit, lift, deref, pure, ret, panic in H;
  ref_simpl H;
  unfold Ref.refGet, Ref.refGetZone, Ref.refUpdate, Ref.refList,
    Ref.refStatusPatch, Ref.refRecordsGet, Ref.refRecordsChange,
    Ref.refRecordsDelete, Ref.refNow, Ref.popFault in H;
  ref_simpl H;
  repeat ref_split H;
  injection H as <- <- <-.

(** Projections of explicit records, and nothing else. *)
Ltac proj_simpl :=
  cbn beta iota zeta delta
    [dnsv1alpha1.setStatus dnsv1alpha1.setLastUpdateTime
     dnsv1alpha1.setDnsEntryName dnsv1alpha1.setSyncStatus
     dnsv1alpha1.setSyncErrorDescription
     dnsv1alpha1.ObjectMeta dnsv1alpha1.Spec dnsv1alpha1.Status
     dnsv1alpha1.LastUpdateTime dnsv1alpha1.DnsEntryName
     dnsv1alpha1.SyncStatus dnsv1alpha1.SyncErrorDescription
     Ref.mergeStatus
     Ref.object Ref.siblings Ref.zones Ref.pdns Ref.clock Ref.faults
     Ref.setObject Ref.setPdns Ref.setFaults].


(** The same against the PowerDNS server with stray entries. *)
Ltac up_simpl H :=
  cbn beta iota zeta delta
    [fst snd app negb
     dnsv1alpha1.setStatus dnsv1alpha1.setLastUpdateTime
     dnsv1alpha1.setDnsEntryName dnsv1alpha1.setSyncStatus
     dnsv1alpha1.setSyncErrorDescription
     dnsv1alpha1.ObjectMeta dnsv1alpha1.Spec dnsv1alpha1.Status
     dnsv1alpha1.LastUpdateTime dnsv1alpha1.DnsEntryName
     dnsv1alpha1.SyncStatus dnsv1alpha1.SyncErrorDescription
     Get GetZone Update List StatusPatch RecordsGet RecordsChange
     RecordsDelete Client_ PDNSClient Scheme
     Upstream.reconciler Upstream.refPdns Ref.refClient
     Ref.object Ref.siblings Ref.zones Ref.pdns Ref.clock Ref.faults
     Ref.setObject Ref.setPdns Ref.setFaults
     Ref.onGet Ref.onGetZone Ref.onUpdate Ref.onList Ref.onStatusPatch
     Ref.onRecordsGet Ref.onRecordsChange Ref.onRecordsDelete] in H.

Ltac up_split H :=
  lazymatch type of H with
  | ?lhs = _ =>
      let c := control lhs in
      lazymatch c with
      | negb ?b => split_on H b
      | _ => split_on H c
      end;
      up_simpl H
  end.

Ltac exec_up H :=
  unfold Upstream.reconcile, run, Reconcile, reconcileSync, reconcileDelete,
    reconcileZoneNotFound, createOrUpdateExternalResources, ownObject,
    deleteExternalResources, updateRrsetsMetrics, removeRrsetMetrics,
    bind, call, emit, lift, deref, pure, ret, panic in H;
  up_simpl H;
  unfold Ref.refGet, Ref.refGetZone, Ref.refUpdate, Ref.refList,
    Ref.refStatusPatch, Upstream.refRecordsGet, Ref.refRecordsChange,
    Ref.refRecordsDelete, Ref.refNow, Ref.popFault in H;
  up_simpl H;
  repeat up_split H;
  injection H as <- <- <-.
Section Properties.
Import dnsv1alpha1.

Variables (W Scheme_ : Type).
Variable FINALIZER_NAME : string.
Variable getRRsetName : RRset -> string.
Variable makeCanonical : string -> string.
Variable rrsetIsIdenticalToExternalRRset : RRset -> powerdns.RRset -> bool.
Variable SetControllerReference : Zone -> RRset -> Scheme_ -> error + RRset.
Variable Now : W -> metav1.Time * W.
Variable r : RRsetReconciler W Scheme_.

Let reconcile :=
  run W Scheme_ FINALIZER_NAME getRRsetName makeCanonical
    rrsetIsIdenticalToExternalRRset SetControllerReference Now r.

Lemma RemoveFinalizer_not_contained (o : RRset) (f : string) :
  controllerutil.ContainsFinalizer (controllerutil.RemoveFinalizer o f) f
  = false.
Proof.
  unfold controllerutil.ContainsFinalizer, controllerutil.RemoveFinalizer.
  cbn. induction (metav1.Finalizers (ObjectMeta o)) as [|x l IH]; cbn.
  - reflexivity.
  - destruct (String.eqb_spec x f) as [->|Hne]; cbn; [exact IH|].
    rewrite IH. destruct (String.eqb_spec f x); [subst; congruence|].
    reflexivity.
Qed.

(** Attaching the finalizer touches the list of finalizers only. *)
Lemma AddFinalizer_Spec (o : RRset) (f : string) :
  Spec (controllerutil.AddFinalizer o f) = Spec o.
Proof.
  unfold controllerutil.AddFinalizer.
  destruct (controllerutil.ContainsFinalizer o f); reflexivity.
Qed.

Lemma AddFinalizer_Status (o : RRset) (f : string) :
  Status (controllerutil.AddFinalizer o f) = Status o.
Proof.
  unfold controllerutil.AddFinalizer.
  destruct (controllerutil.ContainsFinalizer o f); reflexivity.
Qed.

Lemma AddFinalizer_Name (o : RRset) (f : string) :
  metav1.Name (ObjectMeta (controllerutil.AddFinalizer o f))
  = metav1.Name (ObjectMeta o).
Proof.
  unfold controllerutil.AddFinalizer.
  destruct (controllerutil.ContainsFinalizer o f); reflexivity.
Qed.

Lemma AddFinalizer_Namespace (o : RRset) (f : string) :
  metav1.Namespace (ObjectMeta (controllerutil.AddFinalizer o f))
  = metav1.Namespace (ObjectMeta o).
Proof.
  unfold controllerutil.AddFinalizer.
  destruct (controllerutil.ContainsFinalizer o f); reflexivity.
Qed.

Lemma isInFailedStatus_status (o : RRset) (s : string) :
  isInFailedStatus o = true -> SyncStatus (Status o) = Some s ->
  s = FAILED_STATUS.
Proof.
  unfold isInFailedStatus. intros H E. rewrite E in H.
  apply String.eqb_eq. exact H.
Qed.

(** No run leaves the failed-status branch through a nil status. *)
Lemma isInFailedStatus_not_nil (o : RRset) :
  isInFailedStatus o = true -> SyncStatus (Status o) = None -> False.
Proof. unfold isInFailedStatus. intros H E. rewrite E in H. discriminate. Qed.

(** The two reads that open an invocation: the trace holds one answer for
    the object, and one for its zone when the object was found. *)
Lemma reads_of_run (req : client.ObjectKey) (w w' : W) (t : Trace)
      (o : outcome (ctrl.Result * option error)) :
  reconcile req w = (o, (w', t)) ->
  exists got w1,
    Get (Client_ r) req w = (got, w1)
    /\ (forall k res, In (EvGet k res) t -> res = got)
    /\ (forall k res, In (EvGetZone k res) t ->
          exists rrset now w2 w3,
            got = inr rrset /\ Now w1 = (now, w2)
            /\ GetZone (Client_ r)
                 {| client.Namespace := metav1.Namespace (ObjectMeta rrset);
                    client.Name := ZoneRefName (ZoneRef_ (Spec rrset)) |} w2
               = (res, w3)).
Proof.
  intros H. unfold reconcile in H.
  exec H.
  all: do 2 eexists; split; [reflexivity|split].
  all: intros k res Hin; trace_in Hin; try reflexivity.
  all: do 4 eexists; repeat split; eassumption.
Qed.

Lemma filterRecords_panics (records : list powerdns.RRset)
      (canonical : string) (zero : powerdns.RRset) :
  filterRecords records canonical zero = Panicked ->
  exists fr, In fr records /\ powerdns.Name fr = None.
Proof.
  induction records as [|fr rest IH]; cbn; [discriminate|].
  destruct (powerdns.Name fr) as [n|] eqn:E.
  - destruct (String.eqb n canonical); [discriminate|].
    intros H. destruct (IH H) as (fr' & Hin & Hn).
    exists fr'. split; [right; exact Hin|exact Hn].
  - intros _. exists fr. split; [left; reflexivity|exact E].
Qed.

(** An invocation returns, unless the server answers the fetch with a
    record-set that has no name: the loop over the answer then
    dereferences a nil pointer. *)
Lemma panics_on_nameless_record_only
      (req : client.ObjectKey) (w w' : W) (t : Trace)
      (o : outcome (ctrl.Result * option error)) :
  reconcile req w = (o, (w', t)) ->
  o = Panicked ->
  exists zone name rrtype records err fr,
    In (EvRecordsGet zone name rrtype (records, err)) t
    /\ In fr records /\ powerdns.Name fr = None.
Proof.
  intros H Ho. unfold reconcile in H.
  exec H; try discriminate Ho.
  all: rewrite ?AddFinalizer_Status in *.
  all: try (exfalso; eapply isInFailedStatus_not_nil; eassumption).
  all: match goal with
    | Hp : filterRecords _ _ _ = Panicked |- _ =>
        destruct (filterRecords_panics _ _ _ Hp) as (fr & Hin & Hn)
    end.
  all: do 6 eexists; split; [|split; [exact Hin|exact Hn]].
  all: cbn [In]; repeat (first [left; reflexivity | right]).
Qed.

(** C8.  For an object whose deletion timestamp is not zero, the
    invocation only reads the object and its zone, deletes the record-set
    on the server, sends the object without the finalizer and retracts
    its metrics: no duplicate check, no fetch or apply, no owner
    reference, no status patch, no metrics published; every update it
    sends is the object without the finalizer; and it returns. *)
Theorem deletion_runs_only_finalization
        (req : client.ObjectKey) (w w' : W) (t : Trace)
        (o : outcome (ctrl.Result * option error)) (rrset : RRset) :
  reconcile req w = (o, (w', t)) ->
  In (EvGet req (inr rrset)) t ->
  metav1.IsZero (metav1.DeletionTimestamp (ObjectMeta rrset)) = false ->
  forallb (finalizationEvent FINALIZER_NAME) t = true
  /\ (forall obj res, In (EvUpdate obj res) t ->
        obj = controllerutil.RemoveFinalizer rrset FINALIZER_NAME)
  /\ exists res err, o = Returned (res, err).
Proof.
  intros H Hget Hdel.
  known_reads reads_of_run H Hget Hget.
  unfold reconcile in H. exec H.
  all: repeat split; eauto.
  all: cbn [forallb finalizationEvent andb];
    rewrite ?RemoveFinalizer_not_contained; try reflexivity.
  all: intros obj res Hin; trace_in Hin; reflexivity.
Qed.

Lemma append_slash_not_empty (a b : string) : (a ++ "/" ++ b)%string <> "".
Proof. destruct a; discriminate. Qed.

(** C9.  The indexer answers one key per object; the key is not empty if
    and only if the sync status of the object is unset or Succeeded.  For
    an object whose status is Failed the key is the empty string, so the
    object is under none of the keys the reconciler looks up (a name, a
    slash, a type). *)
Theorem index_key_nonempty_iff (o : RRset) :
  exists key,
    indexDNSEntryName getRRsetName o = [key]
    /\ (key <> "" <->
        SyncStatus (Status o) = None
        \/ SyncStatus (Status o) = Some SUCCEEDED_STATUS)
    /\ (SyncStatus (Status o) = Some FAILED_STATUS ->
        key = ""
        /\ forall name rrtype : string,
            existsb (String.eqb (name ++ "/" ++ rrtype))
                    (indexDNSEntryName getRRsetName o) = false).
Proof.
  unfold indexDNSEntryName.
  destruct (SyncStatus (Status o)) as [s|].
  - destruct (String.eqb_spec s SUCCEEDED_STATUS) as [->|Hne].
    + eexists; split; [reflexivity|]. split.
      * split; [auto|]. intros _. apply append_slash_not_empty.
      * discriminate.
    + eexists; split; [reflexivity|]. split.
      * split; [congruence|]. intros [H|H]; [discriminate|congruence].
      * intros _. split; [reflexivity|]. intros name rrtype.
        cbn [existsb]. rewrite orb_false_r.
        apply String.eqb_neq. apply append_slash_not_empty.
  - eexists; split; [reflexivity|]. split.
    + split; [auto|]. intros _. apply append_slash_not_empty.
    + discriminate.
Qed.

(** C7, as amended.  When the lookup of the zone answers NotFound, the
    invocation makes no call to the PowerDNS server.  An object without the
    finalizer is left as it is; from an object with the finalizer the
    finalizer is removed and the object sent.  When that update succeeds
    (or was not needed) the metrics of the object are retracted (if it
    carried the finalizer) and the invocation returns no error and a
    requeue delay of two seconds; when the update fails the invocation
    returns that error, with no delay and the metrics untouched. *)
Theorem zone_not_found_detaches_and_requeues
        (req key : client.ObjectKey) (w w' : W) (t : Trace)
        (o : outcome (ctrl.Result * option error)) (rrset : RRset)
        (err : error) :
  reconcile req w = (o, (w', t)) ->
  In (EvGet req (inr rrset)) t ->
  In (EvGetZone key (inl err)) t ->
  errors.IsNotFound err = true ->
  let requeue :=
    {| ctrl.Requeue := false; ctrl.RequeueAfter := 2 * time.Second |} in
  let detached := controllerutil.RemoveFinalizer rrset FINALIZER_NAME in
  let reads := [EvGet req (inr rrset); EvGetZone key (inl err)] in
  (controllerutil.ContainsFinalizer rrset FINALIZER_NAME = false
   /\ t = reads /\ o = Returned (requeue, None))
  \/ (controllerutil.ContainsFinalizer rrset FINALIZER_NAME = true
      /\ t = reads ++ [EvUpdate detached None;
                       EvRemoveRrsetMetrics (metav1.Name (ObjectMeta rrset))
                         (metav1.Namespace (ObjectMeta rrset))]
      /\ o = Returned (requeue, None))
  \/ (controllerutil.ContainsFinalizer rrset FINALIZER_NAME = true
      /\ exists e, t = reads ++ [EvUpdate detached (Some e)]
                   /\ o = Returned (ctrl.noResult, Some e)).
Proof.
  intros H Hget Hzone Hnf.
  known_reads reads_of_run H Hget Hzone.
  unfold reconcile in H. exec H; trace_in Hzone.
  - right; right. split; [reflexivity|]. eexists; split; reflexivity.
  - right; left. repeat split; reflexivity.
  - left. repeat split; reflexivity.
Qed.

(** C2, as amended.  For an object under deletion that carries the
    finalizer and whose zone is found: if the prior status is not Failed,
    the delete call to the PowerDNS server comes first; when it fails
    nothing else happens, the finalizer stays and the invocation returns
    the error; when it succeeds the object is sent without the finalizer.
    If the prior status is Failed no delete call is made and the object is
    sent without the finalizer at once. *)
Theorem finalization_deletes_before_detaching
        (req key : client.ObjectKey) (w w' : W) (t : Trace)
        (o : outcome (ctrl.Result * option error)) (rrset : RRset)
        (zone : Zone) :
  reconcile req w = (o, (w', t)) ->
  In (EvGet req (inr rrset)) t ->
  In (EvGetZone key (inr zone)) t ->
  metav1.IsZero (metav1.DeletionTimestamp (ObjectMeta rrset)) = false ->
  controllerutil.ContainsFinalizer rrset FINALIZER_NAME = true ->
  let detached := controllerutil.RemoveFinalizer rrset FINALIZER_NAME in
  let reads := [EvGet req (inr rrset); EvGetZone key (inr zone)] in
  let delete :=
    EvRecordsDelete (metav1.Name (ZoneObjectMeta zone)) (getRRsetName rrset)
      (Type_ (Spec rrset)) in
  let retract :=
    EvRemoveRrsetMetrics (metav1.Name (ObjectMeta rrset))
      (metav1.Namespace (ObjectMeta rrset)) in
  (isInFailedStatus rrset = false
   /\ ((exists e, t = reads ++ [delete (Some e)]
                  /\ o = Returned (ctrl.noResult, Some e))
       \/ (exists e, t = reads ++ [delete None; EvUpdate detached (Some e)]
                     /\ o = Returned (ctrl.noResult, Some e))
       \/ (t = reads ++ [delete None; EvUpdate detached None; retract]
           /\ o = Returned (ctrl.noResult, None))))
  \/ (isInFailedStatus rrset = true
      /\ ((exists e, t = reads ++ [EvUpdate detached (Some e)]
                     /\ o = Returned (ctrl.noResult, Some e))
          \/ (t = reads ++ [EvUpdate detached None; retract]
              /\ o = Returned (ctrl.noResult, None)))).
Proof.
  intros H Hget Hzone Hdel Hfin.
  known_reads reads_of_run H Hget Hzone.
  unfold reconcile in H. exec H; trace_in Hzone.
  - right. split; [reflexivity|]. left. eexists; split; reflexivity.
  - right. split; [reflexivity|]. right. split; reflexivity.
  - left. split; [reflexivity|]. left. eexists; split; reflexivity.
  - left. split; [reflexivity|]. right; left. eexists; split; reflexivity.
  - left. split; [reflexivity|]. right; right. split; reflexivity.
Qed.

(** C5, as amended.  For an object that is not being deleted, does not
    carry the finalizer and whose zone is found, the finalizer is attached
    and the object sent.  If that update fails the invocation returns the
    error.  If it succeeds the same invocation goes on: with a prior status
    Failed it republishes the metrics and returns; otherwise it runs the
    duplicate check, and after a duplicate check that answers at most one
    claimant it fetches the record-set from the PowerDNS server. *)
Theorem attach_then_continue
        (req key : client.ObjectKey) (w w' : W) (t : Trace)
        (o : outcome (ctrl.Result * option error)) (rrset : RRset)
        (zone : Zone) :
  reconcile req w = (o, (w', t)) ->
  In (EvGet req (inr rrset)) t ->
  In (EvGetZone key (inr zone)) t ->
  metav1.IsZero (metav1.DeletionTimestamp (ObjectMeta rrset)) = true ->
  controllerutil.ContainsFinalizer rrset FINALIZER_NAME = false ->
  let attached := controllerutil.AddFinalizer rrset FINALIZER_NAME in
  let reads := [EvGet req (inr rrset); EvGetZone key (inr zone)] in
  (exists e, t = reads ++ [EvUpdate attached (Some e)]
             /\ o = Returned (ctrl.noResult, Some e))
  \/ (isInFailedStatus rrset = true
      /\ t = reads ++ [EvUpdate attached None;
                       EvUpdateRrsetsMetrics (getRRsetName attached)
                         (Type_ (Spec rrset)) FAILED_STATUS
                         (metav1.Name (ObjectMeta rrset))
                         (metav1.Namespace (ObjectMeta rrset))]
      /\ o = Returned (ctrl.noResult, None))
  \/ (isInFailedStatus rrset = false
      /\ exists listed rest,
          t = reads ++ [EvUpdate attached None;
                        EvList "DNS.Entry.Name"
                          (getRRsetName attached ++ "/" ++ Type_ (Spec rrset))
                          listed] ++ rest
          /\ forall l, listed = inr l -> (length l <= 1)%nat ->
               exists fetched rest',
                 rest = EvRecordsGet (metav1.Name (ZoneObjectMeta zone))
                          (getRRsetName attached) (Type_ (Spec rrset)) fetched
                        :: rest').
Proof.
  intros H Hget Hzone Hdel Hfin.
  known_reads reads_of_run H Hget Hzone.
  unfold reconcile in H. exec H; trace_in Hzone.
  all: rewrite ?AddFinalizer_Spec, ?AddFinalizer_Status, ?AddFinalizer_Name,
         ?AddFinalizer_Namespace in *.
  all: try (exfalso; eapply isInFailedStatus_not_nil; eassumption).
  all: try match goal with
    | Hf : isInFailedStatus _ = true, Hs : SyncStatus _ = Some _ |- _ =>
        rewrite (isInFailedStatus_status _ _ Hf Hs)
    end.
  all: try (left; eexists; split; reflexivity).
  all: try (right; left; repeat split; reflexivity).
  all: right; right; split; [reflexivity|].
  all: do 2 eexists; split; [reflexivity|].
  all: intros ? El Hlen; try discriminate El; injection El as <-.
  all: try match goal with
    | Hlt : (1 <? length _)%nat = true |- _ => apply Nat.ltb_lt in Hlt; lia
    end.
  all: do 2 eexists; reflexivity.
Qed.
(** C3, as amended.  When the duplicate check answers more than one
    claimant, the invocation makes no call to the PowerDNS server and
    patches the status to Failed with the fixed diagnostic.  When the patch
    succeeds the metrics are published with the outcome Failed and the
    invocation returns no error and asks for no requeue; when the patch
    fails the invocation returns that error and publishes nothing. *)
Theorem duplicate_marks_failed
        (req : client.ObjectKey) (w w' : W) (t : Trace)
        (o : outcome (ctrl.Result * option error))
        (field value : string) (l : list RRset) :
  reconcile req w = (o, (w', t)) ->
  In (EvList field value (inr l)) t ->
  (1 < length l)%nat ->
  forallb (fun e => negb (pdnsEvent e)) t = true
  /\ exists prefix obj original patched rest,
      t = prefix ++ EvList field value (inr l)
                 :: EvStatusPatch obj original patched :: rest
      /\ SyncStatus (Status obj) = Some FAILED_STATUS
      /\ SyncErrorDescription (Status obj) = Some duplicateDiagnostic
      /\ ObjectMeta obj = ObjectMeta original
      /\ Spec obj = Spec original
      /\ match patched with
         | None =>
             rest = [EvUpdateRrsetsMetrics (getRRsetName obj)
                       (Type_ (Spec obj)) FAILED_STATUS
                       (metav1.Name (ObjectMeta obj))
                       (metav1.Namespace (ObjectMeta obj))]
             /\ o = Returned (ctrl.noResult, None)
         | Some e => rest = [] /\ o = Returned (ctrl.noResult, Some e)
         end.
Proof.
  intros H Hlist Hlen. unfold reconcile in H.
  exec H; trace_in Hlist.
  all: try match goal with
    | Hlt : (1 <? length _)%nat = false |- _ => apply Nat.ltb_ge in Hlt; lia
    end.
  all: split; [reflexivity|].
  all: match goal with
    | |- exists _ _ _ _ _, ?a :: ?b :: ?c :: ?rest = _ /\ _ =>
        match c with
        | EvList _ _ _ => exists [a; b]
        | _ => exists [a; b; c]
        end
    end.
  all: do 4 eexists; split; [reflexivity|].
  all: repeat split; reflexivity.
Qed.

(** C1, as amended.  When the fetch fails with an error other than
    NotFound, or the apply fails, the invocation goes on to the ownership
    update.  If that update succeeds the status is patched to Failed with
    the text of the error as its description, and the invocation returns
    what the patch returns: no error, and no requeue asked, when the patch
    succeeds.  An error is returned only when the ownership update or the
    status patch fails (a conflict on the ownership update asks for a
    requeue instead); the failure of the synchronisation itself is not
    returned. *)
Theorem sync_error_marks_failed
        (req : client.ObjectKey) (w w' : W) (t : Trace)
        (o : outcome (ctrl.Result * option error))
        (e : Event) (err : error) :
  reconcile req w = (o, (w', t)) ->
  In e t ->
  syncFailure e = Some err ->
  let afterOwnership (e' : error) :=
    if errors.IsConflict e'
    then ({| ctrl.Requeue := true; ctrl.RequeueAfter := 0 |}, None)
    else (ctrl.noResult, Some e') in
  exists prefix rest,
    t = prefix ++ e :: rest
    /\ ((exists zone obj e',
           rest = [EvSetControllerReference zone obj (inl e')]
           /\ o = Returned (afterOwnership e'))
        \/ (exists zone obj owned e',
              rest = [EvSetControllerReference zone obj (inr owned);
                      EvUpdate owned (Some e')]
              /\ o = Returned (afterOwnership e'))
        \/ (exists zone obj owned patch patched rest',
              rest = EvSetControllerReference zone obj (inr owned)
                       :: EvUpdate owned None
                       :: EvStatusPatch patch owned patched :: rest'
              /\ SyncStatus (Status patch) = Some FAILED_STATUS
              /\ SyncErrorDescription (Status patch)
                 = Some (errors.Error err)
              /\ match patched with
                 | None =>
                     rest' = [EvUpdateRrsetsMetrics (getRRsetName patch)
                                (Type_ (Spec patch)) FAILED_STATUS
                                (metav1.Name (ObjectMeta patch))
                                (metav1.Namespace (ObjectMeta patch))]
                     /\ o = Returned (ctrl.noResult, None)
                 | Some e' =>
                     rest' = [] /\ o = Returned (ctrl.noResult, Some e')
                 end)).
Proof.
  intros H Hin Hsf afterOwnership. unfold reconcile in H.
  exec H.
  all: trace_pick Hin; cbn [syncFailure] in Hsf; try discriminate Hsf.
  all: try match type of Hsf with
    | context [errors.IsNotFound ?x] =>
        match goal with
        | Hnf : errors.IsNotFound x = _ |- _ => rewrite Hnf in Hsf
        end
    end; try discriminate Hsf; try injection Hsf as <-.
  all: split_trace.
  all: try (left; do 3 eexists; split; [reflexivity|];
            unfold afterOwnership;
            match goal with
            | Hc : errors.IsConflict _ = _ |- _ => rewrite Hc
            end; reflexivity).
  all: try (right; left; do 4 eexists; split; [reflexivity|];
            unfold afterOwnership;
            match goal with
            | Hc : errors.IsConflict _ = _ |- _ => rewrite Hc
            end; reflexivity).
  all: right; right; do 6 eexists; split; [reflexivity|].
  all: repeat split; reflexivity.
Qed.

(** C10, as amended.  When the apply fails and the status is patched (the
    ownership update succeeded), the patch writes the name resolved by
    [getRRsetName]; and if the object carried the finalizer when the
    invocation started and its prior status has a lastUpdateTime, the patch
    keeps that lastUpdateTime. *)
Theorem failed_apply_keeps_timestamp
        (req : client.ObjectKey) (w w' : W) (t : Trace)
        (o : outcome (ctrl.Result * option error)) (rrset : RRset)
        (zone name rrtype : string) (ttl : Z) (records : list string)
        (opt : powerdns.RRsetOption) (err : error)
        (patch original : RRset) (patched : option error) :
  reconcile req w = (o, (w', t)) ->
  In (EvGet req (inr rrset)) t ->
  In (EvRecordsChange zone name rrtype ttl records opt (Some err)) t ->
  In (EvStatusPatch patch original patched) t ->
  DnsEntryName (Status patch)
  = Some (getRRsetName
            (setLastUpdateTime (LastUpdateTime (Status patch)) original))
  /\ (controllerutil.ContainsFinalizer rrset FINALIZER_NAME = true ->
      forall t0, LastUpdateTime (Status rrset) = Some t0 ->
                 LastUpdateTime (Status patch) = Some t0).
Proof.
  intros H Hget Hchange Hpatch.
  known_reads reads_of_run H Hget Hget.
  unfold reconcile in H.
  exec H; trace_in Hchange; trace_in Hpatch.
  all: split; [reflexivity|].
  all: intros Hfin ? Ht0; try congruence.
  all: cbn; rewrite Ht0; reflexivity.
Qed.

(** C6, as amended.  A write to the API server that fails ends the
    invocation at once, and no status patch was made before it.  A
    conflict on the ownership update is answered by a requeue request and
    no error; a conflict on any other write (the update that attaches or
    detaches the finalizer, the status patch) is returned as the error of
    the invocation, like any other failure of these writes. *)
Theorem failed_write_ends_invocation
        (req : client.ObjectKey) (w w' : W) (t : Trace)
        (o : outcome (ctrl.Result * option error))
        (e : Event) (err : error) :
  reconcile req w = (o, (w', t)) ->
  In e t ->
  writeFailure e = Some err ->
  exists prefix,
    t = prefix ++ [e]
    /\ forallb (fun e' => negb (isStatusPatch e')) prefix = true
    /\ o = Returned
             (if isUpdate e && endsWithSetControllerReference prefix
                 && errors.IsConflict err
              then ({| ctrl.Requeue := true; ctrl.RequeueAfter := 0 |}, None)
              else (ctrl.noResult, Some err)).
Proof.
  intros H Hin Hwf. unfold reconcile in H.
  exec H.
  all: trace_pick Hin; cbn [writeFailure] in Hwf; try discriminate Hwf;
    injection Hwf as <-.
  all: split_trace_last.
  all: split; [reflexivity|].
  all: cbn [isUpdate endsWithSetControllerReference andb];
    try match goal with
      | Hc : errors.IsConflict _ = _ |- _ => rewrite Hc
      end; reflexivity.
Qed.

End Properties.

(* ===================================================================== *)
(** ** Further properties of one invocation *)
(* ===================================================================== *)

(** The paths of [Reconcile] that end an invocation early, the calls the
    synchronisation makes and what it sends, and the results an invocation
    hands back, for any behaviour of the collaborators. *)
Section Invocation.
Import dnsv1alpha1.

Variables (W Scheme_ : Type).
Variable FINALIZER_NAME : string.
Variable getRRsetName : RRset -> string.
Variable makeCanonical : string -> string.
Variable rrsetIsIdenticalToExternalRRset : RRset -> powerdns.RRset -> bool.
Variable SetControllerReference : Zone -> RRset -> Scheme_ -> error + RRset.
Variable Now : W -> metav1.Time * W.
Variable r : RRsetReconciler W Scheme_.

Let reconcile :=
  run W Scheme_ FINALIZER_NAME getRRsetName makeCanonical
    rrsetIsIdenticalToExternalRRset SetControllerReference Now r.

(** Attaching a finalizer the object carries already leaves the object
    as it is. *)
Lemma AddFinalizer_contained (o : RRset) (f : string) :
  controllerutil.ContainsFinalizer o f = true ->
  controllerutil.AddFinalizer o f = o.
Proof. unfold controllerutil.AddFinalizer. intros ->. reflexivity. Qed.


(** X1.  When the object cannot be read, the invocation makes no other
    call.  An object that is not found (it was deleted) is no error; any
    other failure of the read is returned. *)
Theorem unreadable_object_ends_invocation
        (req key : client.ObjectKey) (w w' : W) (t : Trace)
        (o : outcome (ctrl.Result * option error)) (err : error) :
  reconcile req w = (o, (w', t)) ->
  In (EvGet key (inl err)) t ->
  t = [EvGet req (inl err)]
  /\ o = Returned (ctrl.noResult,
                   if errors.IsNotFound err then None else Some err).
Proof.
  intros H Hin. unfold reconcile in H.
  exec H; trace_in Hin.
  split; reflexivity.
Qed.

(** X2.  Every invocation opens with the read of the object of the
    request; the zone is then looked up in the namespace of the object,
    under the name the spec refers to, before any other call is made. *)
Theorem zone_is_read_in_the_namespace_of_the_object
        (req : client.ObjectKey) (w w' : W) (t : Trace)
        (o : outcome (ctrl.Result * option error)) (rrset : RRset) :
  reconcile req w = (o, (w', t)) ->
  In (EvGet req (inr rrset)) t ->
  exists zone rest,
    t = EvGet req (inr rrset)
          :: EvGetZone
               {| client.Namespace := metav1.Namespace (ObjectMeta rrset);
                  client.Name := ZoneRefName (ZoneRef_ (Spec rrset)) |} zone
          :: rest
    /\ forallb (fun e => negb (isRead e)) rest = true.
Proof.
  intros H Hget.
  known_reads reads_of_run H Hget Hget.
  unfold reconcile in H. exec H.
  all: do 2 eexists; split; reflexivity.
Qed.

(** X3.  When the lookup of the zone fails with anything but NotFound,
    the invocation returns that error and has made no call but the two
    reads: the object is left as it is, finalizer included. *)
Theorem zone_lookup_failure_is_returned
        (req key : client.ObjectKey) (w w' : W) (t : Trace)
        (o : outcome (ctrl.Result * option error)) (err : error) :
  reconcile req w = (o, (w', t)) ->
  In (EvGetZone key (inl err)) t ->
  errors.IsNotFound err = false ->
  exists rrset,
    t = [EvGet req (inr rrset); EvGetZone key (inl err)]
    /\ key = {| client.Namespace := metav1.Namespace (ObjectMeta rrset);
                client.Name := ZoneRefName (ZoneRef_ (Spec rrset)) |}
    /\ o = Returned (ctrl.noResult, Some err).
Proof.
  intros H Hin Hnf. unfold reconcile in H.
  exec H; trace_in Hin; try congruence.
  eexists; repeat split; reflexivity.
Qed.

(** X4.  An object whose status is Failed and that is not being deleted is
    not synchronised again.  Whatever the lookup of its zone answers, the
    invocation makes no duplicate check, no call to the PowerDNS server and
    no status patch, so that the status stays Failed until it is edited
    from outside.  When the zone is found, the invocation attaches the
    finalizer if it is missing, republishes the metrics with the status
    Failed and returns. *)
Theorem failed_object_is_not_synchronised
        (req : client.ObjectKey) (w w' : W) (t : Trace)
        (o : outcome (ctrl.Result * option error)) (rrset : RRset) :
  reconcile req w = (o, (w', t)) ->
  In (EvGet req (inr rrset)) t ->
  metav1.IsZero (metav1.DeletionTimestamp (ObjectMeta rrset)) = true ->
  isInFailedStatus rrset = true ->
  forallb (fun e => negb (isList e || pdnsEvent e || isStatusPatch e)) t
  = true
  /\ forall (key : client.ObjectKey) (zone : Zone),
      In (EvGetZone key (inr zone)) t ->
      let attached := controllerutil.AddFinalizer rrset FINALIZER_NAME in
      let reads := [EvGet req (inr rrset); EvGetZone key (inr zone)] in
      let publish :=
        EvUpdateRrsetsMetrics (getRRsetName attached) (Type_ (Spec rrset))
          FAILED_STATUS (metav1.Name (ObjectMeta rrset))
          (metav1.Namespace (ObjectMeta rrset)) in
      (controllerutil.ContainsFinalizer rrset FINALIZER_NAME = true
       /\ t = reads ++ [publish] /\ o = Returned (ctrl.noResult, None))
      \/ (controllerutil.ContainsFinalizer rrset FINALIZER_NAME = false
          /\ t = reads ++ [EvUpdate attached None; publish]
          /\ o = Returned (ctrl.noResult, None))
      \/ (controllerutil.ContainsFinalizer rrset FINALIZER_NAME = false
          /\ exists e, t = reads ++ [EvUpdate attached (Some e)]
                       /\ o = Returned (ctrl.noResult, Some e)).
Proof.
  intros H Hget Hdel Hfailed.
  known_reads reads_of_run H Hget Hget.
  unfold reconcile in H. exec H.
  all: try (exfalso; eapply isInFailedStatus_not_nil; eassumption).
  all: rewrite ?AddFinalizer_Spec, ?AddFinalizer_Status, ?AddFinalizer_Name,
         ?AddFinalizer_Namespace in *.
  all: try (exfalso; eapply isInFailedStatus_not_nil; eassumption).
  all: (split; [reflexivity|]).
  all: intros key zone Hzone; trace_in Hzone.
  all: try match goal with
    | Hs : SyncStatus _ = Some _ |- _ =>
        rewrite (isInFailedStatus_status _ _ Hfailed Hs)
    end.
  all: try match goal with
    | Hc : controllerutil.ContainsFinalizer _ _ = true |- _ =>
        rewrite (AddFinalizer_contained _ _ Hc)
    end.
  all: cbv zeta.
  all: first
    [ left; repeat split; reflexivity
    | right; left; repeat split; reflexivity
    | right; right; split; [reflexivity|]; eexists; split; reflexivity ].
Qed.

(** X5.  When the duplicate check fails, the invocation returns the error
    of the query at once: it has made no call to the PowerDNS server, no
    status patch, and published no metrics. *)
Theorem failed_duplicate_check_is_returned
        (req : client.ObjectKey) (w w' : W) (t : Trace)
        (o : outcome (ctrl.Result * option error))
        (field value : string) (err : error) :
  reconcile req w = (o, (w', t)) ->
  In (EvList field value (inl err)) t ->
  exists prefix,
    t = prefix ++ [EvList field value (inl err)]
    /\ forallb (fun e => negb (pdnsEvent e || isStatusPatch e || isPublish e))
               prefix = true
    /\ o = Returned (ctrl.noResult, Some err).
Proof.
  intros H Hin. unfold reconcile in H.
  exec H; trace_in Hin.
  all: split_trace_last; split; reflexivity.
Qed.

(** X6.  The duplicate check and the registration of the controller
    agree.  [SetupWithManager] registers the index before it builds the
    controller, and returns no error only when both calls succeeded; every
    duplicate check of an invocation then queries the field that was
    indexed, and the value it looks up is the key the registered function
    extracts from the object when the status of the object is unset or
    Succeeded.  The check is made only for an object that is not being
    deleted and whose status is not Failed. *)
Theorem duplicate_check_queries_the_registered_index
        (M : Type) (mgr : Manager M) (m m' : M)
        (registered : list SetupEvent)
        (req : client.ObjectKey) (w w' : W) (t : Trace)
        (o : outcome (ctrl.Result * option error)) (rrset : RRset)
        (field value : string) (res : error + list RRset) :
  SetupWithManager M getRRsetName mgr m = (None, (m', registered)) ->
  reconcile req w = (o, (w', t)) ->
  In (EvGet req (inr rrset)) t ->
  In (EvList field value res) t ->
  metav1.IsZero (metav1.DeletionTimestamp (ObjectMeta rrset)) = true
  /\ isInFailedStatus rrset = false
  /\ exists extractValue,
    registered = [EvIndexField field extractValue None; EvComplete None]
    /\ (SyncStatus (Status rrset) = None
        \/ SyncStatus (Status rrset) = Some SUCCEEDED_STATUS ->
        extractValue (controllerutil.AddFinalizer rrset FINALIZER_NAME)
        = [value]).
Proof.
  intros Hsetup H Hget Hin.
  unfold SetupWithManager in Hsetup.
  destruct (IndexField mgr _ _ m) as [[e|] m1]; [discriminate Hsetup|].
  destruct (Complete mgr m1) as [[e|] m2]; [discriminate Hsetup|].
  injection Hsetup as <- <-.
  known_reads reads_of_run H Hget Hget.
  unfold reconcile in H. exec H; trace_in Hin.
  all: do 2 (split; [first [reflexivity | assumption]|]).
  all: eexists; split; [reflexivity|].
  all: intros Hs; unfold indexDNSEntryName.
  all: rewrite ?AddFinalizer_Status, ?AddFinalizer_Spec.
  all: try match goal with
    | Hc : controllerutil.ContainsFinalizer _ _ = true |- _ =>
        rewrite (AddFinalizer_contained _ _ Hc)
    end.
  all: destruct Hs as [-> | ->]; reflexivity.
Qed.

(** X7.  The loop over the answer of the fetch keeps the first
    record-set of the canonical name and looks no further; when the answer
    holds none, the zero record-set, which has no name, is kept. *)
Theorem filterRecords_keeps_the_first_match
        (records : list powerdns.RRset) (canonical : string)
        (filteredRecord : powerdns.RRset) :
  filterRecords records canonical powerdns.zeroRRset = Returned filteredRecord ->
  let named_otherwise (fr : powerdns.RRset) :=
    exists n, powerdns.Name fr = Some n /\ n <> canonical in
  (filteredRecord = powerdns.zeroRRset
   /\ forall fr, In fr records -> named_otherwise fr)
  \/ (exists before rest,
        records = before ++ filteredRecord :: rest
        /\ powerdns.Name filteredRecord = Some canonical
        /\ forall fr, In fr before -> named_otherwise fr).
Proof.
  intros H named_otherwise. revert H.
  induction records as [|fr records IH]; cbn [filterRecords].
  - intros H. injection H as <-. left. split; [reflexivity|].
    intros ? [].
  - destruct (powerdns.Name fr) as [n|] eqn:En; [|discriminate].
    destruct (String.eqb_spec n canonical) as [->|Hne].
    + intros H. injection H as <-. right. exists [], records.
      split; [reflexivity|]. split; [exact En|]. intros ? [].
    + intros H. destruct (IH H) as [[Hz Hall]|(before & rest & Hr & Hn & Hall)].
      * left. split; [exact Hz|].
        intros x [<-|Hx]; [exists n; split; assumption|exact (Hall x Hx)].
      * right. exists (fr :: before), rest. split; [rewrite Hr; reflexivity|].
        split; [exact Hn|].
        intros x [<-|Hx]; [exists n; split; assumption|exact (Hall x Hx)].
Qed.

(** X8.  [createOrUpdateExternalResources] reports a change exactly when
    it applied the record-set and the apply succeeded.  It makes a fetch
    and at most one apply after it, and returns in one of three ways:
    false after the fetch alone; false, with the error of the apply,
    after an apply that failed; true, with no error, after an apply that
    succeeded. *)
Theorem changed_iff_applied
        (zone : Zone) (rrset : RRset) (w w' : W) (t t' : Trace)
        (changed : bool) (err : option error) :
  createOrUpdateExternalResources W Scheme_ getRRsetName makeCanonical
    rrsetIsIdenticalToExternalRRset r zone rrset (w, t)
  = (Returned (changed, err), (w', t')) ->
  let zoneName := metav1.Name (ZoneObjectMeta zone) in
  let name := getRRsetName rrset in
  let rrtype := Type_ (Spec rrset) in
  exists fetched,
    (changed = false
     /\ t' = t ++ [EvRecordsGet zoneName name rrtype fetched])
    \/ (changed = false
        /\ exists opt e,
             t' = t ++ [EvRecordsGet zoneName name rrtype fetched;
                        EvRecordsChange zoneName name rrtype
                          (TTL (Spec rrset)) (Records (Spec rrset)) opt
                          (Some e)]
             /\ err = Some e)
    \/ (changed = true /\ err = None
        /\ exists opt,
             t' = t ++ [EvRecordsGet zoneName name rrtype fetched;
                        EvRecordsChange zoneName name rrtype
                          (TTL (Spec rrset)) (Records (Spec rrset)) opt
                          None]).
Proof.
  intros H. unfold_reconciler H. repeat split_match H.
  all: try discriminate H; injection H as <- <- <- <-.
  all: cbv zeta; rewrite <- ?app_assoc; cbn [app].
  all: eexists.
  all: first
    [ left; split; reflexivity
    | right; left; split; [reflexivity|]; do 2 eexists; split; reflexivity
    | right; right; split; [reflexivity|]; split; [reflexivity|];
      eexists; reflexivity ].
Qed.

(** X9.  Whether the record-set is applied is decided by the fetch alone:
    an invocation that fetched the record-set makes an apply call if and
    only if the fetch did not fail (NotFound is no failure) and the first
    record-set of the canonical name in its answer is missing or not
    identical to what the object asks for. *)
Theorem fetch_decides_apply
        (req : client.ObjectKey) (w w' : W) (t : Trace)
        (o : outcome (ctrl.Result * option error)) (rrset : RRset)
        (zoneName name rrtype : string) (fetched : list powerdns.RRset)
        (err : option error) :
  reconcile req w = (o, (w', t)) ->
  In (EvGet req (inr rrset)) t ->
  In (EvRecordsGet zoneName name rrtype (fetched, err)) t ->
  existsb Ref.isChange t
  = match err with
    | Some e => errors.IsNotFound e
    | None => true
    end
    && match filterRecords fetched (makeCanonical name) powerdns.zeroRRset with
       | Returned filteredRecord =>
           negb (negb (isNil (powerdns.Name filteredRecord))
                 && rrsetIsIdenticalToExternalRRset
                      (controllerutil.AddFinalizer rrset FINALIZER_NAME)
                      filteredRecord)
       | Panicked => false
       end.
Proof.
  intros H Hget Hin.
  known_reads reads_of_run H Hget Hget.
  unfold reconcile in H. exec H; trace_in Hin.
  all: try match goal with
    | Hc : controllerutil.ContainsFinalizer _ _ = true |- _ =>
        rewrite (AddFinalizer_contained _ _ Hc)
    end.
  all: cbn [existsb Ref.isChange orb].
  all: repeat match goal with
    | Hc : ?x = _ |- context [?x] => rewrite Hc
    end.
  all: reflexivity.
Qed.

(** X10.  The record-set is applied only after it was fetched and found
    missing or different: an apply call comes right after the fetch of the
    same zone, name and type; that fetch did not fail (NotFound is no
    failure), and its answer holds no record-set of the canonical name, or
    the first one it holds is not identical to what the object asks
    for. *)
Theorem apply_follows_a_differing_fetch
        (req : client.ObjectKey) (w w' : W) (t : Trace)
        (o : outcome (ctrl.Result * option error)) (rrset : RRset)
        (zoneName name rrtype : string) (ttl : Z) (records : list string)
        (opt : powerdns.RRsetOption) (res : option error) :
  reconcile req w = (o, (w', t)) ->
  In (EvGet req (inr rrset)) t ->
  In (EvRecordsChange zoneName name rrtype ttl records opt res) t ->
  exists prefix fetched err rest filteredRecord,
    t = prefix
          ++ EvRecordsGet zoneName name rrtype (fetched, err)
          :: EvRecordsChange zoneName name rrtype ttl records opt res
          :: rest
    /\ match err with
       | Some e => errors.IsNotFound e = true
       | None => True
       end
    /\ filterRecords fetched (makeCanonical name) powerdns.zeroRRset
       = Returned filteredRecord
    /\ (powerdns.Name filteredRecord = None
        \/ rrsetIsIdenticalToExternalRRset
             (controllerutil.AddFinalizer rrset FINALIZER_NAME)
             filteredRecord = false).
Proof.
  intros H Hget Hin.
  known_reads reads_of_run H Hget Hget.
  unfold reconcile in H. exec H; trace_in Hin.
  all: try match goal with
    | Hc : controllerutil.ContainsFinalizer _ _ = true |- _ =>
        rewrite (AddFinalizer_contained _ _ Hc)
    end.
  all: match goal with
    | |- exists prefix fetched err rest filteredRecord,
           ?l = prefix ++ ?e :: _ :: rest /\ _ =>
        match l with
        | context [EvRecordsGet ?z ?n ?ty ?ans :: _] =>
            let p := before_entry l (EvRecordsGet z n ty ans) in
            exists p; do 4 eexists; split; [reflexivity|]
        end
    end.
  all: split; [first [exact I | assumption | idtac]|].
  all: try (split; [eassumption|]).
  all: match goal with
    | Hd : negb (isNil (powerdns.Name ?a)) && _ = false |- _ =>
        destruct (powerdns.Name a); cbn [isNil negb andb] in Hd;
        [right; exact Hd | left; reflexivity]
    end.
Qed.

(** X11.  What is applied is what the object asks for: every apply call
    names the zone that was read, the resolved name of the object, and the
    type, the TTL and the records of its spec; it carries the comment of
    the spec, under the account of the operator, when the spec has one,
    and no comment otherwise.  The object is not under deletion and its
    status is not Failed. *)
Theorem apply_sends_the_spec
        (req : client.ObjectKey) (w w' : W) (t : Trace)
        (o : outcome (ctrl.Result * option error)) (rrset : RRset)
        (zoneName name rrtype : string) (ttl : Z) (records : list string)
        (opt : powerdns.RRsetOption) (res : option error) :
  reconcile req w = (o, (w', t)) ->
  In (EvGet req (inr rrset)) t ->
  In (EvRecordsChange zoneName name rrtype ttl records opt res) t ->
  (exists key zone,
     In (EvGetZone key (inr zone)) t
     /\ zoneName = metav1.Name (ZoneObjectMeta zone))
  /\ name = getRRsetName (controllerutil.AddFinalizer rrset FINALIZER_NAME)
  /\ rrtype = Type_ (Spec rrset)
  /\ ttl = TTL (Spec rrset)
  /\ records = Records (Spec rrset)
  /\ opt = match Comment (Spec rrset) with
           | Some c =>
               powerdns.WithComments
                 {| powerdns.Content := Some c;
                    powerdns.Account := Some "powerdns-operator" |}
           | None => powerdns.NoOption
           end
  /\ metav1.IsZero (metav1.DeletionTimestamp (ObjectMeta rrset)) = true
  /\ isInFailedStatus rrset = false.
Proof.
  intros H Hget Hin.
  known_reads reads_of_run H Hget Hget.
  unfold reconcile in H. exec H; trace_in Hin.
  all: rewrite ?AddFinalizer_Spec in *.
  all: try match goal with
    | Hc : controllerutil.ContainsFinalizer _ _ = true |- _ =>
        rewrite (AddFinalizer_contained _ _ Hc)
    end.
  all: try match goal with
    | Hc : Comment _ = _ |- _ => rewrite Hc
    end.
  all: split; [|repeat split; try reflexivity; assumption].
  all: do 2 eexists; split; [|reflexivity].
  all: cbn [In]; repeat (first [left; reflexivity | right]).
Qed.

(** X12.  The finalizer is in place before anything is created on the
    PowerDNS server: an apply call is made for an object that was read
    with the finalizer, or after the update that attaches the finalizer
    was accepted. *)
Theorem finalizer_precedes_apply
        (req : client.ObjectKey) (w w' : W) (t : Trace)
        (o : outcome (ctrl.Result * option error)) (rrset : RRset)
        (zoneName name rrtype : string) (ttl : Z) (records : list string)
        (opt : powerdns.RRsetOption) (res : option error) :
  reconcile req w = (o, (w', t)) ->
  In (EvGet req (inr rrset)) t ->
  In (EvRecordsChange zoneName name rrtype ttl records opt res) t ->
  controllerutil.ContainsFinalizer rrset FINALIZER_NAME = true
  \/ exists prefix rest,
       t = prefix
             ++ EvUpdate (controllerutil.AddFinalizer rrset FINALIZER_NAME)
                         None
             :: rest
       /\ In (EvRecordsChange zoneName name rrtype ttl records opt res) rest.
Proof.
  intros H Hget Hin.
  known_reads reads_of_run H Hget Hget.
  unfold reconcile in H. exec H; trace_in Hin.
  all: first
    [ left; reflexivity
    | right;
      match goal with
      | |- exists prefix rest, ?l = _ /\ _ =>
          match l with
          | context [EvUpdate ?ob None :: EvList ?f ?v ?a :: _] =>
              let p := before_entry l (EvUpdate ob None) in
              exists p; eexists; split; [reflexivity|]
          end
      end;
      cbn [In]; repeat (first [left; reflexivity | right]) ].
Qed.

(** X13.  A successful apply refreshes the timestamp: the status patch
    that follows it reports Succeeded, and its lastUpdateTime is the time
    the clock gave right after the apply call returned. *)
Theorem successful_apply_refreshes_timestamp
        (req : client.ObjectKey) (w w' : W) (t : Trace)
        (o : outcome (ctrl.Result * option error))
        (zoneName name rrtype : string) (ttl : Z) (records : list string)
        (opt : powerdns.RRsetOption) (patch original : RRset)
        (res : option error) :
  reconcile req w = (o, (w', t)) ->
  In (EvRecordsChange zoneName name rrtype ttl records opt None) t ->
  In (EvStatusPatch patch original res) t ->
  SyncStatus (Status patch) = Some SUCCEEDED_STATUS
  /\ exists before applied now after,
       RecordsChange (PDNSClient r) zoneName name rrtype ttl records opt before
       = (None, applied)
       /\ Now applied = (now, after)
       /\ LastUpdateTime (Status patch) = Some now.
Proof.
  intros H Hin Hpatch. unfold reconcile in H.
  exec H; trace_in Hin; trace_in Hpatch.
  all: split; [reflexivity|].
  all: do 4 eexists; split; [eassumption|split; [eassumption|reflexivity]].
Qed.

(** X14.  The record-set is deleted on the PowerDNS server only in the
    finalization of an object: an invocation that makes the delete call
    has read an object under deletion that carries the finalizer and whose
    status is not Failed.  The call names the zone that was read, the
    resolved name of the object and its type, and the invocation makes no
    apply call. *)
Theorem external_delete_only_in_finalization
        (req : client.ObjectKey) (w w' : W) (t : Trace)
        (o : outcome (ctrl.Result * option error)) (rrset : RRset)
        (zoneName name rrtype : string) (res : option error) :
  reconcile req w = (o, (w', t)) ->
  In (EvGet req (inr rrset)) t ->
  In (EvRecordsDelete zoneName name rrtype res) t ->
  metav1.IsZero (metav1.DeletionTimestamp (ObjectMeta rrset)) = false
  /\ controllerutil.ContainsFinalizer rrset FINALIZER_NAME = true
  /\ isInFailedStatus rrset = false
  /\ (exists key zone,
        In (EvGetZone key (inr zone)) t
        /\ zoneName = metav1.Name (ZoneObjectMeta zone))
  /\ name = getRRsetName rrset
  /\ rrtype = Type_ (Spec rrset)
  /\ forallb (fun e => negb (Ref.isChange e)) t = true.
Proof.
  intros H Hget Hin.
  known_reads reads_of_run H Hget Hget.
  unfold reconcile in H. exec H; trace_in Hin.
  all: repeat split; try reflexivity; try assumption.
  all: do 2 eexists; split; [|reflexivity].
  all: cbn [In]; repeat (first [left; reflexivity | right]).
Qed.

(** X15.  When the owner reference cannot be set, the object is not sent
    and the invocation ends there, with a requeue request if the failure
    is a conflict and with the error otherwise.  No status patch is made
    and no metrics are published, so that a failure of the synchronisation
    in the same invocation is not recorded in the status. *)
Theorem unowned_object_is_not_patched
        (req : client.ObjectKey) (w w' : W) (t : Trace)
        (o : outcome (ctrl.Result * option error))
        (zone : Zone) (obj : RRset) (err : error) :
  reconcile req w = (o, (w', t)) ->
  In (EvSetControllerReference zone obj (inl err)) t ->
  exists prefix,
    t = prefix ++ [EvSetControllerReference zone obj (inl err)]
    /\ forallb (fun e => negb (isStatusPatch e || isPublish e)) prefix = true
    /\ (forall sent res, In (EvUpdate sent res) prefix ->
          sent = obj /\ res = None)
    /\ o = Returned
             (if errors.IsConflict err
              then ({| ctrl.Requeue := true; ctrl.RequeueAfter := 0 |}, None)
              else (ctrl.noResult, Some err)).
Proof.
  intros H Hin. unfold reconcile in H.
  exec H; trace_in Hin.
  all: split_trace_last; split; [reflexivity|].
  all: split; [intros sent res Hs; trace_in Hs; split; reflexivity|].
  all: match goal with
    | Hc : errors.IsConflict _ = _ |- _ => rewrite Hc; reflexivity
    end.
Qed.

(** X16.  The updates an invocation sends are of three kinds only: the
    object with the finalizer attached, for an object that is not being
    deleted, lacks the finalizer and whose zone is found; the object with
    the finalizer removed, for an object that carries it and is being
    deleted or whose zone is not found; the object as the setting of the
    owner reference returned it.  In particular the finalizer is never
    removed from an object that is not being deleted while its zone is
    there. *)
Theorem updates_of_one_invocation
        (req : client.ObjectKey) (w w' : W) (t : Trace)
        (o : outcome (ctrl.Result * option error)) (rrset sent : RRset)
        (res : option error) :
  reconcile req w = (o, (w', t)) ->
  In (EvGet req (inr rrset)) t ->
  In (EvUpdate sent res) t ->
  let deleted :=
    negb (metav1.IsZero (metav1.DeletionTimestamp (ObjectMeta rrset))) in
  let zoneFound := existsb isZoneFound t in
  (sent = controllerutil.AddFinalizer rrset FINALIZER_NAME
   /\ controllerutil.ContainsFinalizer rrset FINALIZER_NAME = false
   /\ deleted = false /\ zoneFound = true)
  \/ (sent = controllerutil.RemoveFinalizer rrset FINALIZER_NAME
      /\ controllerutil.ContainsFinalizer rrset FINALIZER_NAME = true
      /\ (deleted = true \/ zoneFound = false))
  \/ (exists zone,
        In (EvSetControllerReference zone
              (controllerutil.AddFinalizer rrset FINALIZER_NAME) (inr sent)) t
        /\ deleted = false /\ zoneFound = true).
Proof.
  intros H Hget Hin.
  known_reads reads_of_run H Hget Hget.
  unfold reconcile in H. exec H; trace_in Hin.
  all: cbv zeta; cbn [existsb orb isZoneFound].
  all: try match goal with
    | Hc : controllerutil.ContainsFinalizer _ _ = true |- _ =>
        rewrite (AddFinalizer_contained _ _ Hc)
    end.
  all: repeat match goal with
    | Hc : ?x = _ |- context [?x] => rewrite Hc
    end.
  all: cbn [negb].
  all: first
    [ left; repeat split; reflexivity
    | right; left; split; [reflexivity|]; split; [reflexivity|];
      first [left; reflexivity | right; reflexivity]
    | right; right; eexists; split;
      [cbn [In]; repeat (first [left; reflexivity | right])
      |split; reflexivity] ].
Qed.

(** X17.  A status patch changes the status only, and always writes a
    complete status: the object sent has the metadata and the spec of the
    base of the patch, a lastUpdateTime, the resolved name of the object
    as DNS entry name, and the sync status Failed, with an error
    description, or Succeeded.  A patch to Succeeded leaves the error
    description as the object had it: it is not cleared. *)
Theorem status_patch_writes_a_complete_status
        (req : client.ObjectKey) (w w' : W) (t : Trace)
        (o : outcome (ctrl.Result * option error))
        (patch original : RRset) (res : option error) :
  reconcile req w = (o, (w', t)) ->
  In (EvStatusPatch patch original res) t ->
  ObjectMeta patch = ObjectMeta original
  /\ Spec patch = Spec original
  /\ (exists lastUpdateTime,
        LastUpdateTime (Status patch) = Some lastUpdateTime
        /\ DnsEntryName (Status patch)
           = Some (getRRsetName
                     (setLastUpdateTime (Some lastUpdateTime) original)))
  /\ ((SyncStatus (Status patch) = Some FAILED_STATUS
       /\ exists description,
            SyncErrorDescription (Status patch) = Some description)
      \/ (SyncStatus (Status patch) = Some SUCCEEDED_STATUS
          /\ SyncErrorDescription (Status patch)
             = SyncErrorDescription (Status original))).
Proof.
  intros H Hin. unfold reconcile in H.
  exec H; trace_in Hin.
  all: cbn.
  all: split; [reflexivity|split; [reflexivity|split]].
  all: try (eexists; split; reflexivity).
  all: first [ left; split; [reflexivity|eexists; reflexivity]
             | right; split; reflexivity ].
Qed.

(** X18.  The status Succeeded is truthful: a status patch reports
    Succeeded if and only if the record-set was fetched in the invocation
    and neither the fetch nor an apply failed.  After a duplicate, a
    failed fetch or a failed apply the patch reports Failed. *)
Theorem succeeded_means_synchronised
        (req : client.ObjectKey) (w w' : W) (t : Trace)
        (o : outcome (ctrl.Result * option error))
        (patch original : RRset) (res : option error) :
  reconcile req w = (o, (w', t)) ->
  In (EvStatusPatch patch original res) t ->
  (SyncStatus (Status patch) = Some SUCCEEDED_STATUS
   <-> existsb isFetch t = true
       /\ forallb (fun e => isNil (syncFailure e)) t = true)
  /\ (SyncStatus (Status patch) = Some SUCCEEDED_STATUS
      \/ SyncStatus (Status patch) = Some FAILED_STATUS).
Proof.
  intros H Hin. unfold reconcile in H.
  exec H; trace_in Hin.
  all: cbn [SyncStatus Status setSyncErrorDescription setSyncStatus
            setDnsEntryName setLastUpdateTime setStatus
            existsb forallb isFetch orb andb syncFailure isNil].
  all: repeat match goal with
    | Hc : errors.IsNotFound _ = _ |- _ => rewrite Hc
    end.
  all: cbn [isNil andb].
  all: split; [|first [left; reflexivity | right; reflexivity]].
  all: split; [intros Hs; try discriminate Hs; split; reflexivity
              |intros [Hf Hs]; try discriminate Hf; try discriminate Hs;
               reflexivity].
Qed.

(** X19.  The metrics of an object are published as the last step of an
    invocation that returns no error and asks for no requeue.  They
    report the status the object was read with, Failed, when no status
    patch was made, and otherwise the status, the name and the type of
    the object as the accepted status patch sent it. *)
Theorem metrics_report_the_status_written
        (req : client.ObjectKey) (w w' : W) (t : Trace)
        (o : outcome (ctrl.Result * option error))
        (fqdn rrtype status name namespace : string) :
  reconcile req w = (o, (w', t)) ->
  In (EvUpdateRrsetsMetrics fqdn rrtype status name namespace) t ->
  exists prefix,
    t = prefix ++ [EvUpdateRrsetsMetrics fqdn rrtype status name namespace]
    /\ o = Returned (ctrl.noResult, None)
    /\ ((forallb (fun e => negb (isStatusPatch e)) prefix = true
         /\ status = FAILED_STATUS
         /\ exists rrset,
              In (EvGet req (inr rrset)) prefix
              /\ isInFailedStatus rrset = true)
        \/ (exists prefix' patch original,
              prefix = prefix' ++ [EvStatusPatch patch original None]
              /\ SyncStatus (Status patch) = Some status
              /\ fqdn = getRRsetName patch
              /\ rrtype = Type_ (Spec patch)
              /\ name = metav1.Name (ObjectMeta patch)
              /\ namespace = metav1.Namespace (ObjectMeta patch))).
Proof.
  intros H Hin. unfold reconcile in H.
  exec H; trace_in Hin.
  all: split_trace_last; split; [reflexivity|].
  all: rewrite ?AddFinalizer_Status in *.
  all: try match goal with
    | Hf : isInFailedStatus _ = true, Hs : SyncStatus _ = Some _ |- _ =>
        rewrite (isInFailedStatus_status _ _ Hf Hs)
    end.
  all: first
    [ left; split; [reflexivity|]; split; [reflexivity|];
      eexists; split; [left; reflexivity|assumption]
    | right;
      match goal with
      | |- exists prefix' patch original, ?l = _ /\ _ =>
          match l with
          | context [EvStatusPatch ?p ?b None] =>
              let pre := before_entry l (EvStatusPatch p b None) in
              exists pre, p, b; split; [reflexivity|]
          end
      end;
      repeat split; (reflexivity || eassumption) ].
Qed.

(** X20.  An error returned by an invocation is the error of the last
    call it made, and that call is a read or a write of the API server,
    the duplicate check, the external delete or the setting of the owner
    reference: the error of a fetch or of an apply is never returned.
    With an error the result asks for no requeue. *)
Theorem returned_error_is_of_the_last_call
        (req : client.ObjectKey) (w w' : W) (t : Trace)
        (res : ctrl.Result) (err : error) :
  reconcile req w = (Returned (res, Some err), (w', t)) ->
  res = ctrl.noResult
  /\ exists prefix e, t = prefix ++ [e] /\ reported e = Some err.
Proof.
  intros H. unfold reconcile in H.
  unfold_reconciler H; repeat split_match H.
  all: try discriminate H; injection H as <- Herr <- <-; try discriminate Herr.
  all: try (unfold client.IgnoreNotFound in Herr;
            match type of Herr with
            | context [errors.IsNotFound ?e] =>
                destruct (errors.IsNotFound e) eqn:Enf
            end; cbn iota in Herr; try discriminate Herr).
  all: first [injection Herr as <- | subst err].
  all: split; [reflexivity|].
  all: match goal with
    | |- exists prefix e, ?l = _ /\ _ =>
        let rec last l :=
          lazymatch l with
          | [?x] => constr:(x)
          | _ :: ?tl => last tl
          end in
        let x := last l in
        let p := before_entry l x in
        exists p, x; split; [reflexivity|]
    end.
  all: cbn [reported]; rewrite ?Enf; try reflexivity.
  all: match goal with
    | Hc : errors.IsNotFound _ = false |- _ => rewrite Hc; reflexivity
    end.
Qed.

(** X21.  The requeue requests of an invocation.  An immediate requeue is
    asked only after a conflict in taking ownership of the object (in the
    setting of the owner reference or in the update that follows it); a
    delayed one only when the zone was not found, and the delay is two
    seconds.  A requeue request never comes with an error. *)
Theorem requeue_requests
        (req : client.ObjectKey) (w w' : W) (t : Trace)
        (res : ctrl.Result) (err : option error) :
  reconcile req w = (Returned (res, err), (w', t)) ->
  (ctrl.Requeue res = true ->
     err = None /\ ctrl.RequeueAfter res = 0%Z
     /\ exists prefix zone obj e,
          errors.IsConflict e = true
          /\ (t = prefix ++ [EvSetControllerReference zone obj (inl e)]
              \/ exists owned,
                   t = prefix ++ [EvSetControllerReference zone obj (inr owned);
                                  EvUpdate owned (Some e)]))
  /\ (ctrl.RequeueAfter res <> 0%Z ->
        err = None /\ ctrl.Requeue res = false
        /\ ctrl.RequeueAfter res = (2 * time.Second)%Z
        /\ exists key e,
             In (EvGetZone key (inl e)) t /\ errors.IsNotFound e = true).
Proof.
  intros H. unfold reconcile in H.
  unfold_reconciler H; repeat split_match H.
  all: try discriminate H; injection H as <- <- <- <-.
  all: split; cbn [ctrl.Requeue ctrl.RequeueAfter ctrl.noResult];
    intros Hq; try discriminate Hq; try (exfalso; apply Hq; reflexivity).
  all: repeat (split; [reflexivity|]).
  all: try (do 2 eexists; split; [|eassumption];
            cbn [In]; repeat (first [left; reflexivity | right])).
  all: match goal with
    | |- exists prefix zone obj e, _ /\ (?l = _ \/ _) =>
        match l with
        | context [EvSetControllerReference ?z ?ob ?ans] =>
            let p := before_entry l (EvSetControllerReference z ob ans) in
            exists p, z, ob; eexists; split; [eassumption|]
        end
    end.
  all: first [left; reflexivity | right; eexists; reflexivity].
Qed.

(** X22.  An invocation panics exactly when the loop over the answer of
    the fetch meets a record-set without a name before one of the
    canonical name: the fetch did not fail (NotFound is no failure) and it
    is the last call of the invocation.  In every other case the
    invocation returns (the collaborators and the helpers of the package
    being taken to return); the dereferences of the sync status, in
    particular, never panic. *)
Theorem invocation_panics_iff
        (req : client.ObjectKey) (w w' : W) (t : Trace)
        (o : outcome (ctrl.Result * option error)) :
  reconcile req w = (o, (w', t)) ->
  o = Panicked
  <-> exists prefix zoneName name rrtype fetched err,
        t = prefix ++ [EvRecordsGet zoneName name rrtype (fetched, err)]
        /\ match err with
           | Some e => errors.IsNotFound e = true
           | None => True
           end
        /\ filterRecords fetched (makeCanonical name) powerdns.zeroRRset
           = Panicked.
Proof.
  intros H. unfold reconcile in H.
  exec H.
  all: rewrite ?AddFinalizer_Status in *.
  all: try (exfalso; eapply isInFailedStatus_not_nil; eassumption).
  all: split; [intros Ho; try discriminate Ho | intros Ht].
  all: try reflexivity.
  all: try match goal with
    | |- exists prefix zoneName name rrtype fetched err, ?l = _ /\ _ =>
        match l with
        | context [EvRecordsGet ?z ?n ?ty (?f, ?e)] =>
            let p := before_entry l (EvRecordsGet z n ty (f, e)) in
            exists p, z, n, ty, f, e; split; [reflexivity|];
            split; [first [exact I | assumption]|assumption]
        end
    end.
  all: exfalso; destruct Ht as (prefix & ? & ? & ? & ? & ? & Ht & _).
  all: repeat (destruct prefix as [|? prefix];
               cbn [app] in Ht; try discriminate Ht;
               try (injection Ht as _ Ht)).
Qed.

(** X23.  One invocation makes each of its calls a bounded number of
    times: at most two updates of the object, one duplicate check, one
    status patch, one fetch; and at most one write to the PowerDNS server,
    an apply or a delete. *)
Theorem calls_of_one_invocation
        (req : client.ObjectKey) (w w' : W) (t : Trace)
        (o : outcome (ctrl.Result * option error)) :
  reconcile req w = (o, (w', t)) ->
  let count (p : Event -> bool) := length (filter p t) in
  (count isUpdate <= 2
   /\ count isList <= 1
   /\ count isStatusPatch <= 1
   /\ count isFetch <= 1
   /\ count (fun e => Ref.isChange e || isDelete e) <= 1)%nat.
Proof.
  intros H. unfold reconcile in H.
  exec H.
  all: cbv zeta; cbn; repeat split; lia.
Qed.

End Invocation.

(* ===================================================================== *)
(** ** The properties on concrete runs *)
(* ===================================================================== *)

Section Runs.
Import dnsv1alpha1 Example.

Lemma run_parts {A} (run : outcome A * (Ref.World * Trace)) :
  run = (result run, (after run, trace run)).
Proof. destruct run as [? [? ?]]. reflexivity. Qed.

(** An entry of the trace of a concrete run. *)
Ltac in_trace := vm_compute; repeat (first [left; reflexivity | right]).

(** Witness of [deletion_runs_only_finalization]: the object under
    deletion, its zone in place. *)
Lemma deletion_runs_only_finalization_witness :
  In (EvGet req (inr deleting)) (trace runDeleting)
  /\ metav1.IsZero (metav1.DeletionTimestamp (ObjectMeta deleting)) = false
  /\ (forallb (finalizationEvent Ref.FINALIZER_NAME) (trace runDeleting) = true
      /\ (forall obj res, In (EvUpdate obj res) (trace runDeleting) ->
            obj = controllerutil.RemoveFinalizer deleting Ref.FINALIZER_NAME)
      /\ exists res err, result runDeleting = Returned (res, err)).
Proof.
  assert (Hget : In (EvGet req (inr deleting)) (trace runDeleting))
    by in_trace.
  split; [exact Hget|]. split; [reflexivity|].
  eapply deletion_runs_only_finalization;
    [exact (run_parts runDeleting) | exact Hget | reflexivity].
Defined.

(** C1 as stated fails: the apply answers an error that is not NotFound,
    the status is patched to Failed with the text of the error, and the
    invocation returns no error. *)
Lemma sync_error_not_returned_counterexample :
  In (apply (Some unavailable)) (trace runApplyFails)
  /\ errors.IsNotFound unavailable = false
  /\ In (EvStatusPatch (failedApply (owned synced) 5%Z) (owned synced) None)
        (trace runApplyFails)
  /\ SyncStatus (Status (failedApply (owned synced) 5%Z))
     = Some FAILED_STATUS
  /\ SyncErrorDescription (Status (failedApply (owned synced) 5%Z))
     = Some "503 Service Unavailable"
  /\ result runApplyFails = Returned (ctrl.noResult, None).
Proof.
  split; [in_trace|]. split; [reflexivity|]. split; [in_trace|].
  repeat split; reflexivity.
Qed.

(** Witness of [sync_error_marks_failed]: the same run. *)
Lemma sync_error_marks_failed_witness :
  In (apply (Some unavailable)) (trace runApplyFails)
  /\ syncFailure (apply (Some unavailable)) = Some unavailable
  /\ (let afterOwnership (e' : error) :=
        if errors.IsConflict e'
        then ({| ctrl.Requeue := true; ctrl.RequeueAfter := 0 |}, None)
        else (ctrl.noResult, Some e') in
      exists prefix rest,
        trace runApplyFails = prefix ++ apply (Some unavailable) :: rest
        /\ ((exists zone obj e',
               rest = [EvSetControllerReference zone obj (inl e')]
               /\ result runApplyFails = Returned (afterOwnership e'))
            \/ (exists zone obj owned e',
                  rest = [EvSetControllerReference zone obj (inr owned);
                          EvUpdate owned (Some e')]
                  /\ result runApplyFails = Returned (afterOwnership e'))
            \/ (exists zone obj owned patch patched rest',
                  rest = EvSetControllerReference zone obj (inr owned)
                           :: EvUpdate owned None
                           :: EvStatusPatch patch owned patched :: rest'
                  /\ SyncStatus (Status patch) = Some FAILED_STATUS
                  /\ SyncErrorDescription (Status patch)
                     = Some (errors.Error unavailable)
                  /\ match patched with
                     | None =>
                         rest' = [EvUpdateRrsetsMetrics
                                    (Ref.getRRsetName patch)
                                    (Type_ (Spec patch)) FAILED_STATUS
                                    (metav1.Name (ObjectMeta patch))
                                    (metav1.Namespace (ObjectMeta patch))]
                         /\ result runApplyFails
                            = Returned (ctrl.noResult, None)
                     | Some e' =>
                         rest' = []
                         /\ result runApplyFails
                            = Returned (ctrl.noResult, Some e')
                     end))).
Proof.
  assert (Hin : In (apply (Some unavailable)) (trace runApplyFails))
    by in_trace.
  split; [exact Hin|]. split; [reflexivity|].
  eapply sync_error_marks_failed;
    [exact (run_parts runApplyFails) | exact Hin | reflexivity].
Defined.

(** C2 as stated fails: the object is under deletion, carries the
    finalizer and its prior status is Succeeded; its zone is gone; the
    finalizer is removed and no delete call is made. *)
Lemma detached_without_delete_counterexample :
  metav1.IsZero (metav1.DeletionTimestamp (ObjectMeta deleting)) = false
  /\ controllerutil.ContainsFinalizer deleting Ref.FINALIZER_NAME = true
  /\ isInFailedStatus deleting = false
  /\ trace runDeletingNoZone
     = [EvGet req (inr deleting);
        EvGetZone zoneKey (inl Ref.notFound);
        EvUpdate (controllerutil.RemoveFinalizer deleting Ref.FINALIZER_NAME)
                 None;
        EvRemoveRrsetMetrics "www" "default"]
  /\ Ref.object (after runDeletingNoZone) = None.
Proof. repeat split; reflexivity. Qed.

(** Witness of [finalization_deletes_before_detaching]: the object under
    deletion, its zone in place. *)
Lemma finalization_deletes_before_detaching_witness :
  In (EvGet req (inr deleting)) (trace runDeleting)
  /\ In (EvGetZone zoneKey (inr zone)) (trace runDeleting)
  /\ metav1.IsZero (metav1.DeletionTimestamp (ObjectMeta deleting)) = false
  /\ controllerutil.ContainsFinalizer deleting Ref.FINALIZER_NAME = true
  /\ (let detached :=
        controllerutil.RemoveFinalizer deleting Ref.FINALIZER_NAME in
      let reads := [EvGet req (inr deleting); EvGetZone zoneKey (inr zone)] in
      let delete :=
        EvRecordsDelete (metav1.Name (ZoneObjectMeta zone))
          (Ref.getRRsetName deleting) (Type_ (Spec deleting)) in
      let retract :=
        EvRemoveRrsetMetrics (metav1.Name (ObjectMeta deleting))
          (metav1.Namespace (ObjectMeta deleting)) in
      (isInFailedStatus deleting = false
       /\ ((exists e, trace runDeleting = reads ++ [delete (Some e)]
                      /\ result runDeleting
                         = Returned (ctrl.noResult, Some e))
           \/ (exists e, trace runDeleting
                         = reads ++ [delete None; EvUpdate detached (Some e)]
                         /\ result runDeleting
                            = Returned (ctrl.noResult, Some e))
           \/ (trace runDeleting
               = reads ++ [delete None; EvUpdate detached None; retract]
               /\ result runDeleting = Returned (ctrl.noResult, None))))
      \/ (isInFailedStatus deleting = true
          /\ ((exists e, trace runDeleting
                         = reads ++ [EvUpdate detached (Some e)]
                         /\ result runDeleting
                            = Returned (ctrl.noResult, Some e))
              \/ (trace runDeleting
                  = reads ++ [EvUpdate detached None; retract]
                  /\ result runDeleting = Returned (ctrl.noResult, None))))).
Proof.
  assert (Hget : In (EvGet req (inr deleting)) (trace runDeleting))
    by in_trace.
  assert (Hzone : In (EvGetZone zoneKey (inr zone)) (trace runDeleting))
    by in_trace.
  split; [exact Hget|]. split; [exact Hzone|].
  split; [reflexivity|]. split; [reflexivity|].
  eapply finalization_deletes_before_detaching;
    [exact (run_parts runDeleting) | exact Hget | exact Hzone
    | reflexivity | reflexivity].
Defined.

(** C3 as stated fails: the duplicate check answers two claimants, the
    status patch fails; the invocation returns the error and publishes
    no metrics. *)
Lemma duplicate_patch_fails_counterexample :
  In (EvList "DNS.Entry.Name" "www.example.com./A" (inr [synced; twin]))
     (trace runDuplicatePatchFails)
  /\ result runDuplicatePatchFails
     = Returned (ctrl.noResult, Some unavailable)
  /\ forallb (fun e => match e with
                       | EvUpdateRrsetsMetrics _ _ _ _ _ => false
                       | _ => true
                       end) (trace runDuplicatePatchFails) = true.
Proof. split; [in_trace|]. split; reflexivity. Qed.

(** Witness of [duplicate_marks_failed]: two claimants, nothing fails. *)
Lemma duplicate_marks_failed_witness :
  In (EvList "DNS.Entry.Name" "www.example.com./A" (inr [synced; twin]))
     (trace runDuplicate)
  /\ (1 < length [synced; twin])%nat
  /\ (forallb (fun e => negb (pdnsEvent e)) (trace runDuplicate) = true
      /\ exists prefix obj original patched rest,
          trace runDuplicate
          = prefix ++ EvList "DNS.Entry.Name" "www.example.com./A"
                        (inr [synced; twin])
                   :: EvStatusPatch obj original patched :: rest
          /\ SyncStatus (Status obj) = Some FAILED_STATUS
          /\ SyncErrorDescription (Status obj) = Some duplicateDiagnostic
          /\ ObjectMeta obj = ObjectMeta original
          /\ Spec obj = Spec original
          /\ match patched with
             | None =>
                 rest = [EvUpdateRrsetsMetrics (Ref.getRRsetName obj)
                           (Type_ (Spec obj)) FAILED_STATUS
                           (metav1.Name (ObjectMeta obj))
                           (metav1.Namespace (ObjectMeta obj))]
                 /\ result runDuplicate = Returned (ctrl.noResult, None)
             | Some e =>
                 rest = []
                 /\ result runDuplicate = Returned (ctrl.noResult, Some e)
             end).
Proof.
  assert (Hin : In (EvList "DNS.Entry.Name" "www.example.com./A"
                      (inr [synced; twin])) (trace runDuplicate))
    by in_trace.
  split; [exact Hin|]. split; [cbn; lia|].
  eapply duplicate_marks_failed;
    [exact (run_parts runDuplicate) | exact Hin | cbn; lia].
Defined.

(** C5 as stated fails: the object is not being deleted and does not
    carry the finalizer; the finalizer is attached and the same invocation
    goes on to the duplicate check and to the apply. *)
Lemma attach_then_sync_counterexample :
  metav1.IsZero (metav1.DeletionTimestamp (ObjectMeta created)) = true
  /\ controllerutil.ContainsFinalizer created Ref.FINALIZER_NAME = false
  /\ exists attached listed owned patch,
      trace runCreated
      = [EvGet req (inr created);
         EvGetZone zoneKey (inr zone);
         EvUpdate attached None;
         EvList "DNS.Entry.Name" "www.example.com./A" (inr listed);
         fetch [];
         apply None;
         EvSetControllerReference zone attached (inr owned);
         EvUpdate owned None;
         EvStatusPatch patch owned None;
         EvUpdateRrsetsMetrics "www.example.com." "A" SUCCEEDED_STATUS
           "www" "default"]
      /\ attached = controllerutil.AddFinalizer created Ref.FINALIZER_NAME.
Proof.
  split; [reflexivity|]. split; [reflexivity|].
  do 4 eexists. split; reflexivity.
Qed.

(** Witness of [attach_then_continue]: the same run. *)
Lemma attach_then_continue_witness :
  In (EvGet req (inr created)) (trace runCreated)
  /\ In (EvGetZone zoneKey (inr zone)) (trace runCreated)
  /\ metav1.IsZero (metav1.DeletionTimestamp (ObjectMeta created)) = true
  /\ controllerutil.ContainsFinalizer created Ref.FINALIZER_NAME = false
  /\ (let attached :=
        controllerutil.AddFinalizer created Ref.FINALIZER_NAME in
      let reads := [EvGet req (inr created); EvGetZone zoneKey (inr zone)] in
      (exists e, trace runCreated = reads ++ [EvUpdate attached (Some e)]
                 /\ result runCreated = Returned (ctrl.noResult, Some e))
      \/ (isInFailedStatus created = true
          /\ trace runCreated
             = reads ++ [EvUpdate attached None;
                         EvUpdateRrsetsMetrics (Ref.getRRsetName attached)
                           (Type_ (Spec created)) FAILED_STATUS
                           (metav1.Name (ObjectMeta created))
                           (metav1.Namespace (ObjectMeta created))]
          /\ result runCreated = Returned (ctrl.noResult, None))
      \/ (isInFailedStatus created = false
          /\ exists listed rest,
              trace runCreated
              = reads ++ [EvUpdate attached None;
                          EvList "DNS.Entry.Name"
                            (Ref.getRRsetName attached ++ "/"
                               ++ Type_ (Spec created))
                            listed] ++ rest
              /\ forall l, listed = inr l -> (length l <= 1)%nat ->
                   exists fetched rest',
                     rest = EvRecordsGet (metav1.Name (ZoneObjectMeta zone))
                              (Ref.getRRsetName attached)
                              (Type_ (Spec created)) fetched
                            :: rest')).
Proof.
  assert (Hget : In (EvGet req (inr created)) (trace runCreated))
    by in_trace.
  assert (Hzone : In (EvGetZone zoneKey (inr zone)) (trace runCreated))
    by in_trace.
  split; [exact Hget|]. split; [exact Hzone|].
  split; [reflexivity|]. split; [reflexivity|].
  eapply attach_then_continue;
    [exact (run_parts runCreated) | exact Hget | exact Hzone
    | reflexivity | reflexivity].
Defined.

(** C6 as stated fails: a conflict on the update that attaches the
    finalizer, and a conflict on the status patch, are returned as the
    error of the invocation, with no requeue asked. *)
Lemma conflict_returned_counterexample :
  errors.IsConflict conflict = true
  /\ In (EvUpdate (controllerutil.AddFinalizer created Ref.FINALIZER_NAME)
                  (Some conflict)) (trace runAttachConflict)
  /\ result runAttachConflict = Returned (ctrl.noResult, Some conflict)
  /\ (exists patch original,
        In (EvStatusPatch patch original (Some conflict))
           (trace runPatchConflict))
  /\ result runPatchConflict = Returned (ctrl.noResult, Some conflict).
Proof.
  split; [reflexivity|]. split; [in_trace|]. split; [reflexivity|].
  split; [|reflexivity].
  do 2 eexists. in_trace.
Qed.

(** Witness of [failed_write_ends_invocation]: a conflict on the
    ownership update. *)
Lemma failed_write_ends_invocation_witness :
  In (EvUpdate (owned synced) (Some conflict)) (trace runOwnershipConflict)
  /\ writeFailure (EvUpdate (owned synced) (Some conflict)) = Some conflict
  /\ exists prefix,
      trace runOwnershipConflict
      = prefix ++ [EvUpdate (owned synced) (Some conflict)]
      /\ forallb (fun e' => negb (isStatusPatch e')) prefix = true
      /\ result runOwnershipConflict
         = Returned
             (if isUpdate (EvUpdate (owned synced) (Some conflict))
                 && endsWithSetControllerReference prefix
                 && errors.IsConflict conflict
              then ({| ctrl.Requeue := true; ctrl.RequeueAfter := 0 |}, None)
              else (ctrl.noResult, Some conflict)).
Proof.
  assert (Hin : In (EvUpdate (owned synced) (Some conflict))
                   (trace runOwnershipConflict)) by in_trace.
  split; [exact Hin|]. split; [reflexivity|].
  eapply failed_write_ends_invocation;
    [exact (run_parts runOwnershipConflict) | exact Hin | reflexivity].
Defined.

(** C7 as stated fails: the zone is not found, the object carries the
    finalizer, the update that removes it fails; the invocation returns
    the error, with no requeue delay, and the metrics stay. *)
Lemma zone_not_found_update_fails_counterexample :
  In (EvGetZone zoneKey (inl Ref.notFound)) (trace runNoZoneUpdateFails)
  /\ errors.IsNotFound Ref.notFound = true
  /\ trace runNoZoneUpdateFails
     = [EvGet req (inr synced);
        EvGetZone zoneKey (inl Ref.notFound);
        EvUpdate (controllerutil.RemoveFinalizer synced Ref.FINALIZER_NAME)
                 (Some unavailable)]
  /\ result runNoZoneUpdateFails
     = Returned (ctrl.noResult, Some unavailable).
Proof. split; [in_trace|]. repeat split; reflexivity. Qed.

(** Witness of [zone_not_found_detaches_and_requeues]: the zone is not
    found, nothing fails. *)
Lemma zone_not_found_detaches_and_requeues_witness :
  In (EvGet req (inr synced)) (trace runNoZone)
  /\ In (EvGetZone zoneKey (inl Ref.notFound)) (trace runNoZone)
  /\ errors.IsNotFound Ref.notFound = true
  /\ (let requeue :=
        {| ctrl.Requeue := false; ctrl.RequeueAfter := 2 * time.Second |} in
      let detached :=
        controllerutil.RemoveFinalizer synced Ref.FINALIZER_NAME in
      let reads :=
        [EvGet req (inr synced); EvGetZone zoneKey (inl Ref.notFound)] in
      (controllerutil.ContainsFinalizer synced Ref.FINALIZER_NAME = false
       /\ trace runNoZone = reads
       /\ result runNoZone = Returned (requeue, None))
      \/ (controllerutil.ContainsFinalizer synced Ref.FINALIZER_NAME = true
          /\ trace runNoZone
             = reads ++ [EvUpdate detached None;
                         EvRemoveRrsetMetrics
                           (metav1.Name (ObjectMeta synced))
                           (metav1.Namespace (ObjectMeta synced))]
          /\ result runNoZone = Returned (requeue, None))
      \/ (controllerutil.ContainsFinalizer synced Ref.FINALIZER_NAME = true
          /\ exists e, trace runNoZone = reads ++ [EvUpdate detached (Some e)]
                       /\ result runNoZone
                          = Returned (ctrl.noResult, Some e))).
Proof.
  assert (Hget : In (EvGet req (inr synced)) (trace runNoZone)) by in_trace.
  assert (Hzone : In (EvGetZone zoneKey (inl Ref.notFound)) (trace runNoZone))
    by in_trace.
  split; [exact Hget|]. split; [exact Hzone|]. split; [reflexivity|].
  eapply zone_not_found_detaches_and_requeues;
    [exact (run_parts runNoZone) | exact Hget | exact Hzone | reflexivity].
Defined.

(** C10 as stated fails: the object does not carry the finalizer and its
    prior status has the lastUpdateTime 5; the apply fails; the status
    patch writes the lastUpdateTime 101, the time read when the finalizer
    was attached. *)
Lemma failed_apply_refreshes_timestamp_counterexample :
  LastUpdateTime (Status detached) = Some 5%Z
  /\ In (apply (Some unavailable)) (trace runApplyFailsDetached)
  /\ In (EvStatusPatch
           (failedApply
              (owned (controllerutil.AddFinalizer detached
                        Ref.FINALIZER_NAME)) 101%Z)
           (owned (controllerutil.AddFinalizer detached Ref.FINALIZER_NAME))
           None)
        (trace runApplyFailsDetached)
  /\ LastUpdateTime
       (Status (failedApply
                  (owned (controllerutil.AddFinalizer detached
                            Ref.FINALIZER_NAME)) 101%Z))
     = Some 101%Z.
Proof.
  split; [reflexivity|]. split; [in_trace|]. split; [in_trace|reflexivity].
Qed.

(** Witness of [failed_apply_keeps_timestamp]: the apply fails for an
    object that carries the finalizer. *)
Lemma failed_apply_keeps_timestamp_witness :
  In (EvGet req (inr synced)) (trace runApplyFails)
  /\ In (apply (Some unavailable)) (trace runApplyFails)
  /\ In (EvStatusPatch (failedApply (owned synced) 5%Z) (owned synced) None)
        (trace runApplyFails)
  /\ (DnsEntryName (Status (failedApply (owned synced) 5%Z))
      = Some (Ref.getRRsetName
                (setLastUpdateTime
                   (LastUpdateTime (Status (failedApply (owned synced) 5%Z)))
                   (owned synced)))
      /\ (controllerutil.ContainsFinalizer synced Ref.FINALIZER_NAME = true ->
          forall t0, LastUpdateTime (Status synced) = Some t0 ->
                     LastUpdateTime (Status (failedApply (owned synced) 5%Z))
                     = Some t0)).
Proof.
  assert (Hget : In (EvGet req (inr synced)) (trace runApplyFails))
    by in_trace.
  assert (Happly : In (apply (Some unavailable)) (trace runApplyFails))
    by in_trace.
  assert (Hpatch : In (EvStatusPatch (failedApply (owned synced) 5%Z)
                         (owned synced) None) (trace runApplyFails))
    by in_trace.
  split; [exact Hget|]. split; [exact Happly|]. split; [exact Hpatch|].
  eapply failed_apply_keeps_timestamp;
    [exact (run_parts runApplyFails) | exact Hget | exact Happly
    | exact Hpatch].
Defined.


(** Witness of [unreadable_object_ends_invocation]: the object of the
    request is gone. *)
Lemma unreadable_object_ends_invocation_witness :
  In (EvGet req (inl Ref.notFound)) (trace runMissing)
  /\ (trace runMissing = [EvGet req (inl Ref.notFound)]
      /\ result runMissing
         = Returned (ctrl.noResult,
                     if errors.IsNotFound Ref.notFound
                     then None else Some Ref.notFound)).
Proof.
  assert (Hin : In (EvGet req (inl Ref.notFound)) (trace runMissing))
    by in_trace.
  split; [exact Hin|].
  eapply unreadable_object_ends_invocation;
    [exact (run_parts runMissing) | exact Hin].
Defined.

(** Witness of [zone_is_read_in_the_namespace_of_the_object]: the object
    synchronised before. *)
Lemma zone_is_read_in_the_namespace_of_the_object_witness :
  In (EvGet req (inr synced)) (trace runSynced)
  /\ exists zone rest,
       trace runSynced
       = EvGet req (inr synced)
           :: EvGetZone
                {| client.Namespace := metav1.Namespace (ObjectMeta synced);
                   client.Name := ZoneRefName (ZoneRef_ (Spec synced)) |}
                zone
           :: rest
       /\ forallb (fun e => negb (isRead e)) rest = true.
Proof.
  assert (Hget : In (EvGet req (inr synced)) (trace runSynced)) by in_trace.
  split; [exact Hget|].
  eapply zone_is_read_in_the_namespace_of_the_object;
    [exact (run_parts runSynced) | exact Hget].
Defined.

(** Witness of [zone_lookup_failure_is_returned]: the API server is
    unavailable when the zone is looked up. *)
Lemma zone_lookup_failure_is_returned_witness :
  In (EvGetZone zoneKey (inl unavailable)) (trace runZoneFails)
  /\ errors.IsNotFound unavailable = false
  /\ exists rrset,
       trace runZoneFails
       = [EvGet req (inr rrset); EvGetZone zoneKey (inl unavailable)]
       /\ zoneKey
          = {| client.Namespace := metav1.Namespace (ObjectMeta rrset);
               client.Name := ZoneRefName (ZoneRef_ (Spec rrset)) |}
       /\ result runZoneFails = Returned (ctrl.noResult, Some unavailable).
Proof.
  assert (Hin : In (EvGetZone zoneKey (inl unavailable))
                   (trace runZoneFails)) by in_trace.
  split; [exact Hin|]. split; [reflexivity|].
  eapply zone_lookup_failure_is_returned;
    [exact (run_parts runZoneFails) | exact Hin | reflexivity].
Defined.

(** Witness of [failed_object_is_not_synchronised]: an earlier
    synchronisation of the object failed. *)
Lemma failed_object_is_not_synchronised_witness :
  In (EvGet req (inr failedBefore)) (trace runFailed)
  /\ metav1.IsZero (metav1.DeletionTimestamp (ObjectMeta failedBefore))
     = true
  /\ isInFailedStatus failedBefore = true
  /\ (forallb (fun e => negb (isList e || pdnsEvent e || isStatusPatch e))
              (trace runFailed) = true
      /\ forall (key : client.ObjectKey) (zone : Zone),
          In (EvGetZone key (inr zone)) (trace runFailed) ->
          let attached :=
            controllerutil.AddFinalizer failedBefore Ref.FINALIZER_NAME in
          let reads :=
            [EvGet req (inr failedBefore); EvGetZone key (inr zone)] in
          let publish :=
            EvUpdateRrsetsMetrics (Ref.getRRsetName attached)
              (Type_ (Spec failedBefore)) FAILED_STATUS
              (metav1.Name (ObjectMeta failedBefore))
              (metav1.Namespace (ObjectMeta failedBefore)) in
          (controllerutil.ContainsFinalizer failedBefore Ref.FINALIZER_NAME
           = true
           /\ trace runFailed = reads ++ [publish]
           /\ result runFailed = Returned (ctrl.noResult, None))
          \/ (controllerutil.ContainsFinalizer failedBefore
                Ref.FINALIZER_NAME = false
              /\ trace runFailed = reads ++ [EvUpdate attached None; publish]
              /\ result runFailed = Returned (ctrl.noResult, None))
          \/ (controllerutil.ContainsFinalizer failedBefore
                Ref.FINALIZER_NAME = false
              /\ exists e,
                  trace runFailed = reads ++ [EvUpdate attached (Some e)]
                  /\ result runFailed = Returned (ctrl.noResult, Some e))).
Proof.
  assert (Hget : In (EvGet req (inr failedBefore)) (trace runFailed))
    by in_trace.
  split; [exact Hget|].
  split; [reflexivity|]. split; [reflexivity|].
  eapply failed_object_is_not_synchronised;
    [exact (run_parts runFailed) | exact Hget | reflexivity | reflexivity].
Defined.

(** Witness of [failed_duplicate_check_is_returned]: the API server is
    unavailable when the claimants are listed. *)
Lemma failed_duplicate_check_is_returned_witness :
  In (EvList "DNS.Entry.Name" "www.example.com./A" (inl unavailable))
     (trace runListFails)
  /\ exists prefix,
       trace runListFails
       = prefix
           ++ [EvList "DNS.Entry.Name" "www.example.com./A"
                 (inl unavailable)]
       /\ forallb (fun e => negb (pdnsEvent e || isStatusPatch e
                                  || isPublish e)) prefix = true
       /\ result runListFails = Returned (ctrl.noResult, Some unavailable).
Proof.
  assert (Hin : In (EvList "DNS.Entry.Name" "www.example.com./A"
                      (inl unavailable)) (trace runListFails)) by in_trace.
  split; [exact Hin|].
  eapply failed_duplicate_check_is_returned;
    [exact (run_parts runListFails) | exact Hin].
Defined.

(** Witness of [duplicate_check_queries_the_registered_index]: a manager
    that accepts the registration, and the object synchronised before, the
    one claimant of its name. *)
Lemma duplicate_check_queries_the_registered_index_witness :
  runSetup
  = (None, (["DNS.Entry.Name"],
            [EvIndexField "DNS.Entry.Name"
               (indexDNSEntryName Ref.getRRsetName) None;
             EvComplete None]))
  /\ In (EvGet req (inr synced)) (trace runSynced)
  /\ In (EvList "DNS.Entry.Name" "www.example.com./A" (inr [synced]))
        (trace runSynced)
  /\ (metav1.IsZero (metav1.DeletionTimestamp (ObjectMeta synced)) = true
      /\ isInFailedStatus synced = false
      /\ exists extractValue,
           [EvIndexField "DNS.Entry.Name"
              (indexDNSEntryName Ref.getRRsetName) None;
            EvComplete None]
           = [EvIndexField "DNS.Entry.Name" extractValue None;
              EvComplete None]
           /\ (SyncStatus (Status synced) = None
               \/ SyncStatus (Status synced) = Some SUCCEEDED_STATUS ->
               extractValue
                 (controllerutil.AddFinalizer synced Ref.FINALIZER_NAME)
               = ["www.example.com./A"])).
Proof.
  assert (Hsetup :
            runSetup
            = (None, (["DNS.Entry.Name"],
                      [EvIndexField "DNS.Entry.Name"
                         (indexDNSEntryName Ref.getRRsetName) None;
                       EvComplete None]))) by reflexivity.
  assert (Hget : In (EvGet req (inr synced)) (trace runSynced)) by in_trace.
  assert (Hin : In (EvList "DNS.Entry.Name" "www.example.com./A"
                      (inr [synced])) (trace runSynced)) by in_trace.
  split; [exact Hsetup|]. split; [exact Hget|]. split; [exact Hin|].
  eapply duplicate_check_queries_the_registered_index;
    [exact Hsetup | exact (run_parts runSynced) | exact Hget | exact Hin].
Defined.

(** Witness of [filterRecords_keeps_the_first_match]: the answer holds a
    record-set of another name, then two of the name asked for. *)
Lemma filterRecords_keeps_the_first_match_witness :
  filterRecords [heldMail; snd held; heldStale] "www.example.com."
    powerdns.zeroRRset = Returned (snd held)
  /\ (let named_otherwise (fr : powerdns.RRset) :=
        exists n, powerdns.Name fr = Some n /\ n <> "www.example.com." in
      (snd held = powerdns.zeroRRset
       /\ forall fr, In fr [heldMail; snd held; heldStale] ->
                     named_otherwise fr)
      \/ (exists before rest,
            [heldMail; snd held; heldStale] = before ++ snd held :: rest
            /\ powerdns.Name (snd held) = Some "www.example.com."
            /\ forall fr, In fr before -> named_otherwise fr)).
Proof.
  split; [reflexivity|].
  apply filterRecords_keeps_the_first_match. reflexivity.
Defined.

(** Witness of [changed_iff_applied]: the server holds other values under
    the name of the object; they are replaced. *)
Lemma changed_iff_applied_witness :
  runApply = (Returned (true, None), (after runApply, trace runApply))
  /\ (let zoneName := metav1.Name (ZoneObjectMeta zone) in
      let name := Ref.getRRsetName synced in
      let rrtype := Type_ (Spec synced) in
      exists fetched,
        (true = false
         /\ trace runApply = [] ++ [EvRecordsGet zoneName name rrtype fetched])
        \/ (true = false
            /\ exists opt e,
                 trace runApply
                 = [] ++ [EvRecordsGet zoneName name rrtype fetched;
                          EvRecordsChange zoneName name rrtype
                            (TTL (Spec synced)) (Records (Spec synced)) opt
                            (Some e)]
                 /\ None = Some e)
        \/ (true = true /\ @None error = None
            /\ exists opt,
                 trace runApply
                 = [] ++ [EvRecordsGet zoneName name rrtype fetched;
                          EvRecordsChange zoneName name rrtype
                            (TTL (Spec synced)) (Records (Spec synced)) opt
                            None])).
Proof.
  assert (Hrun : runApply
                 = (Returned (true, None), (after runApply, trace runApply)))
    by (vm_compute; reflexivity).
  split; [exact Hrun|].
  exact (changed_iff_applied _ _ _ _ _ _ _ _ _ _ _ _ _ _ Hrun).
Defined.

(** Witness of [fetch_decides_apply]: the server holds the record-set of
    the object synchronised before, and no apply is made. *)
Lemma fetch_decides_apply_witness :
  In (EvGet req (inr synced)) (trace runSynced)
  /\ In (fetch [snd held]) (trace runSynced)
  /\ existsb Ref.isChange (trace runSynced)
     = match @None error with
       | Some e => errors.IsNotFound e
       | None => true
       end
       && match filterRecords [snd held]
                  (Ref.makeCanonical "www.example.com.") powerdns.zeroRRset
          with
          | Returned filteredRecord =>
              negb (negb (isNil (powerdns.Name filteredRecord))
                    && Ref.rrsetIsIdenticalToExternalRRset
                         (controllerutil.AddFinalizer synced
                            Ref.FINALIZER_NAME)
                         filteredRecord)
          | Panicked => false
          end.
Proof.
  assert (Hget : In (EvGet req (inr synced)) (trace runSynced)) by in_trace.
  assert (Hin : In (fetch [snd held]) (trace runSynced)) by in_trace.
  split; [exact Hget|]. split; [exact Hin|].
  exact (fetch_decides_apply _ _ _ _ _ _ _ _ _ _ _ _ _ _ _ _ _ _ _ _
           (run_parts runSynced) Hget Hin).
Defined.

(** Witness of [apply_follows_a_differing_fetch]: the object just
    created, of which the server holds nothing. *)
Lemma apply_follows_a_differing_fetch_witness :
  In (EvGet req (inr created)) (trace runCreated)
  /\ In (apply None) (trace runCreated)
  /\ exists prefix fetched err rest filteredRecord,
       trace runCreated
       = prefix
           ++ EvRecordsGet "example.com" "www.example.com." "A" (fetched, err)
           :: apply None
           :: rest
       /\ match err with
          | Some e => errors.IsNotFound e = true
          | None => True
          end
       /\ filterRecords fetched (Ref.makeCanonical "www.example.com.")
            powerdns.zeroRRset
          = Returned filteredRecord
       /\ (powerdns.Name filteredRecord = None
           \/ Ref.rrsetIsIdenticalToExternalRRset
                (controllerutil.AddFinalizer created Ref.FINALIZER_NAME)
                filteredRecord = false).
Proof.
  assert (Hget : In (EvGet req (inr created)) (trace runCreated))
    by in_trace.
  assert (Hin : In (apply None) (trace runCreated)) by in_trace.
  split; [exact Hget|]. split; [exact Hin|].
  eapply apply_follows_a_differing_fetch;
    [exact (run_parts runCreated) | exact Hget | exact Hin].
Defined.

(** Witness of [apply_sends_the_spec]: the same run. *)
Lemma apply_sends_the_spec_witness :
  In (EvGet req (inr created)) (trace runCreated)
  /\ In (apply None) (trace runCreated)
  /\ ((exists key zone,
         In (EvGetZone key (inr zone)) (trace runCreated)
         /\ "example.com" = metav1.Name (ZoneObjectMeta zone))
      /\ "www.example.com."
         = Ref.getRRsetName
             (controllerutil.AddFinalizer created Ref.FINALIZER_NAME)
      /\ "A" = Type_ (Spec created)
      /\ 300%Z = TTL (Spec created)
      /\ ["10.0.0.1"] = Records (Spec created)
      /\ powerdns.NoOption
         = match Comment (Spec created) with
           | Some c =>
               powerdns.WithComments
                 {| powerdns.Content := Some c;
                    powerdns.Account := Some "powerdns-operator" |}
           | None => powerdns.NoOption
           end
      /\ metav1.IsZero (metav1.DeletionTimestamp (ObjectMeta created)) = true
      /\ isInFailedStatus created = false).
Proof.
  assert (Hget : In (EvGet req (inr created)) (trace runCreated))
    by in_trace.
  assert (Hin : In (apply None) (trace runCreated)) by in_trace.
  split; [exact Hget|]. split; [exact Hin|].
  eapply apply_sends_the_spec;
    [exact (run_parts runCreated) | exact Hget | exact Hin].
Defined.

(** Witness of [finalizer_precedes_apply]: the same run; the finalizer is
    attached first. *)
Lemma finalizer_precedes_apply_witness :
  In (EvGet req (inr created)) (trace runCreated)
  /\ In (apply None) (trace runCreated)
  /\ (controllerutil.ContainsFinalizer created Ref.FINALIZER_NAME = true
      \/ exists prefix rest,
           trace runCreated
           = prefix
               ++ EvUpdate (controllerutil.AddFinalizer created
                              Ref.FINALIZER_NAME) None
               :: rest
           /\ In (apply None) rest).
Proof.
  assert (Hget : In (EvGet req (inr created)) (trace runCreated))
    by in_trace.
  assert (Hin : In (apply None) (trace runCreated)) by in_trace.
  split; [exact Hget|]. split; [exact Hin|].
  eapply finalizer_precedes_apply;
    [exact (run_parts runCreated) | exact Hget | exact Hin].
Defined.

(** Witness of [successful_apply_refreshes_timestamp]: the same run; the
    clock is read a third time after the apply. *)
Lemma successful_apply_refreshes_timestamp_witness :
  In (apply None) (trace runCreated)
  /\ In (EvStatusPatch
           (succeededSync
              (owned (controllerutil.AddFinalizer created
                        Ref.FINALIZER_NAME)) 102%Z)
           (owned (controllerutil.AddFinalizer created Ref.FINALIZER_NAME))
           None)
        (trace runCreated)
  /\ (SyncStatus
        (Status (succeededSync
                   (owned (controllerutil.AddFinalizer created
                             Ref.FINALIZER_NAME)) 102%Z))
      = Some SUCCEEDED_STATUS
      /\ exists before applied now after,
           RecordsChange
             (PDNSClient (Ref.reconciler Ref.getRRsetName Ref.makeCanonical))
             "example.com" "www.example.com." "A" 300 ["10.0.0.1"]
             powerdns.NoOption before
           = (None, applied)
           /\ Ref.refNow applied = (now, after)
           /\ LastUpdateTime
                (Status (succeededSync
                           (owned (controllerutil.AddFinalizer created
                                     Ref.FINALIZER_NAME)) 102%Z))
              = Some now).
Proof.
  assert (Hin : In (apply None) (trace runCreated)) by in_trace.
  assert (Hpatch :
            In (EvStatusPatch
                  (succeededSync
                     (owned (controllerutil.AddFinalizer created
                               Ref.FINALIZER_NAME)) 102%Z)
                  (owned (controllerutil.AddFinalizer created
                            Ref.FINALIZER_NAME))
                  None)
               (trace runCreated)) by in_trace.
  split; [exact Hin|]. split; [exact Hpatch|].
  eapply successful_apply_refreshes_timestamp;
    [exact (run_parts runCreated) | exact Hin | exact Hpatch].
Defined.

(** Witness of [external_delete_only_in_finalization]: the object under
    deletion, its zone in place. *)
Lemma external_delete_only_in_finalization_witness :
  In (EvGet req (inr deleting)) (trace runDeleting)
  /\ In (EvRecordsDelete "example.com" "www.example.com." "A" None)
        (trace runDeleting)
  /\ (metav1.IsZero (metav1.DeletionTimestamp (ObjectMeta deleting)) = false
      /\ controllerutil.ContainsFinalizer deleting Ref.FINALIZER_NAME = true
      /\ isInFailedStatus deleting = false
      /\ (exists key zone,
            In (EvGetZone key (inr zone)) (trace runDeleting)
            /\ "example.com" = metav1.Name (ZoneObjectMeta zone))
      /\ "www.example.com." = Ref.getRRsetName deleting
      /\ "A" = Type_ (Spec deleting)
      /\ forallb (fun e => negb (Ref.isChange e)) (trace runDeleting) = true).
Proof.
  assert (Hget : In (EvGet req (inr deleting)) (trace runDeleting))
    by in_trace.
  assert (Hin : In (EvRecordsDelete "example.com" "www.example.com." "A"
                      None) (trace runDeleting)) by in_trace.
  split; [exact Hget|]. split; [exact Hin|].
  eapply external_delete_only_in_finalization;
    [exact (run_parts runDeleting) | exact Hget | exact Hin].
Defined.

(** Witness of [unowned_object_is_not_patched]: the object is controlled
    by another owner. *)
Lemma unowned_object_is_not_patched_witness :
  In (EvSetControllerReference zone adopted (inl Ref.alreadyOwned))
     (trace runAdopted)
  /\ exists prefix,
       trace runAdopted
       = prefix
           ++ [EvSetControllerReference zone adopted (inl Ref.alreadyOwned)]
       /\ forallb (fun e => negb (isStatusPatch e || isPublish e)) prefix
          = true
       /\ (forall sent res, In (EvUpdate sent res) prefix ->
             sent = adopted /\ res = None)
       /\ result runAdopted
          = Returned
              (if errors.IsConflict Ref.alreadyOwned
               then ({| ctrl.Requeue := true; ctrl.RequeueAfter := 0 |},
                     None)
               else (ctrl.noResult, Some Ref.alreadyOwned)).
Proof.
  assert (Hin : In (EvSetControllerReference zone adopted
                      (inl Ref.alreadyOwned)) (trace runAdopted))
    by in_trace.
  split; [exact Hin|].
  eapply unowned_object_is_not_patched;
    [exact (run_parts runAdopted) | exact Hin].
Defined.

(** Witness of [updates_of_one_invocation]: the update that attaches the
    finalizer to the object just created. *)
Lemma updates_of_one_invocation_witness :
  In (EvGet req (inr created)) (trace runCreated)
  /\ In (EvUpdate (controllerutil.AddFinalizer created Ref.FINALIZER_NAME)
           None) (trace runCreated)
  /\ (let sent := controllerutil.AddFinalizer created Ref.FINALIZER_NAME in
      let deleted :=
        negb (metav1.IsZero
                (metav1.DeletionTimestamp (ObjectMeta created))) in
      let zoneFound := existsb isZoneFound (trace runCreated) in
      (sent = controllerutil.AddFinalizer created Ref.FINALIZER_NAME
       /\ controllerutil.ContainsFinalizer created Ref.FINALIZER_NAME = false
       /\ deleted = false /\ zoneFound = true)
      \/ (sent = controllerutil.RemoveFinalizer created Ref.FINALIZER_NAME
          /\ controllerutil.ContainsFinalizer created Ref.FINALIZER_NAME
             = true
          /\ (deleted = true \/ zoneFound = false))
      \/ (exists zone,
            In (EvSetControllerReference zone
                  (controllerutil.AddFinalizer created Ref.FINALIZER_NAME)
                  (inr sent)) (trace runCreated)
            /\ deleted = false /\ zoneFound = true)).
Proof.
  assert (Hget : In (EvGet req (inr created)) (trace runCreated))
    by in_trace.
  assert (Hin : In (EvUpdate (controllerutil.AddFinalizer created
                                Ref.FINALIZER_NAME) None)
                   (trace runCreated)) by in_trace.
  split; [exact Hget|]. split; [exact Hin|].
  eapply updates_of_one_invocation;
    [exact (run_parts runCreated) | exact Hget | exact Hin].
Defined.

(** Witness of [status_patch_writes_a_complete_status]: the status patch
    of the object synchronised before. *)
Lemma status_patch_writes_a_complete_status_witness :
  In (EvStatusPatch (succeededSync (owned synced) 5%Z) (owned synced) None)
     (trace runSynced)
  /\ (let patch := succeededSync (owned synced) 5%Z in
      let original := owned synced in
      ObjectMeta patch = ObjectMeta original
      /\ Spec patch = Spec original
      /\ (exists lastUpdateTime,
            LastUpdateTime (Status patch) = Some lastUpdateTime
            /\ DnsEntryName (Status patch)
               = Some (Ref.getRRsetName
                         (setLastUpdateTime (Some lastUpdateTime) original)))
      /\ ((SyncStatus (Status patch) = Some FAILED_STATUS
           /\ exists description,
                SyncErrorDescription (Status patch) = Some description)
          \/ (SyncStatus (Status patch) = Some SUCCEEDED_STATUS
              /\ SyncErrorDescription (Status patch)
                 = SyncErrorDescription (Status original)))).
Proof.
  assert (Hin : In (EvStatusPatch (succeededSync (owned synced) 5%Z)
                      (owned synced) None) (trace runSynced)) by in_trace.
  split; [exact Hin|].
  eapply status_patch_writes_a_complete_status;
    [exact (run_parts runSynced) | exact Hin].
Defined.

(** Witness of [succeeded_means_synchronised]: the apply fails, and the
    status patch reports Failed. *)
Lemma succeeded_means_synchronised_witness :
  In (EvStatusPatch (failedApply (owned synced) 5%Z) (owned synced) None)
     (trace runApplyFails)
  /\ ((SyncStatus (Status (failedApply (owned synced) 5%Z))
       = Some SUCCEEDED_STATUS
       <-> existsb isFetch (trace runApplyFails) = true
           /\ forallb (fun e => isNil (syncFailure e)) (trace runApplyFails)
              = true)
      /\ (SyncStatus (Status (failedApply (owned synced) 5%Z))
          = Some SUCCEEDED_STATUS
          \/ SyncStatus (Status (failedApply (owned synced) 5%Z))
             = Some FAILED_STATUS)).
Proof.
  assert (Hin : In (EvStatusPatch (failedApply (owned synced) 5%Z)
                      (owned synced) None) (trace runApplyFails))
    by in_trace.
  split; [exact Hin|].
  eapply succeeded_means_synchronised;
    [exact (run_parts runApplyFails) | exact Hin].
Defined.

(** Witness of [metrics_report_the_status_written]: the metrics of the
    object synchronised before. *)
Lemma metrics_report_the_status_written_witness :
  In (EvUpdateRrsetsMetrics "www.example.com." "A" "Succeeded" "www"
        "default") (trace runSynced)
  /\ exists prefix,
       trace runSynced
       = prefix ++ [EvUpdateRrsetsMetrics "www.example.com." "A" "Succeeded"
                      "www" "default"]
       /\ result runSynced = Returned (ctrl.noResult, None)
       /\ ((forallb (fun e => negb (isStatusPatch e)) prefix = true
            /\ "Succeeded" = FAILED_STATUS
            /\ exists rrset,
                 In (EvGet req (inr rrset)) prefix
                 /\ isInFailedStatus rrset = true)
           \/ (exists prefix' patch original,
                 prefix = prefix' ++ [EvStatusPatch patch original None]
                 /\ SyncStatus (Status patch) = Some "Succeeded"
                 /\ "www.example.com." = Ref.getRRsetName patch
                 /\ "A" = Type_ (Spec patch)
                 /\ "www" = metav1.Name (ObjectMeta patch)
                 /\ "default" = metav1.Namespace (ObjectMeta patch))).
Proof.
  assert (Hin : In (EvUpdateRrsetsMetrics "www.example.com." "A" "Succeeded"
                      "www" "default") (trace runSynced)) by in_trace.
  split; [exact Hin|].
  eapply metrics_report_the_status_written;
    [exact (run_parts runSynced) | exact Hin].
Defined.

(** Witness of [returned_error_is_of_the_last_call]: the duplicate check
    fails. *)
Lemma returned_error_is_of_the_last_call_witness :
  runListFails
  = (Returned (ctrl.noResult, Some unavailable),
     (after runListFails, trace runListFails))
  /\ (ctrl.noResult = ctrl.noResult
      /\ exists prefix e,
           trace runListFails = prefix ++ [e]
           /\ reported e = Some unavailable).
Proof.
  assert (Hrun : runListFails
                 = (Returned (ctrl.noResult, Some unavailable),
                    (after runListFails, trace runListFails)))
    by (vm_compute; reflexivity).
  split; [exact Hrun|].
  eapply returned_error_is_of_the_last_call. exact Hrun.
Defined.

(** Witness of [requeue_requests]: the zone is gone. *)
Lemma requeue_requests_witness :
  runNoZone
  = (Returned ({| ctrl.Requeue := false;
                  ctrl.RequeueAfter := 2 * time.Second |}, None),
     (after runNoZone, trace runNoZone))
  /\ (let res := {| ctrl.Requeue := false;
                    ctrl.RequeueAfter := 2 * time.Second |} in
      (ctrl.Requeue res = true ->
         @None error = None /\ ctrl.RequeueAfter res = 0%Z
         /\ exists prefix zone obj e,
              errors.IsConflict e = true
              /\ (trace runNoZone
                  = prefix ++ [EvSetControllerReference zone obj (inl e)]
                  \/ exists owned,
                       trace runNoZone
                       = prefix
                           ++ [EvSetControllerReference zone obj (inr owned);
                               EvUpdate owned (Some e)]))
      /\ (ctrl.RequeueAfter res <> 0%Z ->
            @None error = None /\ ctrl.Requeue res = false
            /\ ctrl.RequeueAfter res = (2 * time.Second)%Z
            /\ exists key e,
                 In (EvGetZone key (inl e)) (trace runNoZone)
                 /\ errors.IsNotFound e = true)).
Proof.
  assert (Hrun : runNoZone
                 = (Returned ({| ctrl.Requeue := false;
                                 ctrl.RequeueAfter := 2 * time.Second |},
                              None),
                    (after runNoZone, trace runNoZone)))
    by (vm_compute; reflexivity).
  split; [exact Hrun|].
  eapply requeue_requests. exact Hrun.
Defined.

(** Witness of [invocation_panics_iff]: the server answers the fetch with
    a record-set without a name, and the invocation panics. *)
Lemma invocation_panics_iff_witness :
  result runNameless = Panicked
  /\ (result runNameless = Panicked
      <-> exists prefix zoneName name rrtype fetched err,
            trace runNameless
            = prefix ++ [EvRecordsGet zoneName name rrtype (fetched, err)]
            /\ match err with
               | Some e => errors.IsNotFound e = true
               | None => True
               end
            /\ filterRecords fetched (Ref.makeCanonical name)
                 powerdns.zeroRRset
               = Panicked).
Proof.
  split; [reflexivity|].
  eapply invocation_panics_iff. exact (run_parts runNameless).
Defined.

(** Witness of [calls_of_one_invocation]: the first invocation for the
    object just created, which makes every call of the normal path. *)
Lemma calls_of_one_invocation_witness :
  runCreated = (result runCreated, (after runCreated, trace runCreated))
  /\ (let count (p : Event -> bool) :=
        length (filter p (trace runCreated)) in
      (count isUpdate <= 2
       /\ count isList <= 1
       /\ count isStatusPatch <= 1
       /\ count isFetch <= 1
       /\ count (fun e => Ref.isChange e || isDelete e) <= 1)%nat).
Proof.
  split; [exact (run_parts runCreated)|].
  eapply calls_of_one_invocation. exact (run_parts runCreated).
Defined.

End Runs.

(* ===================================================================== *)
(** ** Two invocations in a row *)
(* ===================================================================== *)

Section Idempotence.
Import dnsv1alpha1.

Variable finalizer : string.
Variable getName : RRset -> string.
Variable canonical : string -> string.
Variable stray : string -> string -> string ->
                 list (string * powerdns.RRset) -> list powerdns.RRset.

Let reconcile := Upstream.reconcile getName canonical stray finalizer.
Let steady := Upstream.steady getName canonical stray finalizer.
Let identical := Upstream.rrsetIsIdenticalToExternalRRset canonical.

(** [ctrl.SetControllerReference] touches the owner references only. *)
Lemma refSetControllerReference_inr (z : Zone) (o o' : RRset) :
  Ref.refSetControllerReference z o tt = inr o' ->
  Status o' = Status o
  /\ Spec o' = Spec o
  /\ metav1.DeletionTimestamp (ObjectMeta o')
     = metav1.DeletionTimestamp (ObjectMeta o)
  /\ metav1.Finalizers (ObjectMeta o') = metav1.Finalizers (ObjectMeta o)
  /\ metav1.Name (ObjectMeta o') = metav1.Name (ObjectMeta o)
  /\ metav1.Namespace (ObjectMeta o') = metav1.Namespace (ObjectMeta o).
Proof.
  unfold Ref.refSetControllerReference. intros H.
  destruct (negb _); [discriminate|].
  destruct (existsb _ _); [discriminate|].
  injection H as <-. repeat split; reflexivity.
Qed.

(** The update of an object that is not under deletion keeps the status
    the store holds. *)
Lemma stored_not_deleted (obj held : RRset) :
  metav1.IsZero (metav1.DeletionTimestamp (ObjectMeta obj)) = true ->
  Ref.stored obj held
  = Some {| ObjectMeta := ObjectMeta obj; Spec := Spec obj;
            Status := Status held |}.
Proof. unfold Ref.stored. intros ->. reflexivity. Qed.

Lemma AddFinalizer_DeletionTimestamp (o : RRset) (f : string) :
  metav1.DeletionTimestamp (ObjectMeta (controllerutil.AddFinalizer o f))
  = metav1.DeletionTimestamp (ObjectMeta o).
Proof.
  unfold controllerutil.AddFinalizer.
  destruct (controllerutil.ContainsFinalizer o f); reflexivity.
Qed.

Lemma RemoveFinalizer_DeletionTimestamp (o : RRset) (f : string) :
  metav1.DeletionTimestamp (ObjectMeta (controllerutil.RemoveFinalizer o f))
  = metav1.DeletionTimestamp (ObjectMeta o).
Proof. reflexivity. Qed.

Lemma ContainsFinalizer_AddFinalizer (o : RRset) (f : string) :
  controllerutil.ContainsFinalizer (controllerutil.AddFinalizer o f) f = true.
Proof.
  unfold controllerutil.AddFinalizer.
  destruct (controllerutil.ContainsFinalizer o f) eqn:E; [exact E|].
  unfold controllerutil.ContainsFinalizer. cbn.
  rewrite existsb_app. cbn. rewrite String.eqb_refl.
  apply orb_true_iff. right. reflexivity.
Qed.

(** A field of the merged status: the one of the patch. *)
Lemma merge_field {A} (eqb : A -> A -> bool) (a b : option A) :
  (forall x y, eqb x y = true -> x = y) ->
  (if Ref.optionEqb eqb a b then b else a) = a.
Proof.
  intros Heq. destruct a as [x|], b as [y|]; cbn; try reflexivity.
  destruct (eqb x y) eqn:E; [|reflexivity].
  rewrite (Heq x y E). reflexivity.
Qed.

Lemma filter_none {A} (p : A -> bool) (l : list A) :
  filter p (filter (fun x => negb (p x)) l) = [].
Proof.
  induction l as [|x l IH]; cbn; [reflexivity|].
  destruct (p x) eqn:E; cbn; [exact IH|]. rewrite E. exact IH.
Qed.

(** The loop over an answer passes over the entries named otherwise. *)
Lemma filterRecords_skips (strays rest : list powerdns.RRset)
      (name : string) (zero : powerdns.RRset) :
  forallb (Upstream.namedOtherwise name) strays = true ->
  filterRecords (strays ++ rest) name zero = filterRecords rest name zero.
Proof.
  induction strays as [|fr strays IH]; cbn [app forallb filterRecords];
    [reflexivity|].
  intros H. apply andb_prop in H. destruct H as [Hfr Hrest].
  unfold Upstream.namedOtherwise in Hfr.
  destruct (powerdns.Name fr) as [n|]; [|discriminate Hfr].
  apply negb_true_iff in Hfr. rewrite Hfr. exact (IH Hrest).
Qed.

(** After an apply the server holds the record-set applied, and that one
    only, under its name and type. *)
Lemma records_after_apply (zone name rrtype : string) (ttl : Z)
      (records : list string) (opt : powerdns.RRsetOption)
      (comments : list powerdns.Comment)
      (l : list (string * powerdns.RRset)) :
  map snd
    (filter (Ref.isRecord canonical zone name rrtype)
       ((zone, Ref.changed canonical name rrtype ttl records opt comments)
          :: filter (fun e => negb (Ref.isRecord canonical zone name rrtype e))
                    l))
  = [Ref.changed canonical name rrtype ttl records opt comments].
Proof.
  cbn [filter]. unfold Ref.isRecord at 1. cbn.
  rewrite !String.eqb_refl. cbn.
  rewrite filter_none. reflexivity.
Qed.

Lemma listEqb_refl {A} (eqb : A -> A -> bool) (l : list A) :
  (forall x, eqb x x = true) -> Ref.listEqb eqb l l = true.
Proof.
  intros Hrefl. induction l as [|x l IH]; cbn; [reflexivity|].
  rewrite Hrefl. exact IH.
Qed.

(** The comparison reads the spec of the object only. *)
Lemma identical_reads_spec (o o' : RRset) (e : powerdns.RRset) :
  Spec o = Spec o' -> identical o e = identical o' e.
Proof.
  unfold identical, Upstream.rrsetIsIdenticalToExternalRRset, Upstream.diff,
    Upstream.desiredComments.
  intros ->. reflexivity.
Qed.

(** The comparison accepts the record-set an apply of the object leaves,
    when the comments the server keeps are those the object asks for. *)
Lemma identical_after_apply (o : RRset) (name : string)
      (comments : list powerdns.Comment) :
  (Comment (Spec o) = None -> comments = []) ->
  identical o
    (Ref.changed canonical name (Type_ (Spec o)) (TTL (Spec o))
       (Records (Spec o))
       match Comment (Spec o) with
       | Some c =>
           powerdns.WithComments
             {| powerdns.Content := Some c;
                powerdns.Account := Some operatorAccount |}
       | None => powerdns.NoOption
       end comments)
  = true.
Proof.
  intros Hc.
  unfold identical, Upstream.rrsetIsIdenticalToExternalRRset, Upstream.diff,
    Upstream.desiredComments, Ref.changed.
  cbn [powerdns.Type_ powerdns.TTL powerdns.Records powerdns.Comments
       Ref.optionEqb].
  rewrite String.eqb_refl, Z.eqb_refl.
  replace (map canonical
             (map powerdns.RecordContent
                (map (fun c => {| powerdns.RecordContent := c;
                                  powerdns.Disabled := false |})
                     (Records (Spec o)))))
    with (map canonical (Records (Spec o)))
    by (rewrite !map_map; reflexivity).
  rewrite (listEqb_refl String.eqb) by apply String.eqb_refl.
  destruct (Comment (Spec o)) as [c|].
  - cbn. rewrite String.eqb_refl. reflexivity.
  - rewrite (Hc eq_refl). reflexivity.
Qed.

(** The comments an apply keeps, on a server that holds no comment the
    object does not ask for. *)
Lemma heldComments_none (zone name rrtype : string)
      (l : list (string * powerdns.RRset)) :
  forallb
    (fun e =>
       negb (Ref.optionEqb String.eqb (powerdns.Name (snd e))
               (Some (canonical name))
             && Ref.optionEqb String.eqb (powerdns.Type_ (snd e))
                  (Some rrtype))
       || Upstream.noComments (snd e)) l = true ->
  Ref.heldComments canonical zone name rrtype l = [].
Proof.
  intros Hall. unfold Ref.heldComments.
  destruct (find _ l) as [e|] eqn:Ef; [|reflexivity].
  apply find_some in Ef. destruct Ef as [Hin He].
  rewrite forallb_forall in Hall. specialize (Hall e Hin).
  unfold Ref.isRecord in He.
  apply andb_prop in He. destruct He as [He Hty].
  apply andb_prop in He. destruct He as [_ Hn].
  rewrite Hn, Hty in Hall. cbn in Hall.
  unfold Upstream.noComments in Hall.
  destruct (powerdns.Comments (snd e)); [reflexivity|discriminate Hall].
Qed.

(** An invocation on a steady world, whose fetch is not answered with
    NotFound, applies nothing and leaves the record-sets of the server and
    the lastUpdateTime of the stored object as they are. *)
Lemma steady_invocation_is_noop
      (f : Ref.Faults) (req : client.ObjectKey) (w w' : Ref.World)
      (o : outcome (ctrl.Result * option error)) (t : Trace) :
  steady req w = true ->
  (forall e, Ref.onRecordsGet f = Some e -> errors.IsNotFound e = false) ->
  reconcile f req w = (o, (w', t)) ->
  forallb (fun e => negb (Ref.isChange e)) t = true
  /\ Ref.pdns w' = Ref.pdns w
  /\ Ref.lastUpdateTimeOf w' = Ref.lastUpdateTimeOf w.
Proof.
  unfold steady, Upstream.steady, reconcile. intros Hs Hf H.
  destruct (Ref.object w) as [held|] eqn:Eheld; [|discriminate].
  apply andb_prop in Hs. destruct Hs as [Hs Hcase].
  apply andb_prop in Hs. destruct Hs as [Hs Hfin].
  apply andb_prop in Hs. destruct Hs as [Hkey Hdel].
  destruct (isInFailedStatus held) eqn:Efailed; cbn [orb] in Hcase.
  - exec_up H.
    all: split; [reflexivity|].
    all: split; [reflexivity|].
    all: unfold Ref.lastUpdateTimeOf;
      cbn [Ref.object Ref.setObject Ref.setFaults]; rewrite ?Eheld.
    all: try reflexivity.
    all: rewrite stored_not_deleted by exact Hdel; reflexivity.
  - apply andb_prop in Hcase. destruct Hcase as [Hcase Hsync].
    apply andb_prop in Hcase. destruct Hcase as [Hok Hlut].
    destruct (LastUpdateTime (Status held)) as [t0|] eqn:Elut;
      [|discriminate Hlut].
    destruct (Ref.onRecordsGet f) as [e|] eqn:Eget;
      [specialize (Hf e eq_refl)|clear Hf].
    all: exec_up H.
    all: try match goal with
      | Hz : find _ (Ref.zones _) = Some _,
        Hr : filterRecords _ _ _ = _ |- _ =>
          unfold Upstream.zoneOf in Hsync; rewrite Hz in Hsync;
          unfold Upstream.inSync in Hsync; rewrite Hr in Hsync;
          try match goal with
            | Hi : (negb _ && _) = false |- _ =>
                rewrite Hi in Hsync
            end;
          try discriminate Hsync
      end.
    all: split; [reflexivity|].
    all: split; [reflexivity|].
    all: try reflexivity.
    all: unfold Ref.lastUpdateTimeOf;
      cbn [Ref.object Ref.setObject Ref.setFaults]; rewrite ?Eheld.
    all: try reflexivity.
    all: try match goal with
      | Hr : Ref.refSetControllerReference _ _ _ = inr _ |- _ =>
          apply refSetControllerReference_inr in Hr;
          destruct Hr as (Hst & Hsp & Hdel' & Hfin' & Hn & Hns)
      end.
    all: rewrite ?stored_not_deleted
      by (first [exact Hdel | rewrite Hdel'; exact Hdel]).
    all: try match goal with
      | Hsd : Ref.stored _ _ = _ |- _ =>
          rewrite stored_not_deleted in Hsd
            by (first [exact Hdel | rewrite Hdel'; exact Hdel]);
          first [discriminate Hsd | injection Hsd as <-]
      end.
    all: cbn; rewrite ?Hst, ?Elut; cbn; rewrite ?Z.eqb_refl.
    all: reflexivity.
Qed.

Lemma steady_failed (req : client.ObjectKey) (w : Ref.World) (o : RRset) :
  Ref.object w = Some o ->
  Ref.hasKey req (ObjectMeta o) = true ->
  metav1.IsZero (metav1.DeletionTimestamp (ObjectMeta o)) = true ->
  controllerutil.ContainsFinalizer o finalizer = true ->
  SyncStatus (Status o) = Some FAILED_STATUS ->
  steady req w = true.
Proof.
  unfold steady, Upstream.steady, isInFailedStatus.
  intros -> -> -> -> ->. reflexivity.
Qed.

Lemma steady_succeeded (req : client.ObjectKey) (w : Ref.World) (o : RRset)
      (z : Zone) (t0 : metav1.Time) :
  Ref.object w = Some o ->
  Ref.hasKey req (ObjectMeta o) = true ->
  metav1.IsZero (metav1.DeletionTimestamp (ObjectMeta o)) = true ->
  controllerutil.ContainsFinalizer o finalizer = true ->
  SyncStatus (Status o) = Some SUCCEEDED_STATUS ->
  LastUpdateTime (Status o) = Some t0 ->
  Upstream.zoneOf o w = Some z ->
  Upstream.inSync getName canonical stray z o w = true ->
  steady req w = true.
Proof.
  unfold steady, Upstream.steady, isInFailedStatus.
  intros -> -> -> -> -> -> -> ->. reflexivity.
Qed.

(** What the theorem asks of the helpers of the package that are not under
    src/ and of the server: the resolved name of an object is determined by
    its name, its namespace and its spec; the stray entries of an answer
    have a name, and not the one asked for. *)
Hypothesis getName_reads_spec :
  forall o o' : RRset,
    Spec o = Spec o' ->
    metav1.Name (ObjectMeta o) = metav1.Name (ObjectMeta o') ->
    metav1.Namespace (ObjectMeta o) = metav1.Namespace (ObjectMeta o') ->
    getName o = getName o'.

Hypothesis strays_named_otherwise :
  forall (zone name rrtype : string) (held : list (string * powerdns.RRset)),
    forallb (Upstream.namedOtherwise (canonical name))
            (stray zone name rrtype held) = true.

Lemma accepted_patch_steadies
      (f : Ref.Faults) (req : client.ObjectKey) (w w' : Ref.World)
      (o : outcome (ctrl.Result * option error)) (t : Trace)
      (patch original : RRset) :
  Upstream.noForeignComment getName canonical w = true ->
  reconcile f req w = (o, (w', t)) ->
  In (EvStatusPatch patch original None) t ->
  steady req w' = true.
Proof.
  unfold reconcile. intros Hclean H Hpatch.
  destruct f as [fget fzone fupdate flist fpatch frget frchange frdelete].
  destruct (Ref.object w) as [rd|] eqn:Eobj.
  2: { exec_up H; trace_in Hpatch. }
  exec_up H.
  all: cbn [In] in Hpatch;
    repeat (destruct Hpatch as [Hpatch|Hpatch];
            [try discriminate Hpatch; clear Hpatch|]);
    try contradiction.
  all: try match goal with
    | Hf : filterRecords [] _ _ = Returned ?a,
      Hb : (negb (isNil (powerdns.Name ?a)) && _) = true |- _ =>
        cbn [filterRecords] in Hf; injection Hf as <-; discriminate Hb
    end.
  (* everything in terms of the object read *)
  all: assert (HgA : getName (controllerutil.AddFinalizer rd finalizer)
                     = getName rd)
    by (apply getName_reads_spec;
        [apply AddFinalizer_Spec | apply AddFinalizer_Name
        | apply AddFinalizer_Namespace]).
  all: assert (HiA : forall e,
                  Upstream.rrsetIsIdenticalToExternalRRset canonical
                    (controllerutil.AddFinalizer rd finalizer) e
                  = Upstream.rrsetIsIdenticalToExternalRRset canonical rd e)
    by (intros e'; apply identical_reads_spec, AddFinalizer_Spec).
  all: pose proof (ContainsFinalizer_AddFinalizer rd finalizer) as HcA.
  all: try match goal with
    | Hr : Ref.refSetControllerReference _ _ _ = inr _ |- _ =>
        apply refSetControllerReference_inr in Hr;
        destruct Hr as (Hst & Hsp & Hdel & Hfin & Hn & Hns)
    end.
  all: repeat match goal with
    | Hsd : Ref.stored _ _ = Some _ |- _ =>
        rewrite stored_not_deleted in Hsd
          by (rewrite ?Hdel, ?AddFinalizer_DeletionTimestamp; assumption);
        injection Hsd as <-
    end.
  all: rewrite ?HgA, ?HiA in *.
  all: rewrite ?AddFinalizer_Spec, ?AddFinalizer_Status, ?AddFinalizer_Name,
         ?AddFinalizer_Namespace, ?AddFinalizer_DeletionTimestamp in *.
  (* the stored object carries the finalizer *)
  all: assert (Hcarried :
                 forall m : metav1.ObjectMeta,
                   metav1.Finalizers m
                   = metav1.Finalizers
                       (ObjectMeta (controllerutil.AddFinalizer rd finalizer))
                   \/ metav1.Finalizers m = metav1.Finalizers (ObjectMeta rd)
                      /\ controllerutil.ContainsFinalizer rd finalizer = true ->
                   existsb (String.eqb finalizer) (metav1.Finalizers m) = true)
    by (intros m [-> | [-> Hc]]; [exact HcA | exact Hc]).
  all: try solve
    [ eapply steady_failed;
      [ reflexivity
      | unfold Ref.hasKey in *; proj_simpl; rewrite ?Hn, ?Hns;
        rewrite ?AddFinalizer_Name, ?AddFinalizer_Namespace; assumption
      | proj_simpl; rewrite ?Hdel, ?AddFinalizer_DeletionTimestamp; assumption
      | unfold controllerutil.ContainsFinalizer; proj_simpl;
        apply Hcarried; rewrite ?Hfin;
        first [left; reflexivity | right; split; [reflexivity|assumption]]
      | proj_simpl; rewrite ?Hst, ?AddFinalizer_Status; apply merge_field;
        intros x y; apply String.eqb_eq ] ].
  all: try (eapply steady_succeeded with (z := z);
    [ reflexivity
    | unfold Ref.hasKey in *; proj_simpl; rewrite ?Hn, ?Hns;
      rewrite ?AddFinalizer_Name, ?AddFinalizer_Namespace; assumption
    | proj_simpl; rewrite ?Hdel, ?AddFinalizer_DeletionTimestamp; assumption
    | unfold controllerutil.ContainsFinalizer; proj_simpl;
      apply Hcarried; rewrite ?Hfin;
      first [left; reflexivity | right; split; [reflexivity|assumption]]
    | proj_simpl; rewrite ?Hst, ?AddFinalizer_Status; apply merge_field;
      intros x y; apply String.eqb_eq
    | proj_simpl; rewrite ?Hst, ?AddFinalizer_Status; apply merge_field;
      intros x y; apply Z.eqb_eq
    | unfold Upstream.zoneOf; proj_simpl; rewrite ?Hns, ?Hsp;
      rewrite ?AddFinalizer_Namespace, ?AddFinalizer_Spec; assumption
    | ]).
  (* the server holds what the stored object asks for *)
  all: match goal with
    | |- Upstream.inSync _ _ _ _ ?o' _ = true =>
        assert (Hs : Spec o' = Spec rd)
          by (proj_simpl; rewrite ?Hsp, ?AddFinalizer_Spec; reflexivity);
        assert (Hg : getName o' = getName rd)
          by (apply getName_reads_spec; proj_simpl;
              rewrite ?Hsp, ?Hn, ?Hns, ?AddFinalizer_Spec, ?AddFinalizer_Name,
                ?AddFinalizer_Namespace; reflexivity);
        assert (Hi : forall e,
                   Upstream.rrsetIsIdenticalToExternalRRset canonical o' e
                   = Upstream.rrsetIsIdenticalToExternalRRset canonical rd e)
          by (intros e'; apply identical_reads_spec; exact Hs);
        unfold Upstream.inSync; rewrite Hg, Hs;
        cbn [Ref.pdns Ref.setObject Ref.setPdns Ref.setFaults]
    end.
  all: try match goal with
    | Hf : filterRecords _ _ _ = Returned ?a,
      Hb : (negb (isNil (powerdns.Name ?a)) && _) = true |- _ =>
        rewrite Hf; cbn beta iota; rewrite Hi; exact Hb
    end.
  all: unfold Upstream.answer.
  all: rewrite filterRecords_skips by apply strays_named_otherwise.
  all: rewrite records_after_apply.
  all: cbn [filterRecords Ref.changed powerdns.Name]; rewrite String.eqb_refl.
  all: cbn [isNil negb andb powerdns.Name Ref.changed]; rewrite Hi.
  all: apply identical_after_apply.
  all: intros Hc; apply heldComments_none.
  all: unfold Upstream.noForeignComment in Hclean;
    rewrite Eobj, Hc in Hclean; exact Hclean.
Qed.


End Idempotence.

Section RunsInARow.
Import dnsv1alpha1 Example.

(** The helpers and the server of the concrete runs meet what the theorem
    asks of them. *)
Lemma ref_getRRsetName_reads_spec (o o' : RRset) :
  Spec o = Spec o' ->
  metav1.Name (ObjectMeta o) = metav1.Name (ObjectMeta o') ->
  metav1.Namespace (ObjectMeta o) = metav1.Namespace (ObjectMeta o') ->
  Ref.getRRsetName o = Ref.getRRsetName o'.
Proof. unfold Ref.getRRsetName. intros -> -> _. reflexivity. Qed.

Lemma leak_named_otherwise (zone name rrtype : string)
      (held : list (string * powerdns.RRset)) :
  forallb (Upstream.namedOtherwise (Ref.makeCanonical name))
          (leak zone name rrtype held) = true.
Proof.
  unfold leak.
  destruct (String.eqb (Ref.makeCanonical name) "mail.example.com.")
    eqn:Hname; [reflexivity|].
  change (negb (String.eqb "mail.example.com." (Ref.makeCanonical name))
          && true = true).
  rewrite String.eqb_sym, Hname. reflexivity.
Qed.



End RunsInARow.
